(** * Multi-contact walking pattern generator: FSM, COM tube, preview control

    Shallow embedding of [examples/multi_contact_walking.py] (with the two
    helpers [norm] and [normalize] of [pymanoid/misc.py]).

    Modelling conventions.
    - Python floats and numpy scalars are idealised as exact rationals [Q];
      numpy's [sqrt] is a parameter of the development.
    - Python integers are [Z]; list indexing follows Python (negative indices
      count from the end, an index out of range raises [IndexError]).
    - A method that mutates [self] is a computation in a small state and
      exception monad: it maps the object to an outcome and the object as the
      method left it (mutations made before a [raise] persist).
    - Calls into collaborators that are not part of the modelled code (GUI,
      IK solver, swing-foot body, [print]) are recorded as events in a log
      carried by the object. *)

From Stdlib Require Import ZArith QArith Qround Qabs List Ascii String Bool Lia Lqa.
Import ListNotations.

(** ** Python run-time conventions *)

Module Py.

Inductive exn : Type :=
| IndexError
| ZeroDivisionError
| UnboundLocalError
| AttributeError
| TypeError
| ValueError
| RuntimeError
| NotImplementedError.

Inductive result (A : Type) : Type :=
| Ok (a : A)
| Raise (e : exn).

Arguments Ok {A} a.
Arguments Raise {A} e.

(** Sequencing of pure fallible expressions. *)
Definition rbind {A B} (r : result A) (k : A -> result B) : result B :=
  match r with
  | Ok a => k a
  | Raise e => Raise e
  end.

(** Computations over a mutable object of type [S]. *)
Definition M (S A : Type) : Type := S -> result A * S.

Definition ret {S A} (a : A) : M S A := fun s => (Ok a, s).

Definition bind {S A B} (c : M S A) (k : A -> M S B) : M S B :=
  fun s =>
    match c s with
    | (Ok a, s') => k a s'
    | (Raise e, s') => (Raise e, s')
    end.

Definition get {S} : M S S := fun s => (Ok s, s).

Definition modify {S} (f : S -> S) : M S unit := fun s => (Ok tt, f s).

(** Lifting of a pure fallible expression. *)
Definition lift {S A} (r : result A) : M S A := fun s => (r, s).

Definition exn_eqb (e1 e2 : exn) : bool :=
  match e1, e2 with
  | IndexError, IndexError
  | ZeroDivisionError, ZeroDivisionError
  | UnboundLocalError, UnboundLocalError
  | AttributeError, AttributeError
  | TypeError, TypeError
  | ValueError, ValueError
  | RuntimeError, RuntimeError
  | NotImplementedError, NotImplementedError => true
  | _, _ => false
  end.

(** [try: body except e: handler]. *)
Definition try_except {S A} (body : M S A) (e : exn) (handler : M S A)
  : M S A :=
  fun s =>
    match body s with
    | (Ok a, s') => (Ok a, s')
    | (Raise e', s') => if exn_eqb e e' then handler s' else (Raise e', s')
    end.

(** [l[i]] on a Python list. *)
Definition index {A} (l : list A) (i : Z) : result A :=
  let n := Z.of_nat (List.length l) in
  let j := (if i <? 0 then i + n else i)%Z in
  if ((0 <=? j) && (j <? n))%Z
  then match nth_error l (Z.to_nat j) with
       | Some a => Ok a
       | None => Raise IndexError
       end
  else Raise IndexError.

(** [a[j:k]] on a list or array, with Python's treatment of negative and
    out-of-range bounds: slices never raise, they clip. *)
Definition clip (n i : Z) : Z :=
  Z.max 0 (Z.min n (if i <? 0 then i + n else i))%Z.

Definition slice {A} (l : list A) (j k : Z) : list A :=
  let n := Z.of_nat (List.length l) in
  let a := clip n j in
  let b := clip n k in
  firstn (Z.to_nat (b - a)) (skipn (Z.to_nat a) l).

(** [int(x)] on a float: truncation toward zero. *)
Definition int (x : Q) : Z := Z.quot (Qnum x) (Zpos (Qden x)).

(** [x / y] on Python floats. *)
Definition fdiv (x y : Q) : result Q :=
  if Qeq_bool y 0 then Raise ZeroDivisionError else Ok (x / y)%Q.

Definition Qltb (x y : Q) : bool := negb (Qle_bool y x).

(** [s.startswith(p)] and [s.endswith(p)]. *)
Definition startswith (s p : string) : bool := String.prefix p s.

Definition endswith (s p : string) : bool :=
  (String.length p <=? String.length s)%nat
  && String.eqb
       (String.substring (String.length s - String.length p)
          (String.length p) s) p.

End Py.

Declare Scope py_scope.
Delimit Scope py_scope with py.
Notation "x <- c ;; k" := (Py.bind c (fun x => k))
  (at level 61, c at next level, right associativity) : py_scope.
Notation "c ;;; k" := (Py.bind c (fun _ => k))
  (at level 61, right associativity) : py_scope.

(** ** Vectors (numpy arrays of shape (3,) and pairs of a reduced cone) *)

Module Vec.

Record vec3 : Type := mk3 { vx : Q; vy : Q; vz : Q }.

Definition vec2 : Type := (Q * Q)%type.

Definition add (u v : vec3) : vec3 :=
  mk3 (vx u + vx v) (vy u + vy v) (vz u + vz v).

Definition sub (u v : vec3) : vec3 :=
  mk3 (vx u - vx v) (vy u - vy v) (vz u - vz v).

Definition scale (k : Q) (v : vec3) : vec3 :=
  mk3 (k * vx v) (k * vy v) (k * vz v).

(** [v / k] on an array: numpy does not raise on a zero divisor. *)
Definition divs (v : vec3) (k : Q) : vec3 :=
  mk3 (vx v / k) (vy v / k) (vz v / k).

Definition dot (u v : vec3) : Q :=
  vx u * vx v + vy u * vy v + vz u * vz v.

Definition cross (u v : vec3) : vec3 :=
  mk3 (vy u * vz v - vz u * vy v)
      (vz u * vx v - vx u * vz v)
      (vx u * vy v - vy u * vx v).

(** [all(abs(u - v) < eps)]. *)
Definition all_close (u v : vec3) (eps : Q) : bool :=
  let d := sub u v in
  Py.Qltb (Qabs (vx d)) eps
  && Py.Qltb (Qabs (vy d)) eps
  && Py.Qltb (Qabs (vz d)) eps.

Definition to_list (v : vec3) : list Q := [vx v; vy v; vz v].

End Vec.

(** ** Contacts and stances (the fields the walking code reads) *)

Module Model.

Import Vec.

Record Contact : Type := mkContact {
  t : vec3;          (* tangential direction of the contact frame *)
  pose : list Q      (* quaternion followed by position *)
}.

Record Stance : Type := mkStance {
  label : string;
  duration : Q;
  com_p : vec3;                       (* [stance.com.p] *)
  left_foot : option Contact;
  right_foot : option Contact;
  dist_to_sep_edge : vec3 -> Q        (* signed distance inside the
                                         static-equilibrium polygon *)
}.

End Model.

(** ** The walking finite state machine ([MultiContactWalkingFSM]) *)

Module FSM.

Import Vec Model.
Local Open Scope py_scope.

(** Calls to collaborators made by the FSM. *)
Inductive event : Type :=
| Print (msg : string)
| SwingUpdatePose (s : Q)                          (* swing_foot.update_pose *)
| SwingReset (start_pose end_pose : list Q)        (* swing_foot.reset *)
| UpdateRobotIK (left_contact right_contact : bool). (* update_robot_ik *)

Record t : Type := mk {
  cur_phase : string;
  cur_stance : Stance;
  cur_stance_id : Z;
  cycle : bool;
  is_over : bool;
  nb_stances : Z;
  rem_time : Q;
  stances : list Stance;
  log : list event
}.

Definition set_rem_time (x : Q) (s : t) : t :=
  mk (cur_phase s) (cur_stance s) (cur_stance_id s) (cycle s) (is_over s)
     (nb_stances s) x (stances s) (log s).

Definition set_is_over (b : bool) (s : t) : t :=
  mk (cur_phase s) (cur_stance s) (cur_stance_id s) (cycle s) b
     (nb_stances s) (rem_time s) (stances s) (log s).

Definition set_cur_stance_id (i : Z) (s : t) : t :=
  mk (cur_phase s) (cur_stance s) i (cycle s) (is_over s)
     (nb_stances s) (rem_time s) (stances s) (log s).

Definition set_cur_stance (st : Stance) (s : t) : t :=
  mk (cur_phase s) st (cur_stance_id s) (cycle s) (is_over s)
     (nb_stances s) (rem_time s) (stances s) (log s).

Definition emit (e : event) : Py.M t unit :=
  Py.modify (fun s =>
    mk (cur_phase s) (cur_stance s) (cur_stance_id s) (cycle s) (is_over s)
       (nb_stances s) (rem_time s) (stances s) (log s ++ [e])).

(** [__init__]: [stances[0]] raises on an empty sequence. *)
Definition init (sts : list Stance) (cyc : bool) : Py.result t :=
  match Py.index sts 0 with
  | Py.Ok s0 =>
      Py.Ok (mk (label s0) s0 0 cyc false (Z.of_nat (List.length sts))
               (duration s0) sts [])
  | Py.Raise e => Py.Raise e
  end.

(** Property [next_stance]. *)
Definition next_stance (s : t) : Py.result Stance :=
  let next_stance_id := (cur_stance_id s + 1)%Z in
  let next_stance_id :=
    if (next_stance_id >=? nb_stances s)%Z
    then (if cycle s then 0%Z else cur_stance_id s)
    else next_stance_id in
  Py.index (stances s) next_stance_id.

(** [a % b] on Python integers. *)
Definition imod (a b : Z) : Py.result Z :=
  if (b =? 0)%Z then Py.Raise Py.ZeroDivisionError else Py.Ok (a mod b)%Z.

(** Property [next_next_stance]. *)
Definition next_next_stance (s : t) : Py.result Stance :=
  let next_next_stance_id := (cur_stance_id s + 2)%Z in
  if (next_next_stance_id >=? nb_stances s)%Z
  then
    if cycle s
    then match imod next_next_stance_id (nb_stances s) with
         | Py.Ok i => Py.index (stances s) i
         | Py.Raise e => Py.Raise e
         end
    else Py.index (stances s) (nb_stances s - 1)%Z
  else Py.index (stances s) next_next_stance_id.

(** The stance foot selected at the top of [get_preview_targets]. *)
Definition stance_foot (st : Stance) : option Contact :=
  if Py.endswith (label st) "L" then left_foot st else right_foot st.

(** [stance_foot.t]: attribute access on [None] raises. *)
Definition foot_t (c : option Contact) : Py.result vec3 :=
  match c with
  | Some c => Py.Ok (Model.t c)
  | None => Py.Raise Py.AttributeError
  end.

(** [get_preview_targets]: returns
    [(rem_time, horizon, target_com, target_comd)]. *)
Definition get_preview_targets (s : t) : Py.result (Q * Q * vec3 * vec3) :=
  let foot := stance_foot (cur_stance s) in
  if Py.startswith (label (cur_stance s)) "SS"
     && Py.Qltb (rem_time s) ((1 # 2) * duration (cur_stance s))
  then
    Py.rbind (next_stance s) (fun ns =>
    Py.rbind (next_next_stance s) (fun nns =>
    let horizon := rem_time s + duration ns + (1 # 2) * duration nns in
    Py.rbind (next_stance s) (fun ns' =>
    let target_com := com_p ns' in
    let target_comd := divs (sub target_com (com_p (cur_stance s))) horizon in
    Py.Ok (rem_time s, horizon, target_com, target_comd))))
  else if Py.startswith (label (cur_stance s)) "DS"
  then
    Py.rbind (next_stance s) (fun ns =>
    let horizon := rem_time s + (1 # 2) * duration ns in
    let target_com := com_p (cur_stance s) in
    Py.rbind (foot_t foot) (fun ft =>
    Py.Ok (rem_time s, horizon, target_com, scale (2 # 5) ft)))
  else
    let horizon := rem_time s in
    let target_com := com_p (cur_stance s) in
    Py.rbind (foot_t foot) (fun ft =>
    Py.Ok (rem_time s, horizon, target_com, scale (2 # 5) ft)).

(** The nested function [can_switch_to_ss] of [on_tick]; [com] is
    [self.robot.com]. *)
Definition can_switch_to_ss (com : vec3) (s : t) : Py.result bool :=
  Py.rbind (next_stance s) (fun ns =>
  let dist_inside_sep := dist_to_sep_edge ns com in
  Py.Ok (Py.Qltb (-(15 # 100)) dist_inside_sep)).

Definition not_ready_msg : string :=
  "FSM: not ready for single-support yet...".

Definition pose_of (c : option Contact) : Py.result (list Q) :=
  match c with
  | Some c => Py.Ok (pose c)
  | None => Py.Raise Py.AttributeError
  end.

(** [self.swing_foot.reset(a.pose, b.pose)] for two feet read from the
    current and the next-next stance. *)
Definition swing_reset (foot : Stance -> option Contact) : Py.M t unit :=
  s <- Py.get ;;
  p0 <- Py.lift (pose_of (foot (cur_stance s))) ;;
  p1 <- Py.lift (Py.rbind (next_next_stance s) (fun n => pose_of (foot n))) ;;
  emit (SwingReset p0 p1).

(** [self.cur_stance.label == a and self.next_next_stance.label == b]:
    the property is read only when the first test holds. *)
Definition labels_are (a b : string) : Py.M t bool :=
  s <- Py.get ;;
  if String.eqb (label (cur_stance s)) a
  then nns <- Py.lift (next_next_stance s) ;;
       Py.ret (String.eqb (label nns) b)
  else Py.ret false.

(** The last branch of [on_tick]: reset the swing foot on a handover, then
    move to the next stance. *)
Definition switch_stance : Py.M t unit :=
  (r_to_l <- labels_are "DS-R" "DS-L" ;;
   if r_to_l then swing_reset left_foot
   else
     l_to_r <- labels_are "DS-L" "DS-R" ;;
     if l_to_r then swing_reset right_foot else Py.ret tt) ;;;
  s <- Py.get ;;
  i <- Py.lift (imod (cur_stance_id s + 1) (nb_stances s)) ;;
  Py.modify (set_cur_stance_id i) ;;;
  s <- Py.get ;;
  st <- Py.lift (Py.index (stances s) (cur_stance_id s)) ;;
  Py.modify (set_cur_stance st) ;;;
  s <- Py.get ;;
  Py.modify (set_rem_time (duration (cur_stance s))) ;;;
  s <- Py.get ;;
  emit (UpdateRobotIK
          (match left_foot (cur_stance s) with Some _ => true | None => false end)
          (match right_foot (cur_stance s) with Some _ => true | None => false end)).

(** [on_tick(sim)]: [dt] is [sim.dt], [com] is [self.robot.com]. *)
Definition on_tick (dt : Q) (com : vec3) : Py.M t unit :=
  s <- Py.get ;;
  if is_over s then Py.ret tt
  else if Py.Qltb 0 (rem_time s)
  then
    (if Py.startswith (label (cur_stance s)) "SS"
     then
       r <- Py.lift (Py.fdiv (rem_time s) (duration (cur_stance s))) ;;
       emit (SwingUpdatePose (1 - r))
     else Py.ret tt) ;;;
    Py.modify (fun s => set_rem_time (rem_time s - dt) s)
  else
    hold <- (if Py.startswith (label (cur_stance s)) "DS"
             then ok <- Py.lift (can_switch_to_ss com s) ;; Py.ret (negb ok)
             else Py.ret false) ;;
    if hold then emit (Print not_ready_msg)
    else if (cur_stance_id s =? nb_stances s - 1)%Z && negb (cycle s)
    then Py.modify (set_is_over true)
    else switch_stance.

(** A run of the control loop: one [(sim.dt, robot.com)] per tick.  A tick
    that raises stops the run, as the exception leaves the loop. *)
Fixpoint run (ticks : list (Q * vec3)) : Py.M t unit :=
  match ticks with
  | [] => Py.ret tt
  | (dt, com) :: rest => on_tick dt com ;;; run rest
  end.

(** The object with its log replaced. *)
Definition with_log (l : list event) (s : t) : t :=
  mk (cur_phase s) (cur_stance s) (cur_stance_id s) (cycle s) (is_over s)
     (nb_stances s) (rem_time s) (stances s) l.

(** The object invariant: [nb_stances] is the length of the sequence, and
    [cur_stance] is the entry at the (valid) index [cur_stance_id]. *)
Definition wf (s : t) : Prop :=
  nb_stances s = Z.of_nat (List.length (stances s))
  /\ (0 <= cur_stance_id s < nb_stances s)%Z
  /\ Py.index (stances s) (cur_stance_id s) = Py.Ok (cur_stance s).

End FSM.

(** ** [pymanoid.misc]: [norm] and [normalize] *)

Module Misc.

Import Vec.

Section WithSqrt.

Variable sqrt : Q -> Q.   (* numpy.sqrt *)

Definition norm (v : vec3) : Q := sqrt (dot v v).

Definition normalize (v : vec3) : vec3 := divs v (norm v).

End WithSqrt.

End Misc.

(** ** The COM tube ([COMTube]) *)

Module Tube.

Import Vec Model.
Local Open Scope py_scope.

(** A halfspace representation [(B, c)]. *)
Definition hrep : Type := (list (list Q) * list Q)%type.

Record t : Type := mk {
  dual_hrep : list hrep;
  dual_vrep : list (list vec3);
  margin : Q;
  next_stance : Stance;
  primal_hrep : list hrep;
  primal_vrep : list (list vec3);
  radius : Q;
  start_com : vec3;
  start_stance : Stance;
  target_com : vec3;
  full_vrep : option (list vec3);   (* unset until [compute_primal_vrep] *)
  full_hrep : option hrep           (* unset until [compute_primal_hrep] *)
}.

(** [__init__], with the default [margin=0.01] supplied by the caller. *)
Definition init (start_com target_com : vec3) (start_stance next_stance : Stance)
    (radius margin : Q) : t :=
  mk [] [] margin next_stance [] [] radius start_com start_stance target_com
     None None.

Definition set_primal (full : list vec3) (pv : list (list vec3)) (s : t) : t :=
  mk (dual_hrep s) (dual_vrep s) (margin s) (next_stance s) (primal_hrep s)
     pv (radius s) (start_com s) (start_stance s) (target_com s)
     (Some full) (full_hrep s).

Definition set_dual_vrep (dv : list (list vec3)) (s : t) : t :=
  mk (dual_hrep s) dv (margin s) (next_stance s) (primal_hrep s)
     (primal_vrep s) (radius s) (start_com s) (start_stance s) (target_com s)
     (full_vrep s) (full_hrep s).

Section WithGeometry.

Variable sqrt : Q -> Q.
Variable gravity : vec3.                                   (* pymanoid.sim *)
(** [Stance.compute_pendular_accel_cone], full and [reduced=True]. *)
Variable pendular_accel_cone : Stance -> list vec3 -> list vec3.
Variable reduced_pendular_accel_cone : Stance -> list vec3 -> list vec2.
Variable intersect_polygons : list vec2 -> list vec2 -> list vec2.

(** The eight vertices built by [compute_primal_vrep]. *)
Definition tube_vertices (s : t) : list vec3 :=
  let delta := sub (target_com s) (start_com s) in
  let n := Misc.normalize sqrt delta in
  let t0 := mk3 0 0 1 in
  let t1 := sub t0 (scale (dot t0 n) n) in
  let t2 := Misc.normalize sqrt t1 in
  let b := cross n t2 in
  let cross_section :=
    map (fun '(dx, dy) => add (scale dx t2) (scale dy b))
      [(radius s, radius s); (radius s, - radius s);
       (- radius s, radius s); (- radius s, - radius s)] in
  let tube_start := sub (start_com s) (scale (margin s) n) in
  let tube_end := add (target_com s) (scale (margin s) n) in
  map (fun c => add tube_start c) cross_section
  ++ map (fun c => add tube_end c) cross_section.

Definition compute_primal_vrep (s : t) : t :=
  let vertices := tube_vertices s in
  if Py.startswith (label (start_stance s)) "SS"
  then
    if all_close (com_p (start_stance s)) (target_com s) (1 # 1000)
    then set_primal vertices [vertices] s
    else set_primal vertices [[start_com s]; vertices] s
  else set_primal vertices [vertices; [target_com s]] s.

(** The nested function of [compute_dual_vrep]. *)
Definition expand_reduced_pendular_cone (reduced_hull : list vec2)
    (zdd_max : option Q) : list vec3 :=
  let g := - vz gravity in
  let zdd := match zdd_max with None => g | Some z => z end in
  let vertices_at_zdd :=
    map (fun '(a, b) => mk3 (a * (g + zdd)) (b * (g + zdd)) zdd)
      reduced_hull in
  [gravity] ++ vertices_at_zdd.

Definition get_full_vrep (s : t) : Py.result (list vec3) :=
  match full_vrep s with
  | Some v => Py.Ok v
  | None => Py.Raise Py.AttributeError
  end.

(** The two reduced cones [(ds_vertices_2d, ss_vertices_2d)] computed by
    [compute_dual_vrep] before the intersection. *)
Definition reduced_cones (ds_then_ss : bool) : Py.M t (list vec2 * list vec2) :=
  s <- Py.get ;;
  if ds_then_ss
  then
    full <- Py.lift (get_full_vrep s) ;;
    let ds_vertices_2d := reduced_pendular_accel_cone (start_stance s) full in
    pv1 <- Py.lift (Py.index (primal_vrep s) 1) ;;
    let ss_vertices_2d := reduced_pendular_accel_cone (next_stance s) pv1 in
    Py.ret (ds_vertices_2d, ss_vertices_2d)
  else
    pv0 <- Py.lift (Py.index (primal_vrep s) 0) ;;
    let ss_vertices_2d := reduced_pendular_accel_cone (start_stance s) pv0 in
    full <- Py.lift (get_full_vrep s) ;;
    let ds_vertices_2d := reduced_pendular_accel_cone (next_stance s) full in
    Py.ret (ds_vertices_2d, ss_vertices_2d).

Definition compute_dual_vrep : Py.M t unit :=
  s <- Py.get ;;
  if (List.length (primal_vrep s) =? 1)%nat
  then
    pv0 <- Py.lift (Py.index (primal_vrep s) 0) ;;
    let dual_vertices := pendular_accel_cone (start_stance s) pv0 in
    Py.modify (set_dual_vrep [dual_vertices])
  else
    pv0 <- Py.lift (Py.index (primal_vrep s) 0) ;;
    let ds_then_ss := (1 <? List.length pv0)%nat in
    cones <- reduced_cones ds_then_ss ;;
    let ds_vertices_2d := fst cones in
    let ss_vertices_2d := snd cones in
    let ss_vertices_2d := intersect_polygons ds_vertices_2d ss_vertices_2d in
    let ds_cone := expand_reduced_pendular_cone ds_vertices_2d None in
    let ss_cone := expand_reduced_pendular_cone ss_vertices_2d None in
    if ds_then_ss
    then Py.modify (set_dual_vrep [ds_cone; ss_cone])
    else Py.modify (set_dual_vrep [ss_cone; ds_cone]).

End WithGeometry.

End Tube.

(** ** The preview buffer ([PreviewBuffer]) *)

Module PreviewBuffer.

Local Open Scope py_scope.

Record t : Type := mk {
  _U : option (list Q);
  _dT : option (list Q);
  _default_control : list Q * Q;
  cur_control : option (list Q);
  cur_index : Z;
  nb_steps : Z;
  rem_time : Q;
  switch_step : option Z;
  u_dim : Z
}.

(** [zeros(n)]: a negative dimension is refused. *)
Definition zeros (n : Z) : Py.result (list Q) :=
  if (n <? 0)%Z then Py.Raise Py.ValueError
  else Py.Ok (repeat 0%Q (Z.to_nat n)).

Definition init (u_dim : Z) : Py.result t :=
  match zeros u_dim with
  | Py.Ok z => Py.Ok (mk None None (z, 1 # 10) None 0 0 0 None u_dim)
  | Py.Raise e => Py.Raise e
  end.

Definition is_empty (s : t) : bool :=
  match _U s with None => true | Some _ => false end.

Definition update_preview (U dT : list Q) (sw : option Z) : Py.M t unit :=
  Py.modify (fun s =>
    mk (Some U) (Some dT) (_default_control s) (cur_control s) 0
       (Z.of_nat (List.length dT)) 0 sw (u_dim s)).

Definition reset : Py.M t unit :=
  Py.modify (fun s =>
    mk None None (_default_control s) None 0 (nb_steps s) 0 (switch_step s)
       (u_dim s)).

Definition set_cur_index (i : Z) (s : t) : t :=
  mk (_U s) (_dT s) (_default_control s) (cur_control s) i (nb_steps s)
     (rem_time s) (switch_step s) (u_dim s).

Definition set_nb_steps (n : Z) (s : t) : t :=
  mk (_U s) (_dT s) (_default_control s) (cur_control s) (cur_index s) n
     (rem_time s) (switch_step s) (u_dim s).

Definition set_switch_step (sw : option Z) (s : t) : t :=
  mk (_U s) (_dT s) (_default_control s) (cur_control s) (cur_index s)
     (nb_steps s) (rem_time s) sw (u_dim s).

Definition get_next_control : Py.M t (list Q * Q) :=
  s <- Py.get ;;
  match _U s with
  | None => Py.ret (_default_control s)
  | Some U =>
      let j := (u_dim s * cur_index s)%Z in
      let u := Py.slice U j (j + u_dim s) in
      if (List.length u =? 0)%nat then Py.ret (_default_control s)
      else
        dT <- Py.lift (match _dT s with
                       | Some d => Py.index d (cur_index s)
                       | None => Py.Raise Py.TypeError
                       end) ;;
        Py.modify (set_cur_index (cur_index s + 1)) ;;;
        Py.ret (u, dT)
  end.

(** [n] successive calls of [get_next_control], with their outcomes. *)
Fixpoint next_controls (n : nat) (s : t) : list (Py.result (list Q * Q)) * t :=
  match n with
  | O => ([], s)
  | S n' =>
      let '(r, s') := get_next_control s in
      let '(rs, s'') := next_controls n' s' in
      (r :: rs, s'')
  end.

(** What [__init__] establishes and no method changes: the dimension is not
    negative and the default control is [(zeros(u_dim), 0.1)]. *)
Definition wf (s : t) : Prop :=
  (0 <= u_dim s)%Z
  /\ _default_control s = (repeat 0%Q (Z.to_nat (u_dim s)), 1 # 10).

(** The [i]-th stored pair [(U[i*d:(i+1)*d], dT[i])] of a preview. *)
Definition stored (d : nat) (U dT : list Q) (i : nat) : list Q * Q :=
  (firstn d (skipn (i * d) U), nth i dT 0%Q).

End PreviewBuffer.

(** ** The tube predictive controller ([COMTubePredictiveControl]) *)

Module MPC.

Import Vec.
Local Open Scope py_scope.

Definition matrix : Type := list (list Q).

Definition eye3 : matrix := [[1; 0; 0]; [0; 1; 0]; [0; 0; 1]].

Definition zeros33 : matrix := [[0; 0; 0]; [0; 0; 0]; [0; 0; 0]].

Definition mscale (k : Q) (m : matrix) : matrix := map (map (Qmult k)) m.

(** One block row [[m1, m2]] of [bmat]. *)
Definition hcat (m1 m2 : matrix) : matrix :=
  map (fun '(r1, r2) => r1 ++ r2) (combine m1 m2).

(** The problem handed to [LinearPredictiveControl]: the constructor
    arguments and the two attributes set afterwards. *)
Record LinearPredictiveControl : Type := mkLPC {
  A : matrix;
  B : matrix;
  C : list (option matrix);
  D : list matrix;
  e : list (list Q);
  x_init : list Q;
  x_goal : list Q;
  nb_steps : Z;
  wxt : Q;
  wu : Q;
  switch_step : Z;
  timestep : Q
}.

Record t : Type := mk {
  com_p : vec3;                 (* [self.com.p] *)
  com_pd : vec3;                (* [self.com.pd] *)
  target_com_p : vec3;          (* [self.target_com.p] *)
  target_com_pd : vec3;         (* [self.target_com.pd] *)
  nb_mpc_steps : Z;
  preview_buffer : PreviewBuffer.t;
  preview_control : option LinearPredictiveControl;
  tube : option Tube.t;
  log : list string             (* lines printed *)
}.

Definition set_preview_control (pc : LinearPredictiveControl) (s : t) : t :=
  mk (com_p s) (com_pd s) (target_com_p s) (target_com_pd s) (nb_mpc_steps s)
     (preview_buffer s) (Some pc) (tube s) (log s).

Definition set_preview_buffer (b : PreviewBuffer.t) (s : t) : t :=
  mk (com_p s) (com_pd s) (target_com_p s) (target_com_pd s) (nb_mpc_steps s)
     b (preview_control s) (tube s) (log s).

Definition print (msg : string) : Py.M t unit :=
  Py.modify (fun s =>
    mk (com_p s) (com_pd s) (target_com_p s) (target_com_pd s)
       (nb_mpc_steps s) (preview_buffer s) (preview_control s) (tube s)
       (log s ++ [msg])).

(** A method of [self.preview_buffer] run from the controller. *)
Definition on_buffer {X} (c : Py.M PreviewBuffer.t X) : Py.M t X :=
  fun s =>
    let '(r, b) := c (preview_buffer s) in (r, set_preview_buffer b s).

(** [range(n)]. *)
Definition range (n : Z) : list Z := map Z.of_nat (seq 0 (Z.to_nat n)).

(** [self.tube.dual_hrep[i]]. *)
Definition dual_hrep_at (s : t) (i : Z) : Py.result Tube.hrep :=
  match tube s with
  | Some tb => Py.index (Tube.dual_hrep tb) i
  | None => Py.Raise Py.AttributeError
  end.

(** The loop filling [D[k]] and [e[k]]: the second pair is a local that is
    bound only when the guard before the loop was taken. *)
Fixpoint assign_constraints (De1 : Tube.hrep) (De2 : option Tube.hrep)
    (switch_step : Z) (ks : list Z) : Py.result (list Tube.hrep) :=
  match ks with
  | [] => Py.Ok []
  | k :: rest =>
      match (if (k <=? switch_step)%Z then Py.Ok De1
             else match De2 with
                  | Some p => Py.Ok p
                  | None => Py.Raise Py.UnboundLocalError
                  end) with
      | Py.Ok p =>
          match assign_constraints De1 De2 switch_step rest with
          | Py.Ok ps => Py.Ok (p :: ps)
          | Py.Raise x => Py.Raise x
          end
      | Py.Raise x => Py.Raise x
      end
  end.

(** [switch_step = int(switch_time / dT)] with [dT = horizon / N]. *)
Definition compute_timestep (horizon : Q) (N : Z) : Py.result Q :=
  Py.fdiv horizon (inject_Z N).

Definition compute_switch_step (switch_time dT : Q) : Py.result Z :=
  Py.rbind (Py.fdiv switch_time dT) (fun q => Py.Ok (Py.int q)).

(** The part of [compute_preview_control] before the solver is called:
    every local it computes, packed as the problem. *)
Definition build_problem (s : t) (switch_time horizon : Q)
    (state_constraints : bool) : Py.result LinearPredictiveControl :=
  let N := nb_mpc_steps s in
  Py.rbind (compute_timestep horizon N) (fun dT =>
  let A := hcat eye3 (mscale dT eye3) ++ hcat zeros33 eye3 in
  let B := mscale ((1 # 2) * (dT * dT)) eye3 ++ mscale dT eye3 in
  let x_init := to_list (com_p s) ++ to_list (com_pd s) in
  let x_goal := to_list (target_com_p s) ++ to_list (target_com_pd s) in
  Py.rbind (compute_switch_step switch_time dT) (fun switch_step =>
  let C := repeat None (Z.to_nat N) in
  Py.rbind (dual_hrep_at s 0) (fun De1 =>
  Py.rbind
    (if ((0 <=? switch_step) && (switch_step <? N - 1))%Z
     then Py.rbind (dual_hrep_at s 1) (fun p => Py.Ok (Some p))
     else Py.Ok None) (fun De2 =>
  Py.rbind (assign_constraints De1 De2 switch_step (range N)) (fun De =>
  if state_constraints
  then
    match Py.rbind (match tube s with
                     | Some tb => Py.Ok (Tube.full_hrep tb)
                     | None => Py.Raise Py.AttributeError
                     end)
            (fun fh => match fh with
                       | Some Ef => Py.Ok Ef
                       | None => Py.Raise Py.AttributeError
                       end) with
    | Py.Ok _ => Py.Raise Py.NotImplementedError
    | Py.Raise x => Py.Raise x
    end
  else
    Py.Ok (mkLPC A B C (map fst De) (map snd De) x_init x_goal N
             1000 1 switch_step dT)))))).

Definition qp_failure_msg : string :=
  "MPC couldn't solve QP, constraints may be inconsistent".

Section WithSolver.

(** [LinearPredictiveControl.solve] followed by [U.flatten()]: the stacked
    controls, or the exception raised. *)
Variable solve : LinearPredictiveControl -> Py.result (list Q).

Definition compute_preview_control (switch_time horizon : Q)
    (state_constraints : bool) : Py.M t unit :=
  s <- Py.get ;;
  pc <- Py.lift (build_problem s switch_time horizon state_constraints) ;;
  Py.modify (set_preview_control pc) ;;;
  Py.try_except
    (U <- Py.lift (solve pc) ;;
     let dT := repeat (timestep pc) (Z.to_nat (nb_mpc_steps s)) in
     on_buffer (PreviewBuffer.update_preview U dT None) ;;;
     on_buffer (Py.modify (PreviewBuffer.set_nb_steps (nb_mpc_steps s))) ;;;
     on_buffer (Py.modify
                  (PreviewBuffer.set_switch_step (Some (switch_step pc)))))
    Py.ValueError
    (print qp_failure_msg).

End WithSolver.

End MPC.

(** ** The swing foot ([SwingFoot]) *)

Module Swing.

Import Vec.
Local Open Scope py_scope.

(** A pose is a 7-vector: [pose[:4]] is a quaternion, [pose[4:]] a
    position. *)
Record Pose : Type := mkPose { quat : list Q; pos : vec3 }.

Record t : Type := mk {
  end_pose : option Pose;
  mid_pose : option Pose;
  start_pose : option Pose;
  swing_height : Q;
  body_pose : option Pose       (* the pose of the box, set by [set_pose] *)
}.

(** [__init__]: the three poses are unset. *)
Definition init (swing_height : Q) : t := mk None None None swing_height None.

Definition set_pose (p : Pose) (s : t) : t :=
  mk (end_pose s) (mid_pose s) (start_pose s) (swing_height s) (Some p).

Section WithInterpolation.

Variable quat_slerp : list Q -> list Q -> Q -> list Q.
Variable interpolate_pose_linear : Pose -> Pose -> Q -> Pose.
(** [rotation_matrix_from_quat(q)[0:3, 2]]: the normal of the frame. *)
Variable normal_of_quat : list Q -> vec3.

Definition reset (start_pose end_pose : Pose) (s : t) : t :=
  let mid_pose := interpolate_pose_linear start_pose end_pose (1 # 2) in
  let mid_n := normal_of_quat (quat mid_pose) in
  let mid_pose :=
    mkPose (quat mid_pose) (add (pos mid_pose) (scale (swing_height s) mid_n)) in
  mk (Some end_pose) (Some mid_pose) (Some start_pose) (swing_height s)
     (Some start_pose).

(** The interpolation data chosen by [update_pose] for [s < 1]. *)
Definition segment (s : Q) (st : t) : option Pose * option Pose * Q :=
  if Qle_bool s (1 # 2)
  then (start_pose st, mid_pose st, 2 * s)
  else (mid_pose st, end_pose st, 2 * s - 1).

Definition update_pose (s : Q) : Py.M t unit :=
  st <- Py.get ;;
  if Qle_bool 1 s then Py.ret tt
  else
    let '(pose0, pose1, y) := segment s st in
    match pose0, pose1 with
    | Some p0, Some p1 =>
        let position := add (scale (1 - y) (pos p0)) (scale y (pos p1)) in
        let q := quat_slerp (quat p0) (quat p1) y in
        Py.modify (set_pose (mkPose q position))
    | _, _ => Py.lift (Py.Raise Py.TypeError)
    end.

End WithInterpolation.

End Swing.

(** ** The preview buffer as a scheduled process ([PreviewBuffer.on_tick]) *)

Module BufferProcess.

Local Open Scope py_scope.

Record t : Type := mk {
  buffer : PreviewBuffer.t;
  has_callback : bool;                         (* [callback is not None] *)
  calls : list (option (list Q) * Q)           (* arguments of each call *)
}.

Definition set_buffer (b : PreviewBuffer.t) (s : t) : t :=
  mk b (has_callback s) (calls s).

Definition on_buffer {X} (c : Py.M PreviewBuffer.t X) : Py.M t X :=
  fun s => let '(r, b) := c (buffer s) in (r, set_buffer b s).

Definition set_cur_control (u : option (list Q)) (b : PreviewBuffer.t)
  : PreviewBuffer.t :=
  PreviewBuffer.mk (PreviewBuffer._U b) (PreviewBuffer._dT b)
    (PreviewBuffer._default_control b) u (PreviewBuffer.cur_index b)
    (PreviewBuffer.nb_steps b) (PreviewBuffer.rem_time b)
    (PreviewBuffer.switch_step b) (PreviewBuffer.u_dim b).

Definition set_rem_time (x : Q) (b : PreviewBuffer.t) : PreviewBuffer.t :=
  PreviewBuffer.mk (PreviewBuffer._U b) (PreviewBuffer._dT b)
    (PreviewBuffer._default_control b) (PreviewBuffer.cur_control b)
    (PreviewBuffer.cur_index b) (PreviewBuffer.nb_steps b) x
    (PreviewBuffer.switch_step b) (PreviewBuffer.u_dim b).

Definition call_back (u : option (list Q)) (dt : Q) : Py.M t unit :=
  Py.modify (fun s => mk (buffer s) (has_callback s) (calls s ++ [(u, dt)])).

(** [on_tick(sim)] with [dt = sim.dt]. *)
Definition on_tick (dt : Q) : Py.M t unit :=
  s <- Py.get ;;
  (if Py.Qltb (PreviewBuffer.rem_time (buffer s)) dt
   then
     c <- on_buffer PreviewBuffer.get_next_control ;;
     on_buffer (Py.modify (set_cur_control (Some (fst c)))) ;;;
     on_buffer (Py.modify (set_rem_time (snd c)))
   else Py.ret tt) ;;;
  s <- Py.get ;;
  (if has_callback s
   then call_back (PreviewBuffer.cur_control (buffer s)) dt
   else Py.ret tt) ;;;
  on_buffer (Py.modify (fun b =>
    set_rem_time (PreviewBuffer.rem_time b - dt) b)).

Fixpoint run (dts : list Q) : Py.M t unit :=
  match dts with
  | [] => Py.ret tt
  | dt :: rest => on_tick dt ;;; run rest
  end.

End BufferProcess.

(** ** Halfspaces of the tube and the controller's tick
    ([compute_primal_hrep], [compute_dual_hrep], [compute_preview_tube],
    [COMTubePredictiveControl.on_tick]) *)

Module Pipeline.

Import Vec Model.

(** What a [try ... except Exception] of the controller can catch: one of
    the built-in exceptions, or the plain [Exception] that
    [compute_primal_hrep] raises in place of a [RuntimeError]. *)
Inductive failure : Type :=
| Builtin (e : Py.exn)
| Plain (msg : string).

Inductive outcome : Type :=
| Done
| Failed (f : failure).

Definition set_full_hrep (h : Tube.hrep) (s : Tube.t) : Tube.t :=
  Tube.mk (Tube.dual_hrep s) (Tube.dual_vrep s) (Tube.margin s)
    (Tube.next_stance s) (Tube.primal_hrep s) (Tube.primal_vrep s)
    (Tube.radius s) (Tube.start_com s) (Tube.start_stance s)
    (Tube.target_com s) (Tube.full_vrep s) (Some h).

Definition append_dual_hrep (h : Tube.hrep) (s : Tube.t) : Tube.t :=
  Tube.mk (Tube.dual_hrep s ++ [h]) (Tube.dual_vrep s) (Tube.margin s)
    (Tube.next_stance s) (Tube.primal_hrep s) (Tube.primal_vrep s)
    (Tube.radius s) (Tube.start_com s) (Tube.start_stance s)
    (Tube.target_com s) (Tube.full_vrep s) (Tube.full_hrep s).

Definition primal_hrep_msg : string := "Could not compute primal hrep".

Record t : Type := mk {
  mpc : MPC.t;
  fsm : FSM.t;
  tube_radius : Q;
  metrics : list string        (* names passed to [sim.log_comp_time] *)
}.

Definition set_mpc (m : MPC.t) (p : t) : t :=
  mk m (fsm p) (tube_radius p) (metrics p).

Definition log_comp_time (name : string) (p : t) : t :=
  mk (mpc p) (fsm p) (tube_radius p) (metrics p ++ [name]).

Definition set_target (pos vel : vec3) (m : MPC.t) : MPC.t :=
  MPC.mk (MPC.com_p m) (MPC.com_pd m) pos vel (MPC.nb_mpc_steps m)
    (MPC.preview_buffer m) (MPC.preview_control m) (MPC.tube m) (MPC.log m).

Definition set_tube (tb : Tube.t) (m : MPC.t) : MPC.t :=
  MPC.mk (MPC.com_p m) (MPC.com_pd m) (MPC.target_com_p m)
    (MPC.target_com_pd m) (MPC.nb_mpc_steps m) (MPC.preview_buffer m)
    (MPC.preview_control m) (Some tb) (MPC.log m).

Section WithCollaborators.

Variable sqrt : Q -> Q.
Variable gravity : vec3.
Variable pendular_accel_cone : Stance -> list vec3 -> list vec3.
Variable reduced_pendular_accel_cone : Stance -> list vec3 -> list vec2.
Variable intersect_polygons : list vec2 -> list vec2 -> list vec2.
(** [compute_polytope_halfspaces]: the pair [(A, b)], or an exception
    ([RuntimeError] on a degenerate vertex set). *)
Variable compute_polytope_halfspaces : list vec3 -> Py.result Tube.hrep.
Variable solve : MPC.LinearPredictiveControl -> Py.result (list Q).
(** [str(e)], used in the two messages of [on_tick]. *)
Variable describe : failure -> string.

(** [compute_primal_hrep]: a [RuntimeError] is replaced by a plain
    [Exception]; nothing else is caught. *)
Definition compute_primal_hrep (s : Tube.t) : outcome * Tube.t :=
  match Tube.full_vrep s with
  | None => (Failed (Builtin Py.AttributeError), s)
  | Some v =>
      match compute_polytope_halfspaces v with
      | Py.Ok h => (Done, set_full_hrep h s)
      | Py.Raise Py.RuntimeError => (Failed (Plain primal_hrep_msg), s)
      | Py.Raise e => (Failed (Builtin e), s)
      end
  end.

(** The loop of [compute_dual_hrep]: one pair appended per cone; a pair
    appended before a failure stays. *)
Fixpoint dual_hrep_loop (cones : list (list vec3)) (s : Tube.t)
  : outcome * Tube.t :=
  match cones with
  | [] => (Done, s)
  | cone_vertices :: rest =>
      match compute_polytope_halfspaces cone_vertices with
      | Py.Ok Bc => dual_hrep_loop rest (append_dual_hrep Bc s)
      | Py.Raise e => (Failed (Builtin e), s)
      end
  end.

Definition compute_dual_hrep (s : Tube.t) : outcome * Tube.t :=
  dual_hrep_loop (Tube.dual_vrep s) s.

(** The four stages run on the tube stored in [self.tube]. *)
Definition compute_stages (tb : Tube.t) : outcome * Tube.t :=
  let tb1 := Tube.compute_primal_vrep sqrt tb in
  match compute_primal_hrep tb1 with
  | (Failed f, tb2) => (Failed f, tb2)
  | (Done, tb2) =>
      match Tube.compute_dual_vrep gravity pendular_accel_cone
              reduced_pendular_accel_cone intersect_polygons tb2 with
      | (Py.Raise e, tb3) => (Failed (Builtin e), tb3)
      | (Py.Ok _, tb3) => compute_dual_hrep tb3
      end
  end.

(** [compute_preview_tube]: the new tube is stored in [self.tube] before
    its stages run, so a failing stage leaves the partly built tube there;
    the four timings are logged only when all stages succeed. *)
Definition compute_preview_tube (p : t) : outcome * t :=
  match FSM.next_stance (fsm p) with
  | Py.Raise e => (Failed (Builtin e), p)
  | Py.Ok next_stance =>
      let tb :=
        Tube.init (MPC.com_p (mpc p)) (MPC.target_com_p (mpc p))
          (FSM.cur_stance (fsm p)) next_stance (tube_radius p) (1 # 100) in
      match compute_stages tb with
      | (Failed f, tb') => (Failed f, set_mpc (set_tube tb' (mpc p)) p)
      | (Done, tb') =>
          (Done,
           log_comp_time "tube_dual_hrep"
             (log_comp_time "tube_dual_vrep"
                (log_comp_time "tube_primal_hrep"
                   (log_comp_time "tube_primal_vrep"
                      (set_mpc (set_tube tb' (mpc p)) p)))))
      end
  end.

Definition say (msg : string) (p : t) : t :=
  set_mpc (snd (MPC.print msg (mpc p))) p.

(** [on_tick(sim)] of the controller.  Only [get_preview_targets] runs
    outside the two [try] blocks. *)
Definition on_tick (p : t) : Py.result unit * t :=
  match FSM.get_preview_targets (fsm p) with
  | Py.Raise e => (Py.Raise e, p)
  | Py.Ok (switch_time, horizon, target_com, target_comd) =>
      let p1 := set_mpc (set_target target_com target_comd (mpc p)) p in
      match compute_preview_tube p1 with
      | (Failed f, p2) =>
          (Py.Ok tt, say (String.append "Tube error: " (describe f)) p2)
      | (Done, p2) =>
          match MPC.compute_preview_control solve switch_time horizon false
                  (mpc p2) with
          | (Py.Raise e, m3) =>
              (Py.Ok tt,
               say (String.append "COMTubePredictiveControl error: "
                      (describe (Builtin e)))
                 (set_mpc m3 p2))
          | (Py.Ok _, m3) =>
              (Py.Ok tt,
               log_comp_time "qp_solve_and_build"
                 (log_comp_time "qp_solve"
                    (log_comp_time "qp_build" (set_mpc m3 p2))))
          end
      end
  end.

End WithCollaborators.

End Pipeline.

(** ** The staircase of stances ([generate_staircase]) *)

Module Staircase.

Import Vec Model.

Section WithContacts.

Variable contact_p : Contact -> vec3.      (* [contact.p] *)
Variable leg_length : Q.                   (* [JVRC1.leg_length] *)
(** The distance function left by [compute_static_equilibrium_polygon] on
    a stance with the given centre of mass and feet. *)
Variable sep_dist : vec3 -> option Contact -> option Contact -> vec3 -> Q.

(** [Stance(com_target, left_foot=..., right_foot=...)] with its label and
    duration set and its equilibrium polygon computed. *)
Definition stance (lbl : string) (dur : Q) (com : vec3)
    (lf rf : option Contact) : Stance :=
  mkStance lbl dur com lf rf (sep_dist com lf rf).

(** The variables of the loop. *)
Record vars : Type := mkVars {
  stances : list Stance;
  first_left_foot : option Contact;
  prev_right_foot : option Contact;
  init_com_offset : option vec3
}.

(** One iteration, for the two contacts built from one angle. *)
Definition iteration (ds_duration ss_duration : Q) (feet : Contact * Contact)
    (v : vars) : vars :=
  let left_foot := fst feet in
  let right_foot := snd feet in
  let first_left_foot :=
    match first_left_foot v with
    | None => Some left_foot
    | Some f => Some f
    end in
  let stances :=
    match prev_right_foot v with
    | Some prev =>
        let com_target_pos := add (contact_p left_foot) (mk3 0 0 leg_length) in
        stances v
        ++ [stance "DS-L" ds_duration com_target_pos
              (Some left_foot) (Some prev);
            stance "SS-L" ss_duration com_target_pos (Some left_foot) None]
    | None => stances v
    end in
  let com_target_pos := add (contact_p right_foot) (mk3 0 0 leg_length) in
  let com_target_pos :=
    match init_com_offset v with
    | Some off => add com_target_pos off
    | None => com_target_pos
    end in
  mkVars
    (stances
     ++ [stance "DS-R" ds_duration com_target_pos
           (Some left_foot) (Some right_foot);
         stance "SS-R" ss_duration com_target_pos None (Some right_foot)])
    first_left_foot (Some right_foot) None.

Fixpoint iterations (ds_duration ss_duration : Q)
    (feet : list (Contact * Contact)) (v : vars) : vars :=
  match feet with
  | [] => v
  | f :: rest =>
      iterations ds_duration ss_duration rest
        (iteration ds_duration ss_duration f v)
  end.

(** [generate_staircase], given the left and right contacts built at each
    angle of [arange(0, 2 * pi, angular_step)], in order. *)
Definition generate_staircase (feet : list (Contact * Contact))
    (ds_duration ss_duration : Q) (init_com_offset : option vec3)
  : Py.result (list Stance) :=
  let v := iterations ds_duration ss_duration feet
             (mkVars [] None None init_com_offset) in
  match first_left_foot v with
  | None => Py.Raise Py.AttributeError
  | Some first =>
      let com_target_pos := add (contact_p first) (mk3 0 0 leg_length) in
      Py.Ok (stances v
             ++ [stance "DS-L" ds_duration com_target_pos
                   (Some first) (prev_right_foot v);
                 stance "SS-L" ss_duration com_target_pos (Some first) None])
  end.

End WithContacts.

(** The labels of the stances appended by the loop over [n + 1] angles,
    and of the whole staircase. *)
Definition label_prefix (n : nat) : list string :=
  ["DS-R"; "SS-R"]%string
  ++ List.concat (repeat ["DS-L"; "SS-L"; "DS-R"; "SS-R"]%string n).

Definition label_pattern (n : nat) : list string :=
  label_prefix n ++ ["DS-L"; "SS-L"]%string.

(** A stance as the FSM needs it: it has its stance foot, a double-support
    stance has both feet, and the duration is the one of its kind. *)
Definition sound (ds_duration ss_duration : Q) (st : Stance) : Prop :=
  FSM.stance_foot st <> None
  /\ (Py.startswith (label st) "DS" = true ->
      left_foot st <> None /\ right_foot st <> None
      /\ duration st = ds_duration)
  /\ (Py.startswith (label st) "SS" = true -> duration st = ss_duration).

(** The loop variables after [k] iterations. *)
Definition after_iterations (ds_duration ss_duration : Q) (k : nat)
    (v : vars) : Prop :=
  match k with
  | O =>
      stances v = [] /\ first_left_foot v = None /\ prev_right_foot v = None
  | S n =>
      (exists r, prev_right_foot v = Some r)
      /\ (exists f, first_left_foot v = Some f)
      /\ map label (stances v) = label_prefix n
      /\ Forall (sound ds_duration ss_duration) (stances v)
  end.

End Staircase.

(** ** [pymanoid.misc]: the online estimator, polynomials and colours *)

Module Estimator.

(** [AvgStdEstimator]. *)
Record t : Type := mk {
  last_value : option Q;
  n : Z;
  x : Q;
  x2 : Q;
  x_max : option Q;
  x_min : option Q
}.

Definition reset : t := mk None 0 0 0 None None.

Definition add (v : Q) (s : t) : t :=
  mk (Some v) (n s + 1) (x s + v) (x2 s + v * v)
     (match x_max s with
      | None => Some v
      | Some m => if Py.Qltb m v then Some v else Some m
      end)
     (match x_min s with
      | None => Some v
      | Some m => if Py.Qltb v m then Some v else Some m
      end).


Section WithSqrt.

Variable sqrt : Q -> Q.


End WithSqrt.



End Estimator.

Module Color.

Definition is_in (c : string) (l : list string) : bool :=
  existsb (String.eqb c) l.

Definition bump (b : bool) (v : Q) : Q := if b then v + (1 # 2) else v.

(** [matplotlib_to_rgb]. *)
Definition matplotlib_to_rgb (color : string) : list Q :=
  if String.eqb color "k" then [0; 0; 0]
  else if String.eqb color "w" then [1; 1; 1]
  else
    [bump (is_in color ["r"; "m"; "y"; "w"]%string) 0;
     bump (is_in color ["g"; "y"; "c"; "w"]%string) 0;
     bump (is_in color ["b"; "c"; "m"; "w"]%string) 0].

(** [matplotlib_to_rgba]. *)
Definition matplotlib_to_rgba (color : string) (alpha : Q) : list Q :=
  matplotlib_to_rgb color ++ [alpha].

End Color.

(** ** Predicates on the FSM's log *)

Module Traces.



End Traces.

(** ** [pymanoid.misc]: polynomials with vector coefficients *)

Module Polynomial.

(** [NDPolynomial], for coefficients that are one-dimensional arrays. *)
Record t : Type := mk {
  coeffs : list (list Q);
  shape : nat                     (* [coeffs[0].shape] *)
}.

(** [__init__]: [coeffs[0]] raises on an empty list. *)
Definition init (coeffs : list (list Q)) : Py.result t :=
  match coeffs with
  | [] => Py.Raise Py.IndexError
  | c :: _ => Py.Ok (mk coeffs (List.length c))
  end.







End Polynomial.

(** ** A small walking scenario

    Two footholds on flat ground one step apart along [x]; the signed
    distance inside a stance's equilibrium polygon is taken along [x] from
    the rear edge of the support area. *)

Module Scenario.

Import Vec Model.

Definition left_contact : Contact :=
  mkContact (mk3 1 0 0) [1; 0; 0; 0; 0; 1 # 10; 0].

Definition right_contact : Contact :=
  mkContact (mk3 1 0 0) [1; 0; 0; 0; 3 # 10; - (1 # 10); 0].

Definition dsl : Stance :=
  mkStance "DS-L" (7 # 10) (mk3 0 (1 # 10) (8 # 10))
    (Some left_contact) (Some right_contact) (fun c => vx c + (1 # 20)).

Definition ssl : Stance :=
  mkStance "SS-L" 1 (mk3 0 (1 # 10) (8 # 10))
    (Some left_contact) None (fun c => vx c + (1 # 20)).

Definition dsr : Stance :=
  mkStance "DS-R" (7 # 10) (mk3 (3 # 10) (- (1 # 10)) (8 # 10))
    (Some left_contact) (Some right_contact) (fun c => vx c + (1 # 20)).

Definition ssr : Stance :=
  mkStance "SS-R" 1 (mk3 (3 # 10) (- (1 # 10)) (8 # 10))
    None (Some right_contact) (fun c => vx c - (1 # 4)).

Definition walk : list Stance := [dsl; ssl; dsr; ssr].

(** The FSM at stance [i] of [sts] with [rem] seconds left. *)
Definition fsm_at (sts : list Stance) (cyc : bool) (i : Z) (st : Stance)
    (rem : Q) (over : bool) : FSM.t :=
  FSM.mk (label st) st i cyc over (Z.of_nat (List.length sts)) rem sts [].

(** A non-cyclic walk that ends on the double-support stance [dsl], run for
    two ticks of 0.7 s with the centre of mass inside the support area: the
    first tick uses up the phase, the second one ends the walk. *)
Definition com_inside : vec3 := mk3 0 (1 # 10) (8 # 10).

Definition com_behind : vec3 := mk3 (- 1) (1 # 10) (8 # 10).

Definition standing : Py.result FSM.t := FSM.init [dsl] false.

Definition finished : FSM.t :=
  match standing with
  | Py.Ok s0 => snd (FSM.run [(7 # 10, com_inside); (7 # 10, com_inside)] s0)
  | Py.Raise _ => fsm_at [dsl] false 0 dsl 0 true
  end.

(** Collaborators for the tube: the gravity vector, a square root that is
    exact on squares of rationals, rectangular reduced cones (wide along [x]
    on two feet, wide along [y] on one foot), and the intersection of two
    such rectangles. *)
Definition gravity : vec3 := mk3 0 0 (- (981 # 100)).

Definition sqrt (q : Q) : Q :=
  Qmake (Z.sqrt (Qnum q * Zpos (Qden q))) (Qden q).

Definition rect (rx ry : Q) : list vec2 :=
  [(rx, ry); (rx, - ry); (- rx, - ry); (- rx, ry)].

Definition half_widths (p : list vec2) : Q * Q :=
  match p with
  | c :: _ => c
  | [] => (0, 0)
  end.

Definition reduced_cone (st : Stance) (com_vertices : list vec3) : list vec2 :=
  match left_foot st, right_foot st with
  | Some _, Some _ => rect (1 # 2) (1 # 4)
  | _, _ => rect (1 # 4) (1 # 2)
  end.

Definition full_cone (st : Stance) (com_vertices : list vec3) : list vec3 :=
  gravity
  :: map (fun '(a, b) => mk3 (a * (981 # 50)) (b * (981 # 50)) (981 # 100))
       (reduced_cone st com_vertices).

Definition smaller (x y : Q) : Q := if Qle_bool x y then x else y.

Definition intersect_rects (p q : list vec2) : list vec2 :=
  rect (smaller (fst (half_widths p)) (fst (half_widths q)))
       (smaller (snd (half_widths p)) (snd (half_widths q))).

(** Three tubes of radius 1 cm and margin 1 cm: one that starts in double
    support, one that starts early in single support (the target is the
    current stance's own reference), and one late in single support with the
    centre of mass already half a millimetre from the next reference. *)
Definition tube_ds : Tube.t :=
  Tube.init (mk3 (1 # 10) 0 (8 # 10)) (com_p dsr) dsr ssr (1 # 100) (1 # 100).

Definition tube_ss_early : Tube.t :=
  Tube.init (mk3 (1 # 10) 0 (8 # 10)) (com_p ssl) ssl dsr (1 # 100) (1 # 100).

Definition tube_ss_late : Tube.t :=
  Tube.init (mk3 (2995 # 10000) (- (1 # 10)) (8 # 10)) (com_p dsr) ssl dsr
    (1 # 100) (1 # 100).

(** A buffer of three-dimensional controls, and a preview of two steps. *)
Definition buffer3 : PreviewBuffer.t :=
  PreviewBuffer.mk None None ([0; 0; 0], 1 # 10) None 0 0 0 None 3.

Definition preview_U : list Q := [1; 2; 3; 4; 5; 6].

Definition preview_dT : list Q := [1 # 20; 1 # 20].

(** A buffer of dimension zero, as [PreviewBuffer(u_dim=0)] builds it. *)
Definition buffer0 : PreviewBuffer.t :=
  PreviewBuffer.mk None None ([], 1 # 10) None 0 0 0 None 0.

(** A controller in double support: the tube carries two dual halfspace
    pairs, the horizon has 20 steps, and the buffer still holds the preview
    of an earlier tick, two controls of which have been consumed. *)
Definition hrep_ds : Tube.hrep := ([[1; 0; 0]; [- 1; 0; 0]], [1 # 2; 1 # 2]).

Definition hrep_ss : Tube.hrep := ([[1; 0; 0]; [- 1; 0; 0]], [1 # 4; 1 # 4]).

Definition tube_with_hrep : Tube.t :=
  Tube.mk [hrep_ds; hrep_ss] [] (1 # 100) ssr [] [] (1 # 100)
    (mk3 (1 # 10) 0 (8 # 10)) dsr (com_p dsr) None None.

Definition used_buffer : PreviewBuffer.t :=
  PreviewBuffer.mk (Some preview_U) (Some preview_dT) ([0; 0; 0], 1 # 10)
    (Some [4; 5; 6]) 2 2 (1 # 50) (Some 1%Z) 3.

Definition controller : MPC.t :=
  MPC.mk (mk3 (1 # 10) 0 (8 # 10)) (mk3 (1 # 10) 0 0) (com_p dsr)
    (mk3 (2 # 5) 0 0) 20 used_buffer None (Some tube_with_hrep) [].

(** A solver that finds every problem infeasible. *)
Definition infeasible (pc : MPC.LinearPredictiveControl)
  : Py.result (list Q) := Py.Raise Py.ValueError.

End Scenario.

(** ** Further cases

    Collaborators and objects used to exercise the tube stages, the
    controller's tick, the buffer process and the swing foot. *)

Module Cases.

Import Vec Model.

(** A halfspace routine that refuses vertex sets of fewer than four points
    and otherwise returns one bounding plane through the first vertex. *)
Definition halfspaces (vs : list vec3) : Py.result Tube.hrep :=
  match vs with
  | v :: _ :: _ :: _ :: _ => Py.Ok ([[0; 0; 1]], [vz v])
  | _ => Py.Raise Py.RuntimeError
  end.

(** A halfspace routine that always succeeds. *)
Definition bounding_plane (vs : list vec3) : Tube.hrep :=
  ([[0; 0; 1]], [match vs with v :: _ => vz v | [] => 0 end]).

(** A solver returning the same small forward acceleration at each step. *)
Definition steady (pc : MPC.LinearPredictiveControl) : Py.result (list Q) :=
  Py.Ok (List.concat (repeat [1 # 10; 0; 0] (Z.to_nat (MPC.nb_steps pc)))).

Definition describe (f : Pipeline.failure) : string :=
  match f with
  | Pipeline.Plain msg => msg
  | Pipeline.Builtin _ => "error"
  end.

Definition cone_a : list vec3 :=
  [mk3 0 0 (- (981 # 100)); mk3 1 1 (981 # 100); mk3 1 (- 1) (981 # 100);
   mk3 (- 1) (- 1) (981 # 100); mk3 (- 1) 1 (981 # 100)].

Definition cone_b : list vec3 :=
  [mk3 0 0 (- (981 # 100)); mk3 1 1 (981 # 100); mk3 1 (- 1) (981 # 100)].

(** A tube with two dual cones, the second one degenerate. *)
Definition tube_with_cones : Tube.t :=
  Tube.set_dual_vrep [cone_a; cone_b] Scenario.tube_ds.

(** The controller of [Scenario.controller] with its FSM, early in the
    first double-support phase of the cyclic walk. *)
Definition process : Pipeline.t :=
  Pipeline.mk Scenario.controller
    (Scenario.fsm_at Scenario.walk true 0 Scenario.dsl (1 # 5) false)
    (1 # 100) [].

(** The same, with the phase timer overshot to -0.025 s. *)
Definition process_overshot : Pipeline.t :=
  Pipeline.mk Scenario.controller
    (Scenario.fsm_at Scenario.walk true 0 Scenario.dsl (- (1 # 40)) false)
    (1 # 100) [].

(** A buffer process with a callback, holding the two-step preview of
    [Scenario], and one whose current control has 0.05 s left. *)
Definition fresh_process : BufferProcess.t :=
  BufferProcess.mk
    (snd (PreviewBuffer.update_preview Scenario.preview_U Scenario.preview_dT
            None Scenario.buffer3))
    true [].

Definition holding_process : BufferProcess.t :=
  BufferProcess.mk
    (PreviewBuffer.mk (Some Scenario.preview_U) (Some Scenario.preview_dT)
       ([0; 0; 0], 1 # 10) (Some [1; 2; 3]) 1 2 (1 # 20) None 3)
    true [].

(** A swing foot between two flat footholds 0.3 m apart, with a linear
    interpolation of positions and the vertical as normal. *)
Definition flat_quat : list Q := [1; 0; 0; 0].

Definition slerp (q0 q1 : list Q) (y : Q) : list Q := q0.

Definition interpolate (p0 p1 : Swing.Pose) (y : Q) : Swing.Pose :=
  Swing.mkPose (Swing.quat p0)
    (add (scale (1 - y) (Swing.pos p0)) (scale y (Swing.pos p1))).

Definition vertical (q : list Q) : vec3 := mk3 0 0 1.

Definition foothold_a : Swing.Pose := Swing.mkPose flat_quat (mk3 0 (1 # 10) 0).

Definition foothold_b : Swing.Pose :=
  Swing.mkPose flat_quat (mk3 (3 # 10) (1 # 10) 0).

Definition swinging : Swing.t :=
  Swing.reset interpolate vertical foothold_a foothold_b
    (Swing.init (15 # 100)).

End Cases.

(** * Properties *)

(** ** Comparisons and indexing *)

Lemma Qltb_true (x y : Q) : Py.Qltb x y = true <-> (x < y)%Q.
Proof.
  unfold Py.Qltb. rewrite negb_true_iff.
  split; intro H.
  - apply Qnot_le_lt. intro Hle. apply Qle_bool_iff in Hle. congruence.
  - destruct (Qle_bool y x) eqn:E; [|reflexivity].
    apply Qle_bool_iff in E. exfalso. exact (Qlt_not_le _ _ H E).
Qed.

Lemma Qltb_false (x y : Q) : Py.Qltb x y = false <-> (y <= x)%Q.
Proof.
  unfold Py.Qltb. rewrite negb_false_iff. apply Qle_bool_iff.
Qed.

Lemma index_in_range {X} (l : list X) (i : Z) :
  (0 <= i < Z.of_nat (List.length l))%Z ->
  exists a, Py.index l i = Py.Ok a /\ nth_error l (Z.to_nat i) = Some a.
Proof.
  intros Hi. unfold Py.index.
  destruct (Z.ltb_spec i 0) as [Hneg|_]; [lia|].
  destruct (Z.leb_spec 0 i) as [_|Hneg]; [|lia].
  destruct (Z.ltb_spec i (Z.of_nat (List.length l))) as [_|Hge]; [|lia].
  cbn [andb].
  destruct (nth_error l (Z.to_nat i)) as [a|] eqn:E.
  - exists a. split; reflexivity.
  - apply nth_error_None in E. lia.
Qed.

(** ** The finite state machine *)

Section FSMFacts.

Import Vec Model.

Lemma init_wf (sts : list Stance) (cyc : bool) (s : FSM.t) :
  FSM.init sts cyc = Py.Ok s -> FSM.wf s.
Proof.
  unfold FSM.init. destruct (Py.index sts 0) as [s0|] eqn:E; [|discriminate].
  intros H. injection H as <-. unfold FSM.wf; cbn.
  destruct sts as [|x sts]; [discriminate|].
  repeat split; try lia. exact E.
Qed.

Lemma next_stance_in_range (s : FSM.t) :
  FSM.wf s -> exists ns, FSM.next_stance s = Py.Ok ns.
Proof.
  intros (Hn & Hid & _). unfold FSM.next_stance.
  destruct (Z.geb_spec (FSM.cur_stance_id s + 1) (FSM.nb_stances s));
    [destruct (FSM.cycle s)|];
    (edestruct (@index_in_range Stance) as (a & Ha & _);
     [|eexists; exact Ha]); lia.
Qed.

Lemma next_next_stance_in_range (s : FSM.t) :
  FSM.wf s -> exists nns, FSM.next_next_stance s = Py.Ok nns.
Proof.
  intros (Hn & Hid & _). unfold FSM.next_next_stance, FSM.imod.
  destruct (Z.geb_spec (FSM.cur_stance_id s + 2) (FSM.nb_stances s)).
  - destruct (FSM.cycle s).
    + destruct (Z.eqb_spec (FSM.nb_stances s) 0); [lia|].
      edestruct (@index_in_range Stance) as (a & Ha & _);
        [|eexists; exact Ha].
      rewrite <- Hn. apply Z.mod_pos_bound. lia.
    + edestruct (@index_in_range Stance) as (a & Ha & _);
        [|eexists; exact Ha]. lia.
  - edestruct (@index_in_range Stance) as (a & Ha & _);
      [|eexists; exact Ha]. lia.
Qed.

Lemma next_stance_terminal (s : FSM.t) :
  FSM.wf s -> FSM.cycle s = false ->
  FSM.cur_stance_id s = (FSM.nb_stances s - 1)%Z ->
  FSM.next_stance s = Py.Ok (FSM.cur_stance s).
Proof.
  intros (Hn & Hid & Hcur) Hcyc Hlast. unfold FSM.next_stance.
  destruct (Z.geb_spec (FSM.cur_stance_id s + 1) (FSM.nb_stances s)); [|lia].
  rewrite Hcyc. exact Hcur.
Qed.

Lemma next_next_stance_terminal (s : FSM.t) :
  FSM.wf s -> FSM.cycle s = false ->
  FSM.cur_stance_id s = (FSM.nb_stances s - 1)%Z ->
  FSM.next_next_stance s = Py.Ok (FSM.cur_stance s).
Proof.
  intros (Hn & Hid & Hcur) Hcyc Hlast. unfold FSM.next_next_stance.
  destruct (Z.geb_spec (FSM.cur_stance_id s + 2) (FSM.nb_stances s)); [|lia].
  rewrite Hcyc, <- Hlast. exact Hcur.
Qed.

(** C10. In a non-cyclic FSM standing at the last index of its sequence,
    [next_stance] is the current stance itself (no wrap-around, no failure);
    hence the double-support guard measures the distance to the current
    stance's own equilibrium polygon, and the preview targets are those
    obtained with the current stance in the place of the next and of the
    next-next stance. *)
Theorem next_stance_at_last_index_is_current (s : FSM.t) (com : vec3) :
  FSM.wf s -> FSM.cycle s = false ->
  FSM.cur_stance_id s = (FSM.nb_stances s - 1)%Z ->
  FSM.next_stance s = Py.Ok (FSM.cur_stance s)
  /\ FSM.can_switch_to_ss com s
     = Py.Ok (Py.Qltb (- (15 # 100))
                (dist_to_sep_edge (FSM.cur_stance s) com))
  /\ FSM.get_preview_targets s
     = let cur := FSM.cur_stance s in
       let rem := FSM.rem_time s in
       if Py.startswith (label cur) "SS"
          && Py.Qltb rem ((1 # 2) * duration cur)
       then
         let horizon := (rem + duration cur + (1 # 2) * duration cur)%Q in
         Py.Ok (rem, horizon, com_p cur,
                divs (sub (com_p cur) (com_p cur)) horizon)
       else if Py.startswith (label cur) "DS"
       then
         Py.rbind (FSM.foot_t (FSM.stance_foot cur)) (fun ft =>
           Py.Ok (rem, (rem + (1 # 2) * duration cur)%Q, com_p cur,
                  scale (2 # 5) ft))
       else
         Py.rbind (FSM.foot_t (FSM.stance_foot cur)) (fun ft =>
           Py.Ok (rem, rem, com_p cur, scale (2 # 5) ft)).
Proof.
  intros Hwf Hcyc Hlast.
  pose proof (next_stance_terminal s Hwf Hcyc Hlast) as Hns.
  pose proof (next_next_stance_terminal s Hwf Hcyc Hlast) as Hnns.
  split; [exact Hns|]. split.
  - unfold FSM.can_switch_to_ss. rewrite Hns. reflexivity.
  - unfold FSM.get_preview_targets. rewrite Hns, Hnns. cbn [Py.rbind].
    reflexivity.
Qed.

Lemma next_stance_at_last_index_is_current_witness :
  FSM.next_stance
    (Scenario.fsm_at Scenario.walk false 3 Scenario.ssr (1 # 5) false)
  = Py.Ok Scenario.ssr
  /\ FSM.can_switch_to_ss Scenario.com_inside
       (Scenario.fsm_at Scenario.walk false 3 Scenario.ssr (1 # 5) false)
     = Py.Ok (Py.Qltb (- (15 # 100))
                (dist_to_sep_edge Scenario.ssr Scenario.com_inside))
  /\ FSM.get_preview_targets
       (Scenario.fsm_at Scenario.walk false 3 Scenario.ssr (1 # 5) false)
     = Py.Ok (1 # 5, ((1 # 5) + 1 + (1 # 2) * 1)%Q, com_p Scenario.ssr,
              divs (sub (com_p Scenario.ssr) (com_p Scenario.ssr))
                ((1 # 5) + 1 + (1 # 2) * 1)).
Proof.
  apply (next_stance_at_last_index_is_current
           (Scenario.fsm_at Scenario.walk false 3 Scenario.ssr (1 # 5) false)
           Scenario.com_inside).
  - repeat split; cbn; lia.
  - reflexivity.
  - reflexivity.
Defined.

(** The invariant is kept by every tick, whatever its outcome. *)

Lemma with_log_wf (l : list FSM.event) (s : FSM.t) :
  FSM.wf s -> FSM.wf (FSM.with_log l s).
Proof. intros H. exact H. Qed.

Lemma with_log_self (s : FSM.t) : FSM.with_log (FSM.log s) s = s.
Proof. destruct s. reflexivity. Qed.

Lemma labels_are_state (a b : string) (s : FSM.t) :
  snd (FSM.labels_are a b s) = s.
Proof.
  unfold FSM.labels_are, Py.bind, Py.get, Py.lift, Py.ret.
  destruct (String.eqb (label (FSM.cur_stance s)) a); [|reflexivity].
  destruct (FSM.next_next_stance s); reflexivity.
Qed.

Lemma swing_reset_state (foot : Stance -> option Contact) (s : FSM.t) :
  exists l, snd (FSM.swing_reset foot s) = FSM.with_log l s.
Proof.
  unfold FSM.swing_reset, Py.bind, Py.get, Py.lift.
  destruct (FSM.pose_of (foot (FSM.cur_stance s)));
    [|exists (FSM.log s); symmetry; apply with_log_self].
  destruct (Py.rbind (FSM.next_next_stance s) _);
    [|exists (FSM.log s); symmetry; apply with_log_self].
  eexists. reflexivity.
Qed.

Lemma switch_stance_wf (s : FSM.t) :
  FSM.wf s -> FSM.wf (snd (FSM.switch_stance s)).
Proof.
  intros Hwf. unfold FSM.switch_stance.
  unfold Py.bind at 1.
  set (handover := Py.bind (FSM.labels_are "DS-R" "DS-L") _).
  assert (Hh : exists l, snd (handover s) = FSM.with_log l s).
  { unfold handover, Py.bind.
    pose proof (labels_are_state "DS-R" "DS-L" s) as H1.
    destruct (FSM.labels_are "DS-R" "DS-L" s) as [[[]|] s1]; cbn in H1; subst s1;
      [apply swing_reset_state| |exists (FSM.log s); symmetry; apply with_log_self].
    pose proof (labels_are_state "DS-L" "DS-R" s) as H2.
    destruct (FSM.labels_are "DS-L" "DS-R" s) as [[[]|] s2]; cbn in H2; subst s2;
      [apply swing_reset_state
      |exists (FSM.log s); symmetry; apply with_log_self
      |exists (FSM.log s); symmetry; apply with_log_self]. }
  destruct Hh as (l & Hl).
  destruct (handover s) as [[[]|] s1]; cbn in Hl; subst s1;
    [|apply with_log_wf; exact Hwf].
  destruct Hwf as (Hn & Hid & Hcur).
  unfold Py.bind, Py.get, Py.lift, Py.modify, FSM.imod. cbn.
  destruct (Z.eqb_spec (FSM.nb_stances s) 0) as [Hz|Hnz]; [lia|].
  destruct (@index_in_range Stance (FSM.stances s)
              ((FSM.cur_stance_id s + 1) mod FSM.nb_stances s))
    as (st & Hst & _).
  { rewrite <- Hn. apply Z.mod_pos_bound. lia. }
  rewrite Hst. cbn. unfold FSM.wf. cbn.
  repeat split; try assumption; apply Z.mod_pos_bound; lia.
Qed.

Lemma on_tick_wf (dt : Q) (com : vec3) (s : FSM.t) :
  FSM.wf s -> FSM.wf (snd (FSM.on_tick dt com s)).
Proof.
  intros Hwf. unfold FSM.on_tick, Py.bind, Py.get, Py.lift, Py.ret.
  destruct (FSM.is_over s); [exact Hwf|].
  destruct (Py.Qltb 0 (FSM.rem_time s)).
  - destruct (Py.startswith (label (FSM.cur_stance s)) "SS");
      [destruct (Py.fdiv _ _)|]; exact Hwf.
  - assert (Hrest :
      FSM.wf (snd (if ((FSM.cur_stance_id s =? FSM.nb_stances s - 1)%Z
                       && negb (FSM.cycle s))%bool
                   then Py.modify (FSM.set_is_over true) s
                   else FSM.switch_stance s))).
    { destruct ((FSM.cur_stance_id s =? FSM.nb_stances s - 1)%Z
                && negb (FSM.cycle s))%bool;
        [exact Hwf|apply switch_stance_wf; exact Hwf]. }
    destruct (Py.startswith (label (FSM.cur_stance s)) "DS").
    + destruct (FSM.can_switch_to_ss com s) as [[]|]; cbn [negb];
        [|exact Hwf|exact Hwf].
      destruct ((FSM.cur_stance_id s =? FSM.nb_stances s - 1)%Z
                && negb (FSM.cycle s))%bool; exact Hrest.
    + destruct ((FSM.cur_stance_id s =? FSM.nb_stances s - 1)%Z
                && negb (FSM.cycle s))%bool; exact Hrest.
Qed.

Lemma ds_is_not_ss (l : string) :
  Py.startswith l "DS" = true -> Py.startswith l "SS" = false.
Proof.
  unfold Py.startswith.
  destruct l as [|a l]; cbn [String.prefix]; [discriminate|].
  destruct (Ascii.ascii_dec "D"%char a) as [<-|]; [intros _|discriminate].
  destruct (Ascii.ascii_dec "S"%char "D"%char); [discriminate|reflexivity].
Qed.

Lemma on_tick_over (dt : Q) (com : vec3) (s : FSM.t) :
  FSM.is_over s = true -> FSM.on_tick dt com s = (Py.Ok tt, s).
Proof.
  intros H. unfold FSM.on_tick, Py.bind, Py.get. rewrite H. reflexivity.
Qed.

Lemma run_over (ticks : list (Q * vec3)) (s : FSM.t) :
  FSM.is_over s = true -> FSM.run ticks s = (Py.Ok tt, s).
Proof.
  intros H. induction ticks as [|[dt com] rest IH]; cbn [FSM.run].
  - reflexivity.
  - unfold Py.bind. rewrite (on_tick_over dt com s H). exact IH.
Qed.

Lemma emit_spec (ev : FSM.event) (s : FSM.t) :
  exists s', FSM.emit ev s = (Py.Ok tt, s')
    /\ FSM.cur_stance_id s' = FSM.cur_stance_id s
    /\ FSM.cur_stance s' = FSM.cur_stance s
    /\ FSM.rem_time s' = FSM.rem_time s
    /\ FSM.is_over s' = FSM.is_over s
    /\ FSM.log s' = FSM.log s ++ [ev].
Proof. eexists. split; [reflexivity|]. cbn. repeat split; auto. Qed.

(** C7 (amended). On a tick where the time of the current phase has run out,
    the phase is a double-support one and the centre of mass is not deeper
    than -0.15 inside the next stance's equilibrium polygon, [on_tick]
    returns normally and leaves the stance index, the current stance and the
    remaining time as they were; it prints the diagnostic, except when the
    FSM is already over, where the tick returns at once and prints nothing. *)
Theorem double_support_hold (s : FSM.t) (dt : Q) (com : vec3) (ns : Stance) :
  (FSM.rem_time s <= 0)%Q ->
  Py.startswith (label (FSM.cur_stance s)) "DS" = true ->
  FSM.next_stance s = Py.Ok ns ->
  (dist_to_sep_edge ns com <= - (15 # 100))%Q ->
  exists s',
    FSM.on_tick dt com s = (Py.Ok tt, s')
    /\ FSM.cur_stance_id s' = FSM.cur_stance_id s
    /\ FSM.cur_stance s' = FSM.cur_stance s
    /\ FSM.rem_time s' = FSM.rem_time s
    /\ FSM.is_over s' = FSM.is_over s
    /\ FSM.log s'
       = FSM.log s
         ++ (if FSM.is_over s then [] else [FSM.Print FSM.not_ready_msg]).
Proof.
  intros Hrem Hds Hns Hdist.
  destruct (FSM.is_over s) eqn:Hover.
  - exists s. rewrite (on_tick_over dt com s Hover), app_nil_r.
    repeat split; auto.
  - apply Qltb_false in Hrem. apply Qltb_false in Hdist.
    destruct (emit_spec (FSM.Print FSM.not_ready_msg) s)
      as (s' & Hemit & Hid & Hcur & Hr & Ho & Hlog).
    exists s'. split; [|rewrite Ho; repeat split; auto].
    unfold FSM.on_tick, Py.bind, Py.get, Py.lift, Py.ret.
    rewrite Hover, Hrem, Hds. unfold FSM.can_switch_to_ss.
    rewrite Hns. cbn [Py.rbind]. rewrite Hdist. cbn [negb]. exact Hemit.
Qed.

Lemma double_support_hold_witness :
  exists s',
    FSM.on_tick (3 # 100) Scenario.com_behind
      (Scenario.fsm_at Scenario.walk true 0 Scenario.dsl 0 false)
    = (Py.Ok tt, s')
    /\ FSM.cur_stance_id s' = 0%Z
    /\ FSM.cur_stance s' = Scenario.dsl
    /\ FSM.rem_time s' = 0%Q
    /\ FSM.is_over s' = false
    /\ FSM.log s' = [FSM.Print FSM.not_ready_msg].
Proof.
  apply (double_support_hold
           (Scenario.fsm_at Scenario.walk true 0 Scenario.dsl 0 false)
           (3 # 100) Scenario.com_behind Scenario.ssl).
  - vm_compute. discriminate.
  - reflexivity.
  - reflexivity.
  - vm_compute. discriminate.
Defined.

(** The state [Scenario.finished] is reached from [__init__] by two ticks. *)
Example finished_is_reached :
  exists s0,
    FSM.init [Scenario.dsl] false = Py.Ok s0
    /\ FSM.run [(7 # 10, Scenario.com_inside); (7 # 10, Scenario.com_inside)] s0
       = (Py.Ok tt, Scenario.finished)
    /\ FSM.is_over Scenario.finished = true.
Proof. eexists. split; [reflexivity|]. split; reflexivity. Qed.

(** C7, as stated, fails on a finished walk: the phase is a double-support
    one, its time has run out and the centre of mass is 0.95 m outside the
    polygon, yet the tick prints nothing. *)
Lemma double_support_hold_silent_when_over :
  ~ (forall (s : FSM.t) (dt : Q) (com : vec3) (ns : Stance),
        (FSM.rem_time s <= 0)%Q ->
        Py.startswith (label (FSM.cur_stance s)) "DS" = true ->
        FSM.next_stance s = Py.Ok ns ->
        (dist_to_sep_edge ns com <= - (15 # 100))%Q ->
        exists s',
          FSM.on_tick dt com s = (Py.Ok tt, s')
          /\ FSM.cur_stance_id s' = FSM.cur_stance_id s
          /\ FSM.cur_stance s' = FSM.cur_stance s
          /\ FSM.rem_time s' = FSM.rem_time s
          /\ FSM.log s' = FSM.log s ++ [FSM.Print FSM.not_ready_msg]).
Proof.
  intros H.
  destruct (H Scenario.finished (3 # 100) Scenario.com_behind Scenario.dsl)
    as (s' & Htick & _ & _ & _ & Hlog).
  - vm_compute. discriminate.
  - reflexivity.
  - reflexivity.
  - vm_compute. discriminate.
  - rewrite on_tick_over in Htick by reflexivity.
    injection Htick as <-. discriminate Hlog.
Qed.

Lemma on_tick_counting_down (dt : Q) (com : vec3) (s : FSM.t) :
  (0 < FSM.rem_time s)%Q ->
  FSM.cur_stance_id (snd (FSM.on_tick dt com s)) = FSM.cur_stance_id s.
Proof.
  intros Hrem. apply Qltb_true in Hrem.
  unfold FSM.on_tick, Py.bind, Py.get, Py.lift, Py.ret.
  destruct (FSM.is_over s); [reflexivity|]. rewrite Hrem.
  destruct (Py.startswith (label (FSM.cur_stance s)) "SS"); [|reflexivity].
  destruct (Py.fdiv (FSM.rem_time s) (duration (FSM.cur_stance s)));
    reflexivity.
Qed.

Lemma on_tick_terminal (dt : Q) (com : vec3) (s : FSM.t) :
  FSM.wf s -> FSM.cycle s = false ->
  FSM.cur_stance_id s = (FSM.nb_stances s - 1)%Z ->
  FSM.is_over s = false ->
  (FSM.rem_time s <= 0)%Q ->
  (Py.startswith (label (FSM.cur_stance s)) "DS" = true ->
   (- (15 # 100) < dist_to_sep_edge (FSM.cur_stance s) com)%Q) ->
  FSM.on_tick dt com s = (Py.Ok tt, FSM.set_is_over true s).
Proof.
  intros Hwf Hcyc Hlast Hover Hrem Hguard. apply Qltb_false in Hrem.
  unfold FSM.on_tick, Py.bind, Py.get, Py.lift, Py.ret.
  rewrite Hover, Hrem.
  assert (Heq : (FSM.cur_stance_id s =? FSM.nb_stances s - 1)%Z = true)
    by (apply Z.eqb_eq; exact Hlast).
  destruct (Py.startswith (label (FSM.cur_stance s)) "DS").
  - unfold FSM.can_switch_to_ss.
    rewrite (next_stance_terminal s Hwf Hcyc Hlast). cbn [Py.rbind].
    rewrite (proj2 (Qltb_true _ _) (Hguard eq_refl)). cbn [negb].
    rewrite Heq, Hcyc. reflexivity.
  - rewrite Heq, Hcyc. reflexivity.
Qed.

(** C8 (amended). A tick entered with [rem_time > 0] leaves the stance index
    as it was.  In a non-cyclic FSM standing at the last index, the first tick
    after the time has run out that is not held by the double-support guard
    sets [is_over]; from then on every tick leaves the whole object as it is:
    [is_over] stays true and the index stays at the last one. *)
Theorem index_fixed_and_terminal_forever (s : FSM.t) (dt : Q) (com : vec3) :
  ((0 < FSM.rem_time s)%Q ->
   FSM.cur_stance_id (snd (FSM.on_tick dt com s)) = FSM.cur_stance_id s)
  /\ (FSM.wf s -> FSM.cycle s = false ->
      FSM.cur_stance_id s = (FSM.nb_stances s - 1)%Z ->
      FSM.is_over s = false ->
      (FSM.rem_time s <= 0)%Q ->
      (Py.startswith (label (FSM.cur_stance s)) "DS" = true ->
       (- (15 # 100) < dist_to_sep_edge (FSM.cur_stance s) com)%Q) ->
      forall later : list (Q * vec3),
      exists s',
        FSM.run ((dt, com) :: later) s = (Py.Ok tt, s')
        /\ FSM.is_over s' = true
        /\ FSM.cur_stance_id s' = (FSM.nb_stances s - 1)%Z)
  /\ (FSM.is_over s = true ->
      forall later : list (Q * vec3), FSM.run later s = (Py.Ok tt, s)).
Proof.
  split; [exact (on_tick_counting_down dt com s)|]. split.
  - intros Hwf Hcyc Hlast Hover Hrem Hguard later.
    exists (FSM.set_is_over true s). cbn [FSM.run]. unfold Py.bind.
    rewrite (on_tick_terminal dt com s Hwf Hcyc Hlast Hover Hrem Hguard).
    rewrite run_over by reflexivity. repeat split. exact Hlast.
  - intros Hover later. exact (run_over later s Hover).
Qed.

Lemma index_fixed_and_terminal_forever_witness :
  FSM.cur_stance_id
    (snd (FSM.on_tick (3 # 100) Scenario.com_inside
            (Scenario.fsm_at Scenario.walk false 1 Scenario.ssl (1 # 2) false)))
  = 1%Z
  /\ (exists s',
        FSM.run [(3 # 100, Scenario.com_inside); (3 # 100, Scenario.com_behind)]
          (Scenario.fsm_at Scenario.walk false 3 Scenario.ssr 0 false)
        = (Py.Ok tt, s')
        /\ FSM.is_over s' = true /\ FSM.cur_stance_id s' = 3%Z)
  /\ FSM.run [(3 # 100, Scenario.com_behind)] Scenario.finished
     = (Py.Ok tt, Scenario.finished).
Proof.
  split; [|split].
  - apply (index_fixed_and_terminal_forever
             (Scenario.fsm_at Scenario.walk false 1 Scenario.ssl (1 # 2) false)
             (3 # 100) Scenario.com_inside).
    reflexivity.
  - apply (index_fixed_and_terminal_forever
             (Scenario.fsm_at Scenario.walk false 3 Scenario.ssr 0 false)
             (3 # 100) Scenario.com_inside).
    + repeat split; cbn; lia.
    + reflexivity.
    + reflexivity.
    + reflexivity.
    + vm_compute. discriminate.
    + discriminate.
  - apply (index_fixed_and_terminal_forever Scenario.finished
             (3 # 100) Scenario.com_behind).
    reflexivity.
Defined.

(** C8, as stated, fails when the last stance is a double-support one and
    the centre of mass stays outside its polygon: the time of the final
    stance has run out, and [is_over] is still false after the tick. *)
Lemma terminal_tick_may_hold :
  ~ (forall (s : FSM.t) (dt : Q) (com : vec3) (s' : FSM.t),
        FSM.wf s -> FSM.cycle s = false ->
        FSM.cur_stance_id s = (FSM.nb_stances s - 1)%Z ->
        FSM.is_over s = false ->
        (FSM.rem_time s <= 0)%Q ->
        FSM.on_tick dt com s = (Py.Ok tt, s') ->
        FSM.is_over s' = true).
Proof.
  intros H.
  pose (s := Scenario.fsm_at [Scenario.dsl] false 0 Scenario.dsl 0 false).
  assert (Hs : FSM.is_over (snd (FSM.on_tick (3 # 100) Scenario.com_behind s))
               = true).
  { apply (H s (3 # 100) Scenario.com_behind).
    - repeat split; cbn; lia.
    - reflexivity.
    - reflexivity.
    - reflexivity.
    - vm_compute. discriminate.
    - reflexivity. }
  discriminate Hs.
Qed.

(** C4 (amended). [get_preview_targets] follows a three-way policy, where
    the reference point subtracted in (i) is the centre-of-mass reference of
    the current stance ([cur_stance.com.p]), not the measured centre of mass:
    (i) single support with less than half of the phase left: the target is
    the next stance's reference, the horizon adds the next duration and half
    of the next-next one, the velocity is (target - current stance's
    reference) / horizon; (ii) double support: the target is the current
    stance's reference, the horizon adds half of the next duration, the
    velocity is 0.4 times the stance foot's tangent; (iii) single support
    with at least half of the phase left: as (ii) with horizon [rem_time]. *)
Theorem preview_targets_policy (s : FSM.t) :
  (forall ns nns : Stance,
      Py.startswith (label (FSM.cur_stance s)) "SS" = true ->
      (FSM.rem_time s < (1 # 2) * duration (FSM.cur_stance s))%Q ->
      FSM.next_stance s = Py.Ok ns ->
      FSM.next_next_stance s = Py.Ok nns ->
      FSM.get_preview_targets s
      = Py.Ok (FSM.rem_time s,
               (FSM.rem_time s + duration ns + (1 # 2) * duration nns)%Q,
               com_p ns,
               divs (sub (com_p ns) (com_p (FSM.cur_stance s)))
                 (FSM.rem_time s + duration ns + (1 # 2) * duration nns)))
  /\ (forall (ns : Stance) (foot : Contact),
         Py.startswith (label (FSM.cur_stance s)) "DS" = true ->
         FSM.next_stance s = Py.Ok ns ->
         FSM.stance_foot (FSM.cur_stance s) = Some foot ->
         FSM.get_preview_targets s
         = Py.Ok (FSM.rem_time s,
                  (FSM.rem_time s + (1 # 2) * duration ns)%Q,
                  com_p (FSM.cur_stance s),
                  scale (2 # 5) (Model.t foot)))
  /\ (forall foot : Contact,
         Py.startswith (label (FSM.cur_stance s)) "SS" = true ->
         ((1 # 2) * duration (FSM.cur_stance s) <= FSM.rem_time s)%Q ->
         FSM.stance_foot (FSM.cur_stance s) = Some foot ->
         FSM.get_preview_targets s
         = Py.Ok (FSM.rem_time s, FSM.rem_time s, com_p (FSM.cur_stance s),
                  scale (2 # 5) (Model.t foot))).
Proof.
  split; [|split].
  - intros ns nns Hss Hrem Hns Hnns. apply Qltb_true in Hrem.
    unfold FSM.get_preview_targets. rewrite Hss, Hrem, Hns, Hnns.
    reflexivity.
  - intros ns foot Hds Hns Hfoot.
    unfold FSM.get_preview_targets.
    rewrite (ds_is_not_ss _ Hds), Hds, Hns, Hfoot. reflexivity.
  - intros foot Hss Hrem Hfoot. apply Qltb_false in Hrem.
    unfold FSM.get_preview_targets. rewrite Hss, Hrem, Hfoot. cbn [andb].
    destruct (Py.startswith (label (FSM.cur_stance s)) "DS") eqn:Hds.
    + rewrite (ds_is_not_ss _ Hds) in Hss. discriminate.
    + reflexivity.
Qed.

Lemma preview_targets_policy_witness :
  FSM.get_preview_targets
    (Scenario.fsm_at Scenario.walk true 1 Scenario.ssl (2 # 5) false)
  = Py.Ok (2 # 5, ((2 # 5) + (7 # 10) + (1 # 2) * 1)%Q,
           com_p Scenario.dsr,
           divs (sub (com_p Scenario.dsr) (com_p Scenario.ssl))
             ((2 # 5) + (7 # 10) + (1 # 2) * 1))
  /\ FSM.get_preview_targets
       (Scenario.fsm_at Scenario.walk true 0 Scenario.dsl (1 # 5) false)
     = Py.Ok (1 # 5, ((1 # 5) + (1 # 2) * 1)%Q, com_p Scenario.dsl,
              scale (2 # 5) (Model.t Scenario.left_contact))
  /\ FSM.get_preview_targets
       (Scenario.fsm_at Scenario.walk true 1 Scenario.ssl (4 # 5) false)
     = Py.Ok (4 # 5, 4 # 5, com_p Scenario.ssl,
              scale (2 # 5) (Model.t Scenario.left_contact)).
Proof.
  split; [|split].
  - apply (proj1 (preview_targets_policy
             (Scenario.fsm_at Scenario.walk true 1 Scenario.ssl (2 # 5) false))
             Scenario.dsr Scenario.ssr).
    + reflexivity.
    + reflexivity.
    + reflexivity.
    + reflexivity.
  - apply (proj1 (proj2 (preview_targets_policy
             (Scenario.fsm_at Scenario.walk true 0 Scenario.dsl (1 # 5) false)))
             Scenario.ssl Scenario.left_contact).
    + reflexivity.
    + reflexivity.
    + reflexivity.
  - apply (proj2 (proj2 (preview_targets_policy
             (Scenario.fsm_at Scenario.walk true 1 Scenario.ssl (4 # 5) false)))
             Scenario.left_contact).
    + reflexivity.
    + vm_compute. discriminate.
    + reflexivity.
Defined.

(** C4, as stated, fails in case (i) as soon as the measured centre of mass
    [cur_com] is not the current stance's reference point: late in the
    single-support phase [ssl], with the centre of mass 0.2 m ahead of that
    reference, the velocity returned along [x] is 0.3 / 1.6, where the
    stated formula gives 0.1 / 1.6. *)
Lemma preview_velocity_ignores_measured_com :
  ~ (forall (s : FSM.t) (cur_com : vec3) (ns nns : Stance),
        Py.startswith (label (FSM.cur_stance s)) "SS" = true ->
        (FSM.rem_time s < (1 # 2) * duration (FSM.cur_stance s))%Q ->
        FSM.next_stance s = Py.Ok ns ->
        FSM.next_next_stance s = Py.Ok nns ->
        exists horizon target_com target_comd,
          FSM.get_preview_targets s
          = Py.Ok (FSM.rem_time s, horizon, target_com, target_comd)
          /\ (vx target_comd == vx (divs (sub target_com cur_com) horizon))%Q).
Proof.
  intros H.
  destruct (H (Scenario.fsm_at Scenario.walk true 1 Scenario.ssl (2 # 5) false)
              (mk3 (1 # 5) (1 # 10) (8 # 10)) Scenario.dsr Scenario.ssr)
    as (h & tc & tv & Hget & Hv); try reflexivity.
  injection Hget as <- <- <-. vm_compute in Hv. discriminate Hv.
Qed.

End FSMFacts.

(** ** The COM tube *)

Section TubeFacts.

Import Vec Model.

Variable sqrt : Q -> Q.
Variable gravity : vec3.
Variable pendular_accel_cone : Stance -> list vec3 -> list vec3.
Variable reduced_pendular_accel_cone : Stance -> list vec3 -> list vec2.
Variable intersect_polygons : list vec2 -> list vec2 -> list vec2.

Local Abbreviation expand := (Tube.expand_reduced_pendular_cone gravity).
Local Abbreviation cone2d := reduced_pendular_accel_cone.
Local Abbreviation compute_dual_vrep :=
  (Tube.compute_dual_vrep gravity pendular_accel_cone
     reduced_pendular_accel_cone intersect_polygons).

Lemma compute_dual_vrep_two_phases (tb : Tube.t) (full pv0 pv1 : list vec3) :
  Tube.primal_vrep tb = [pv0; pv1] ->
  Tube.full_vrep tb = Some full ->
  compute_dual_vrep tb
  = (Py.Ok tt,
     Tube.set_dual_vrep
       (if (1 <? List.length pv0)%nat
        then
          [expand (cone2d (Tube.start_stance tb) full) None;
           expand (intersect_polygons
                     (cone2d (Tube.start_stance tb) full)
                     (cone2d (Tube.next_stance tb) pv1)) None]
        else
          [expand (intersect_polygons
                     (cone2d (Tube.next_stance tb) full)
                     (cone2d (Tube.start_stance tb) pv0)) None;
           expand (cone2d (Tube.next_stance tb) full) None])
       tb).
Proof.
  intros Hpv Hfull. destruct tb; cbn in Hpv, Hfull; subst.
  unfold Tube.compute_dual_vrep, Tube.reduced_cones,
    Tube.get_full_vrep, Py.bind, Py.get, Py.lift, Py.ret, Py.modify.
  destruct pv0 as [|v0 [|v1 pv0]]; reflexivity.
Qed.

(** C1. For a tube with two primal sub-phases, the vertex set of the
    single-support sub-phase's dual cone is the expansion of the polygon
    intersection of the double-support stance's reduced cone (over the full
    swept volume) with the single-support stance's reduced cone, in both
    orders of the sub-phases; the double-support sub-phase keeps its own
    reduced cone. *)
Theorem single_support_cone_is_intersection
    (tb : Tube.t) (full pv0 pv1 : list vec3) :
  Tube.primal_vrep tb = [pv0; pv1] ->
  Tube.full_vrep tb = Some full ->
  ((1 < List.length pv0)%nat ->
   compute_dual_vrep tb
   = (Py.Ok tt,
      Tube.set_dual_vrep
        [expand (cone2d (Tube.start_stance tb) full) None;
         expand (intersect_polygons
                   (cone2d (Tube.start_stance tb) full)
                   (cone2d (Tube.next_stance tb) pv1)) None]
        tb))
  /\ ((List.length pv0 <= 1)%nat ->
      compute_dual_vrep tb
      = (Py.Ok tt,
         Tube.set_dual_vrep
           [expand (intersect_polygons
                      (cone2d (Tube.next_stance tb) full)
                      (cone2d (Tube.start_stance tb) pv0)) None;
            expand (cone2d (Tube.next_stance tb) full) None]
           tb)).
Proof.
  intros Hpv Hfull.
  rewrite (compute_dual_vrep_two_phases tb full pv0 pv1 Hpv Hfull).
  split; intros Hlen.
  - apply Nat.ltb_lt in Hlen. rewrite Hlen. reflexivity.
  - destruct (Nat.ltb_spec 1 (List.length pv0)); [lia|reflexivity].
Qed.

Lemma expand_vertical (hull : list vec2) (v : vec3) :
  In v (expand hull None) -> vz v = vz gravity \/ vz v = (- vz gravity)%Q.
Proof.
  unfold Tube.expand_reduced_pendular_cone. cbn [app].
  intros [<-|Hin]; [left; reflexivity|right].
  apply in_map_iff in Hin. destruct Hin as ([a b] & <- & _). reflexivity.
Qed.

(** C2 (amended). For a tube with two primal sub-phases, [compute_dual_vrep]
    returns with two dual cones, each of them the gravity vector followed by
    the vertices of a reduced polygon lifted to the height [g]: every vertex
    has vertical component either [-g] (the apex, the gravity vector itself)
    or [+g], where [g] is the opposite of the vertical gravity component. *)
Theorem dual_cone_vertical_extremes (tb : Tube.t) (full pv0 pv1 : list vec3) :
  Tube.primal_vrep tb = [pv0; pv1] ->
  Tube.full_vrep tb = Some full ->
  exists s',
    compute_dual_vrep tb = (Py.Ok tt, s')
    /\ List.length (Tube.dual_vrep s') = 2%nat
    /\ forall cone : list vec3,
         In cone (Tube.dual_vrep s') ->
         (exists hull, cone = expand hull None)
         /\ nth_error cone 0 = Some gravity
         /\ forall v : vec3,
              In v cone -> vz v = vz gravity \/ vz v = (- vz gravity)%Q.
Proof.
  intros Hpv Hfull.
  rewrite (compute_dual_vrep_two_phases tb full pv0 pv1 Hpv Hfull).
  eexists. split; [reflexivity|].
  cbn [Tube.set_dual_vrep Tube.dual_vrep].
  destruct (1 <? List.length pv0)%nat; (split; [reflexivity|]);
    intros cone [<-|[<-|[]]];
    (split; [eexists; reflexivity|]);
    (split; [reflexivity|]); intros v Hv;
    exact (expand_vertical _ v Hv).
Qed.

Lemma all_close_true (u v : vec3) (eps : Q) :
  (Qabs (vx u - vx v) < eps)%Q ->
  (Qabs (vy u - vy v) < eps)%Q ->
  (Qabs (vz u - vz v) < eps)%Q ->
  all_close u v eps = true.
Proof.
  intros Hx Hy Hz. unfold all_close. cbn [sub vx vy vz].
  rewrite (proj2 (Qltb_true _ _) Hx), (proj2 (Qltb_true _ _) Hy),
    (proj2 (Qltb_true _ _) Hz).
  reflexivity.
Qed.

(** C3 (amended). When the start stance is a single-support one and the
    centre-of-mass reference of that stance ([start_stance.com.p], not the
    tube's [start_com]) is within 1e-3 of [target_com] on every axis,
    [compute_primal_vrep] stores exactly one sub-phase, the full swept volume
    of eight vertices, with no singleton sub-phase before or after it. *)
Theorem single_phase_when_target_is_stance_reference (tb : Tube.t) :
  Py.startswith (label (Tube.start_stance tb)) "SS" = true ->
  (Qabs (vx (com_p (Tube.start_stance tb)) - vx (Tube.target_com tb))
   < 1 # 1000)%Q ->
  (Qabs (vy (com_p (Tube.start_stance tb)) - vy (Tube.target_com tb))
   < 1 # 1000)%Q ->
  (Qabs (vz (com_p (Tube.start_stance tb)) - vz (Tube.target_com tb))
   < 1 # 1000)%Q ->
  Tube.primal_vrep (Tube.compute_primal_vrep sqrt tb)
  = [Tube.tube_vertices sqrt tb]
  /\ Tube.full_vrep (Tube.compute_primal_vrep sqrt tb)
     = Some (Tube.tube_vertices sqrt tb)
  /\ List.length (Tube.tube_vertices sqrt tb) = 8%nat.
Proof.
  intros Hss Hx Hy Hz. unfold Tube.compute_primal_vrep.
  rewrite Hss, (all_close_true _ _ _ Hx Hy Hz).
  repeat split.
Qed.

End TubeFacts.

Section TubeScenario.

Import Vec Model.

Lemma single_support_cone_is_intersection_witness :
  Tube.dual_vrep
    (snd (Tube.compute_dual_vrep Scenario.gravity Scenario.full_cone
            Scenario.reduced_cone Scenario.intersect_rects
            (Tube.compute_primal_vrep Scenario.sqrt Scenario.tube_ds)))
  = [Tube.expand_reduced_pendular_cone Scenario.gravity
       (Scenario.rect (1 # 2) (1 # 4)) None;
     Tube.expand_reduced_pendular_cone Scenario.gravity
       (Scenario.rect (1 # 4) (1 # 4)) None]
  /\ Tube.dual_vrep
       (snd (Tube.compute_dual_vrep Scenario.gravity Scenario.full_cone
               Scenario.reduced_cone Scenario.intersect_rects
               (Tube.compute_primal_vrep Scenario.sqrt Scenario.tube_ss_late)))
     = [Tube.expand_reduced_pendular_cone Scenario.gravity
          (Scenario.rect (1 # 4) (1 # 4)) None;
        Tube.expand_reduced_pendular_cone Scenario.gravity
          (Scenario.rect (1 # 2) (1 # 4)) None].
Proof.
  split.
  - rewrite (proj1 (single_support_cone_is_intersection
               Scenario.gravity Scenario.full_cone Scenario.reduced_cone
               Scenario.intersect_rects
               (Tube.compute_primal_vrep Scenario.sqrt Scenario.tube_ds)
               (Tube.tube_vertices Scenario.sqrt Scenario.tube_ds)
               (Tube.tube_vertices Scenario.sqrt Scenario.tube_ds)
               [Tube.target_com Scenario.tube_ds]
               eq_refl eq_refl)).
    + reflexivity.
    + cbn. lia.
  - rewrite (proj2 (single_support_cone_is_intersection
               Scenario.gravity Scenario.full_cone Scenario.reduced_cone
               Scenario.intersect_rects
               (Tube.compute_primal_vrep Scenario.sqrt Scenario.tube_ss_late)
               (Tube.tube_vertices Scenario.sqrt Scenario.tube_ss_late)
               [Tube.start_com Scenario.tube_ss_late]
               (Tube.tube_vertices Scenario.sqrt Scenario.tube_ss_late)
               eq_refl eq_refl)).
    + reflexivity.
    + cbn. lia.
Defined.

Lemma dual_cone_vertical_extremes_witness :
  exists s',
    Tube.compute_dual_vrep Scenario.gravity Scenario.full_cone
      Scenario.reduced_cone Scenario.intersect_rects
      (Tube.compute_primal_vrep Scenario.sqrt Scenario.tube_ds)
    = (Py.Ok tt, s')
    /\ List.length (Tube.dual_vrep s') = 2%nat
    /\ forall cone : list vec3,
         In cone (Tube.dual_vrep s') ->
         (exists hull,
             cone = Tube.expand_reduced_pendular_cone Scenario.gravity
                      hull None)
         /\ nth_error cone 0 = Some Scenario.gravity
         /\ forall v : vec3,
              In v cone ->
              vz v = - (981 # 100) \/ vz v = (- - (981 # 100))%Q.
Proof.
  apply (dual_cone_vertical_extremes
           Scenario.gravity Scenario.full_cone Scenario.reduced_cone
           Scenario.intersect_rects
           (Tube.compute_primal_vrep Scenario.sqrt Scenario.tube_ds)
           (Tube.tube_vertices Scenario.sqrt Scenario.tube_ds)
           (Tube.tube_vertices Scenario.sqrt Scenario.tube_ds)
           [Tube.target_com Scenario.tube_ds]).
  - reflexivity.
  - reflexivity.
Defined.

(** C2, as stated, fails on the apex of every dual cone: with gravity
    (0, 0, -9.81) the first vertex of the double-support cone of
    [Scenario.tube_ds] has vertical component -9.81, which is neither 0 nor
    9.81; no vertex at height 0 is ever appended. *)
Lemma dual_cone_apex_is_gravity_not_zero :
  ~ (forall (gravity : vec3)
            (pendular_accel_cone : Stance -> list vec3 -> list vec3)
            (reduced_pendular_accel_cone : Stance -> list vec3 -> list vec2)
            (intersect_polygons : list vec2 -> list vec2 -> list vec2)
            (tb s' : Tube.t),
        (0 < - vz gravity)%Q ->
        List.length (Tube.primal_vrep tb) = 2%nat ->
        Tube.compute_dual_vrep gravity pendular_accel_cone
          reduced_pendular_accel_cone intersect_polygons tb
        = (Py.Ok tt, s') ->
        forall (cone : list vec3) (v : vec3),
          In cone (Tube.dual_vrep s') -> In v cone ->
          (vz v == 0 \/ vz v == - vz gravity)%Q).
Proof.
  intros H.
  destruct (H Scenario.gravity Scenario.full_cone Scenario.reduced_cone
              Scenario.intersect_rects
              (Tube.compute_primal_vrep Scenario.sqrt Scenario.tube_ds)
              _ eq_refl eq_refl eq_refl
              (Tube.expand_reduced_pendular_cone Scenario.gravity
                 (Scenario.rect (1 # 2) (1 # 4)) None)
              Scenario.gravity)
    as [Hz|Hg].
  - left. reflexivity.
  - left. reflexivity.
  - vm_compute in Hz. discriminate Hz.
  - vm_compute in Hg. discriminate Hg.
Qed.

Lemma single_phase_when_target_is_stance_reference_witness :
  Tube.primal_vrep
    (Tube.compute_primal_vrep Scenario.sqrt Scenario.tube_ss_early)
  = [Tube.tube_vertices Scenario.sqrt Scenario.tube_ss_early]
  /\ Tube.full_vrep
       (Tube.compute_primal_vrep Scenario.sqrt Scenario.tube_ss_early)
     = Some (Tube.tube_vertices Scenario.sqrt Scenario.tube_ss_early)
  /\ List.length (Tube.tube_vertices Scenario.sqrt Scenario.tube_ss_early)
     = 8%nat.
Proof.
  apply (single_phase_when_target_is_stance_reference
           Scenario.sqrt Scenario.tube_ss_early).
  - reflexivity.
  - reflexivity.
  - reflexivity.
  - reflexivity.
Defined.

(** C3, as stated, fails late in a single-support phase: the tube of
    [Scenario.tube_ss_late] starts half a millimetre from its target, yet the
    current stance's reference is 0.3 m away from it, and the tube gets two
    sub-phases, the first one the singleton [start_com]. *)
Lemma start_near_target_still_two_phases :
  ~ (forall (sqrt : Q -> Q) (tb : Tube.t),
        Py.startswith (label (Tube.start_stance tb)) "SS" = true ->
        (Qabs (vx (Tube.start_com tb) - vx (Tube.target_com tb)) < 1 # 1000)%Q ->
        (Qabs (vy (Tube.start_com tb) - vy (Tube.target_com tb)) < 1 # 1000)%Q ->
        (Qabs (vz (Tube.start_com tb) - vz (Tube.target_com tb)) < 1 # 1000)%Q ->
        Tube.primal_vrep (Tube.compute_primal_vrep sqrt tb)
        = [Tube.tube_vertices sqrt tb]).
Proof.
  intros H.
  specialize (H Scenario.sqrt Scenario.tube_ss_late
                eq_refl eq_refl eq_refl eq_refl).
  apply (f_equal (@List.length (list vec3))) in H.
  discriminate H.
Qed.

End TubeScenario.

(** ** The preview buffer *)

Section BufferFacts.

Lemma buffer_init_wf (d : Z) (b : PreviewBuffer.t) :
  PreviewBuffer.init d = Py.Ok b ->
  PreviewBuffer.wf b /\ PreviewBuffer.u_dim b = d.
Proof.
  unfold PreviewBuffer.init, PreviewBuffer.zeros.
  destruct (Z.ltb_spec d 0) as [|Hd]; [discriminate|].
  intros E. injection E as <-. unfold PreviewBuffer.wf. cbn. auto.
Qed.

Lemma get_next_control_empty (b : PreviewBuffer.t) :
  PreviewBuffer._U b = None ->
  PreviewBuffer.get_next_control b
  = (Py.Ok (PreviewBuffer._default_control b), b).
Proof.
  intros H. unfold PreviewBuffer.get_next_control, Py.bind, Py.get.
  rewrite H. reflexivity.
Qed.

Lemma next_controls_empty (n : nat) (b : PreviewBuffer.t) :
  PreviewBuffer._U b = None ->
  PreviewBuffer.next_controls n b
  = (repeat (Py.Ok (PreviewBuffer._default_control b)) n, b).
Proof.
  intros H. induction n as [|n IH]; cbn [PreviewBuffer.next_controls repeat].
  - reflexivity.
  - rewrite (get_next_control_empty b H), IH. reflexivity.
Qed.

Lemma slice_chunk (U : list Q) (d i k : nat) :
  List.length U = (k * d)%nat -> (i < k)%nat ->
  Py.slice U (Z.of_nat d * Z.of_nat i) (Z.of_nat d * Z.of_nat i + Z.of_nat d)
  = firstn d (skipn (i * d) U).
Proof.
  intros Hlen Hi. unfold Py.slice, Py.clip. rewrite Hlen.
  assert (Hb : (i * d + d <= k * d)%nat) by nia.
  destruct (Z.ltb_spec (Z.of_nat d * Z.of_nat i) 0) as [Hneg|_]; [lia|].
  destruct (Z.ltb_spec (Z.of_nat d * Z.of_nat i + Z.of_nat d) 0)
    as [Hneg|_]; [lia|].
  replace (Z.to_nat (Z.max 0 (Z.min (Z.of_nat (k * d))
                                 (Z.of_nat d * Z.of_nat i))))
    with (i * d)%nat by lia.
  replace (Z.to_nat _) with d by lia.
  reflexivity.
Qed.

Lemma slice_past_end (U : list Q) (d i : Z) :
  (0 <= d)%Z -> (Z.of_nat (List.length U) <= d * i)%Z ->
  Py.slice U (d * i) (d * i + d) = [].
Proof.
  intros Hd Hi. unfold Py.slice, Py.clip.
  destruct (Z.ltb_spec (d * i) 0) as [Hneg|_]; [lia|].
  destruct (Z.ltb_spec (d * i + d) 0) as [Hneg|_]; [lia|].
  replace (Z.to_nat (_ - _)) with 0%nat by lia.
  reflexivity.
Qed.

Lemma get_next_control_stored (b : PreviewBuffer.t) (U dT : list Q) (i : nat) :
  PreviewBuffer._U b = Some U ->
  PreviewBuffer._dT b = Some dT ->
  PreviewBuffer.cur_index b = Z.of_nat i ->
  (0 < PreviewBuffer.u_dim b)%Z ->
  List.length U
  = (List.length dT * Z.to_nat (PreviewBuffer.u_dim b))%nat ->
  (i < List.length dT)%nat ->
  PreviewBuffer.get_next_control b
  = (Py.Ok (PreviewBuffer.stored (Z.to_nat (PreviewBuffer.u_dim b)) U dT i),
     PreviewBuffer.set_cur_index (Z.of_nat i + 1) b).
Proof.
  intros HU HdT Hidx Hd Hlen Hi.
  unfold PreviewBuffer.get_next_control, Py.bind, Py.get, Py.lift, Py.ret,
    Py.modify.
  rewrite HU, HdT, Hidx.
  set (d := Z.to_nat (PreviewBuffer.u_dim b)) in *.
  replace (PreviewBuffer.u_dim b) with (Z.of_nat d) by lia.
  rewrite (slice_chunk U d i (List.length dT) Hlen Hi).
  assert (Hchunk : List.length (firstn d (skipn (i * d) U)) = d).
  { rewrite length_firstn, length_skipn, Hlen. nia. }
  destruct (Nat.eqb_spec (List.length (firstn d (skipn (i * d) U))) 0)
    as [Hz|_]; [lia|].
  destruct (index_in_range dT (Z.of_nat i)) as (x & Hx & Hnth); [lia|].
  rewrite Hx. rewrite Nat2Z.id in Hnth.
  unfold PreviewBuffer.stored.
  rewrite (nth_error_nth dT i 0%Q Hnth). reflexivity.
Qed.

Lemma get_next_control_exhausted (b : PreviewBuffer.t) (U : list Q) :
  PreviewBuffer._U b = Some U ->
  (0 <= PreviewBuffer.u_dim b)%Z ->
  (Z.of_nat (List.length U)
   <= PreviewBuffer.u_dim b * PreviewBuffer.cur_index b)%Z ->
  PreviewBuffer.get_next_control b
  = (Py.Ok (PreviewBuffer._default_control b), b).
Proof.
  intros HU Hd Hi.
  unfold PreviewBuffer.get_next_control, Py.bind, Py.get, Py.ret.
  rewrite HU, (slice_past_end U _ _ Hd Hi). reflexivity.
Qed.

Lemma next_controls_exhausted (n : nat) (b : PreviewBuffer.t) (U : list Q) :
  PreviewBuffer._U b = Some U ->
  (0 <= PreviewBuffer.u_dim b)%Z ->
  (Z.of_nat (List.length U)
   <= PreviewBuffer.u_dim b * PreviewBuffer.cur_index b)%Z ->
  PreviewBuffer.next_controls n b
  = (repeat (Py.Ok (PreviewBuffer._default_control b)) n, b).
Proof.
  intros HU Hd Hi.
  induction n as [|n IH]; cbn [PreviewBuffer.next_controls repeat].
  - reflexivity.
  - rewrite (get_next_control_exhausted b U HU Hd Hi), IH. reflexivity.
Qed.

Lemma defaults_past_end (k : nat) (f : nat -> list Q * Q) (g : list Q * Q)
    (n : nat) :
  forall i : nat,
    (k <= i)%nat ->
    map (fun j => Py.Ok (if (j <? k)%nat then f j else g)) (seq i n)
    = repeat (Py.Ok g) n.
Proof.
  induction n as [|n IH]; intros i Hi; cbn [seq map repeat].
  - reflexivity.
  - destruct (Nat.ltb_spec i k); [lia|]. rewrite IH by lia. reflexivity.
Qed.

Lemma next_controls_from (U dT : list Q) (n : nat) :
  forall (b : PreviewBuffer.t) (i : nat),
    PreviewBuffer._U b = Some U ->
    PreviewBuffer._dT b = Some dT ->
    PreviewBuffer.cur_index b = Z.of_nat i ->
    (0 < PreviewBuffer.u_dim b)%Z ->
    List.length U
    = (List.length dT * Z.to_nat (PreviewBuffer.u_dim b))%nat ->
    fst (PreviewBuffer.next_controls n b)
    = map (fun j =>
             Py.Ok (if (j <? List.length dT)%nat
                    then PreviewBuffer.stored
                           (Z.to_nat (PreviewBuffer.u_dim b)) U dT j
                    else PreviewBuffer._default_control b))
        (seq i n).
Proof.
  induction n as [|n IH]; intros b i HU HdT Hidx Hd Hlen; [reflexivity|].
  destruct (Nat.ltb_spec i (List.length dT)) as [Hi|Hi].
  - cbn [PreviewBuffer.next_controls seq map].
    rewrite (get_next_control_stored b U dT i HU HdT Hidx Hd Hlen Hi).
    specialize (IH (PreviewBuffer.set_cur_index (Z.of_nat i + 1) b) (S i)
                  HU HdT).
    destruct (PreviewBuffer.next_controls n
                (PreviewBuffer.set_cur_index (Z.of_nat i + 1) b))
      as [rs b'].
    cbn [fst] in *. rewrite IH; [|cbn; lia|exact Hd|exact Hlen].
    destruct (Nat.ltb_spec i (List.length dT)); [reflexivity|lia].
  - rewrite (next_controls_exhausted (S n) b U HU); [|lia|nia].
    cbn [fst]. symmetry. apply defaults_past_end. exact Hi.
Qed.

(** C6 (amended). For a buffer of control dimension [u_dim >= 1]: after
    [update_preview(U, dT)] with [len(dT) = k] and [len(U) = k * u_dim], the
    first [k] calls of [get_next_control] return the stored pairs
    [(U[i*u_dim:(i+1)*u_dim], dT[i])] in order, and every later call returns
    the default pair (zero vector, 0.1).  For every dimension, after
    [reset()] every call returns the default pair. *)
Theorem preview_buffer_replay (b : PreviewBuffer.t) (U dT : list Q)
    (sw : option Z) (n : nat) :
  PreviewBuffer.wf b ->
  ((0 < PreviewBuffer.u_dim b)%Z ->
   List.length U
   = (List.length dT * Z.to_nat (PreviewBuffer.u_dim b))%nat ->
   fst (PreviewBuffer.next_controls n
          (snd (PreviewBuffer.update_preview U dT sw b)))
   = map (fun i =>
            Py.Ok (if (i <? List.length dT)%nat
                   then PreviewBuffer.stored
                          (Z.to_nat (PreviewBuffer.u_dim b)) U dT i
                   else (repeat 0%Q (Z.to_nat (PreviewBuffer.u_dim b)),
                         1 # 10)))
       (seq 0 n))
  /\ fst (PreviewBuffer.next_controls n (snd (PreviewBuffer.reset b)))
     = repeat (Py.Ok (repeat 0%Q (Z.to_nat (PreviewBuffer.u_dim b)), 1 # 10))
         n.
Proof.
  intros (Hdim & Hdef). split.
  - intros Hd Hlen.
    rewrite (next_controls_from U dT n
               (snd (PreviewBuffer.update_preview U dT sw b)) 0);
      try reflexivity; [|exact Hd|exact Hlen].
    cbn [PreviewBuffer.update_preview Py.modify snd
         PreviewBuffer._default_control PreviewBuffer.u_dim].
    rewrite Hdef. reflexivity.
  - rewrite next_controls_empty by reflexivity.
    cbn [PreviewBuffer.reset Py.modify snd fst
         PreviewBuffer._default_control].
    rewrite Hdef. reflexivity.
Qed.

Lemma preview_buffer_replay_witness :
  fst (PreviewBuffer.next_controls 4
         (snd (PreviewBuffer.update_preview Scenario.preview_U
                 Scenario.preview_dT None Scenario.buffer3)))
  = [Py.Ok ([1; 2; 3], 1 # 20); Py.Ok ([4; 5; 6], 1 # 20);
     Py.Ok ([0; 0; 0], 1 # 10); Py.Ok ([0; 0; 0], 1 # 10)]
  /\ fst (PreviewBuffer.next_controls 2
            (snd (PreviewBuffer.reset
                    (snd (PreviewBuffer.update_preview Scenario.preview_U
                            Scenario.preview_dT None Scenario.buffer3)))))
     = [Py.Ok ([0; 0; 0], 1 # 10); Py.Ok ([0; 0; 0], 1 # 10)].
Proof.
  assert (Hwf : forall b,
             PreviewBuffer.u_dim b = 3%Z ->
             PreviewBuffer._default_control b = ([0; 0; 0], 1 # 10) ->
             PreviewBuffer.wf b).
  { intros b Hd Hdef. unfold PreviewBuffer.wf. rewrite Hd, Hdef.
    split; [lia|reflexivity]. }
  split.
  - apply (proj1 (preview_buffer_replay Scenario.buffer3 Scenario.preview_U
                    Scenario.preview_dT None 4
                    (Hwf Scenario.buffer3 eq_refl eq_refl))).
    + reflexivity.
    + reflexivity.
  - apply (proj2 (preview_buffer_replay
                    (snd (PreviewBuffer.update_preview Scenario.preview_U
                            Scenario.preview_dT None Scenario.buffer3))
                    [] [] None 2
                    (Hwf (snd (PreviewBuffer.update_preview Scenario.preview_U
                                 Scenario.preview_dT None Scenario.buffer3))
                       eq_refl eq_refl))).
Defined.

(** C6, as stated, fails for the control dimension zero: after
    [update_preview([], [0.5])] the slice at the cursor is empty, and the
    first call already returns the default duration 0.1 instead of the stored
    0.5. *)
Lemma zero_dimension_buffer_never_replays :
  ~ (forall (b : PreviewBuffer.t) (U dT : list Q) (i : nat),
        PreviewBuffer.wf b ->
        List.length U
        = (List.length dT * Z.to_nat (PreviewBuffer.u_dim b))%nat ->
        (i < List.length dT)%nat ->
        nth_error
          (fst (PreviewBuffer.next_controls (List.length dT)
                  (snd (PreviewBuffer.update_preview U dT None b))))
          i
        = Some (Py.Ok (PreviewBuffer.stored
                         (Z.to_nat (PreviewBuffer.u_dim b)) U dT i))).
Proof.
  intros H.
  assert (Hwf : PreviewBuffer.wf Scenario.buffer0)
    by (split; [cbn; lia|reflexivity]).
  specialize (H Scenario.buffer0 [] [1 # 2] 0%nat Hwf eq_refl
                (Nat.lt_0_succ 0)).
  cbv in H. discriminate H.
Qed.

End BufferFacts.

(** ** The predictive controller *)

Section ControllerFacts.

Variable solve : MPC.LinearPredictiveControl -> Py.result (list Q).

(** C5. When the solver raises [ValueError] on the problem that
    [compute_preview_control] has built, the call returns normally, prints
    the failure message, and the preview buffer is the very object state it
    was before the call: [_U], [_dT], [cur_index], [nb_steps] and
    [switch_step] are all retained. *)
Theorem qp_failure_keeps_buffer (s : MPC.t) (switch_time horizon : Q)
    (state_constraints : bool) (pc : MPC.LinearPredictiveControl) :
  MPC.build_problem s switch_time horizon state_constraints = Py.Ok pc ->
  solve pc = Py.Raise Py.ValueError ->
  exists s',
    MPC.compute_preview_control solve switch_time horizon state_constraints s
    = (Py.Ok tt, s')
    /\ MPC.preview_buffer s' = MPC.preview_buffer s
    /\ MPC.log s' = MPC.log s ++ [MPC.qp_failure_msg]
    /\ MPC.preview_control s' = Some pc.
Proof.
  intros Hpc Hsolve.
  unfold MPC.compute_preview_control, Py.bind, Py.get, Py.lift, Py.modify,
    Py.try_except.
  rewrite Hpc, Hsolve. cbn [Py.exn_eqb].
  eexists. split; [reflexivity|]. cbn. repeat split.
Qed.

(** Whatever the solver does short of returning controls, the buffer is
    left alone. *)
Lemma buffer_written_only_on_success (s : MPC.t) (switch_time horizon : Q)
    (state_constraints : bool) :
  (forall pc U,
      MPC.build_problem s switch_time horizon state_constraints = Py.Ok pc ->
      solve pc <> Py.Ok U) ->
  MPC.preview_buffer
    (snd (MPC.compute_preview_control solve switch_time horizon
            state_constraints s))
  = MPC.preview_buffer s.
Proof.
  intros Hfail.
  unfold MPC.compute_preview_control, Py.bind, Py.get, Py.lift, Py.modify,
    Py.try_except.
  destruct (MPC.build_problem s switch_time horizon state_constraints)
    as [pc|x] eqn:Hpc; [|reflexivity].
  destruct (solve pc) as [U|x] eqn:HU.
  - exfalso. exact (Hfail pc U eq_refl HU).
  - destruct (Py.exn_eqb Py.ValueError x); reflexivity.
Qed.

End ControllerFacts.

Lemma qp_failure_keeps_buffer_witness :
  exists s',
    MPC.compute_preview_control Scenario.infeasible (1 # 5) (7 # 10) false
      Scenario.controller
    = (Py.Ok tt, s')
    /\ MPC.preview_buffer s' = Scenario.used_buffer
    /\ MPC.log s' = [MPC.qp_failure_msg].
Proof.
  destruct (MPC.build_problem Scenario.controller (1 # 5) (7 # 10) false)
    as [pc|x] eqn:Hpc; [|vm_compute in Hpc; discriminate Hpc].
  destruct (qp_failure_keeps_buffer Scenario.infeasible Scenario.controller
              (1 # 5) (7 # 10) false pc Hpc eq_refl)
    as (s' & Hrun & Hbuf & Hlog & _).
  exists s'. split; [exact Hrun|]. split; [exact Hbuf|exact Hlog].
Defined.

(** ** The switch step and the per-step constraints *)

Section SwitchStepFacts.

Lemma int_of_nonneg (q : Q) : (0 <= q)%Q -> Py.int q = Qfloor q.
Proof.
  destruct q as [n d]. unfold Qle, Py.int, Qfloor. cbn. intros Hn.
  apply Z.quot_div_nonneg; lia.
Qed.

Lemma fdiv_nonzero (x y : Q) : ~ (y == 0)%Q -> Py.fdiv x y = Py.Ok (x / y)%Q.
Proof.
  intros Hy. unfold Py.fdiv.
  destruct (Qeq_bool y 0) eqn:E; [|reflexivity].
  apply Qeq_bool_iff in E. contradiction.
Qed.

(** With a positive number of steps and the switch inside the horizon, both
    divisions succeed and the switch step is one of the [N] steps. *)
Lemma switch_step_within_horizon (switch_time horizon : Q) (N : Z) :
  (0 < N)%Z -> (0 <= switch_time)%Q -> (switch_time < horizon)%Q ->
  exists dT switch_step,
    MPC.compute_timestep horizon N = Py.Ok dT
    /\ MPC.compute_switch_step switch_time dT = Py.Ok switch_step
    /\ (0 <= switch_step < N)%Z.
Proof.
  intros HN Hst Hlt.
  assert (HNq : (0 < inject_Z N)%Q) by (unfold Qlt; cbn; lia).
  assert (Hh : (0 < horizon)%Q) by (eapply Qle_lt_trans; eassumption).
  assert (HdT : (0 < horizon / inject_Z N)%Q).
  { apply Qlt_shift_div_l; [exact HNq|]. rewrite Qmult_0_l. exact Hh. }
  exists (horizon / inject_Z N)%Q, (Py.int (switch_time / (horizon / inject_Z N))).
  unfold MPC.compute_timestep, MPC.compute_switch_step.
  rewrite fdiv_nonzero by (intro E; rewrite E in HNq; discriminate HNq).
  rewrite fdiv_nonzero by (intro E; rewrite E in HdT; discriminate HdT).
  cbn [Py.rbind]. repeat split.
  - assert (Hq : (0 <= switch_time / (horizon / inject_Z N))%Q).
    { apply Qle_shift_div_l; [exact HdT|]. rewrite Qmult_0_l. exact Hst. }
    rewrite (int_of_nonneg _ Hq).
    change 0%Z with (Qfloor 0). apply Qfloor_resp_le. exact Hq.
  - assert (Hq : (0 <= switch_time / (horizon / inject_Z N))%Q).
    { apply Qle_shift_div_l; [exact HdT|]. rewrite Qmult_0_l. exact Hst. }
    rewrite (int_of_nonneg _ Hq). rewrite Zlt_Qlt.
    eapply Qle_lt_trans; [apply Qfloor_le|].
    apply Qlt_shift_div_r; [exact HdT|].
    assert (E : (inject_Z N * (horizon / inject_Z N) == horizon)%Q).
    { apply Qmult_div_r. intro E. rewrite E in HNq. discriminate HNq. }
    rewrite E. exact Hlt.
Qed.

(** With the second pair bound, step [k] gets the first pair up to the
    switch step and the second one after it. *)
Lemma assign_constraints_bound (De1 De2 : Tube.hrep) (switch_step : Z)
    (ks : list Z) :
  MPC.assign_constraints De1 (Some De2) switch_step ks
  = Py.Ok (map (fun k => if (k <=? switch_step)%Z then De1 else De2) ks).
Proof.
  induction ks as [|k ks IH]; cbn [MPC.assign_constraints map].
  - reflexivity.
  - rewrite IH. destruct (k <=? switch_step)%Z; reflexivity.
Qed.

(** When no step lies after the switch step, the second pair is never
    read, bound or not. *)
Lemma assign_constraints_single (De1 : Tube.hrep) (De2 : option Tube.hrep)
    (switch_step : Z) (ks : list Z) :
  (forall k, In k ks -> (k <= switch_step)%Z) ->
  MPC.assign_constraints De1 De2 switch_step ks
  = Py.Ok (map (fun _ => De1) ks).
Proof.
  induction ks as [|k ks IH]; intros Hks; cbn [MPC.assign_constraints map].
  - reflexivity.
  - rewrite IH by (intros j Hj; apply Hks; right; exact Hj).
    destruct (Z.leb_spec k switch_step) as [_|Hgt]; [reflexivity|].
    specialize (Hks k (or_introl eq_refl)). lia.
Qed.

Lemma range_bounds (N k : Z) : In k (MPC.range N) -> (0 <= k < N)%Z.
Proof.
  unfold MPC.range. intros Hin. apply in_map_iff in Hin.
  destruct Hin as (j & <- & Hj). apply in_seq in Hj. lia.
Qed.

Lemma range_positive (N : Z) :
  (0 < N)%Z -> exists rest, MPC.range N = 0%Z :: rest.
Proof.
  intros HN. unfold MPC.range.
  destruct (Z.to_nat N) as [|n] eqn:E; [lia|].
  eexists. reflexivity.
Qed.

(** A switch step at or beyond the last step: all [N] steps get the first
    pair and the problem is built without reading a second one. *)
Lemma build_problem_switch_beyond_last (s : MPC.t) (switch_time horizon dT : Q)
    (switch_step : Z) (De1 : Tube.hrep) :
  MPC.compute_timestep horizon (MPC.nb_mpc_steps s) = Py.Ok dT ->
  MPC.compute_switch_step switch_time dT = Py.Ok switch_step ->
  (MPC.nb_mpc_steps s - 1 <= switch_step)%Z ->
  MPC.dual_hrep_at s 0 = Py.Ok De1 ->
  exists pc,
    MPC.build_problem s switch_time horizon false = Py.Ok pc
    /\ MPC.D pc = map (fun _ => fst De1) (MPC.range (MPC.nb_mpc_steps s))
    /\ MPC.e pc = map (fun _ => snd De1) (MPC.range (MPC.nb_mpc_steps s)).
Proof.
  intros HdT Hss Hlast H1. unfold MPC.build_problem.
  rewrite HdT. cbn [Py.rbind]. rewrite Hss. cbn [Py.rbind].
  rewrite H1. cbn [Py.rbind].
  destruct (Z.ltb_spec switch_step (MPC.nb_mpc_steps s - 1)) as [Hlt|_];
    [lia|].
  rewrite andb_false_r. cbn [Py.rbind].
  rewrite assign_constraints_single
    by (intros k Hk; apply range_bounds in Hk; lia).
  cbn [Py.rbind]. eexists. split; [reflexivity|].
  cbn [MPC.D MPC.e]. rewrite !map_map. split; reflexivity.
Qed.

(** A negative switch step: the guard leaves the second pair unbound and
    the first iteration of the loop reads it. *)
Lemma build_problem_switch_negative (s : MPC.t) (switch_time horizon dT : Q)
    (switch_step : Z) (De1 : Tube.hrep) (state_constraints : bool) :
  MPC.compute_timestep horizon (MPC.nb_mpc_steps s) = Py.Ok dT ->
  MPC.compute_switch_step switch_time dT = Py.Ok switch_step ->
  (switch_step < 0)%Z ->
  (0 < MPC.nb_mpc_steps s)%Z ->
  MPC.dual_hrep_at s 0 = Py.Ok De1 ->
  MPC.build_problem s switch_time horizon state_constraints
  = Py.Raise Py.UnboundLocalError.
Proof.
  intros HdT Hss Hneg HN H1. unfold MPC.build_problem.
  rewrite HdT. cbn [Py.rbind]. rewrite Hss. cbn [Py.rbind].
  rewrite H1. cbn [Py.rbind].
  destruct (Z.leb_spec 0 switch_step) as [Hge|_]; [lia|].
  cbn [andb Py.rbind].
  destruct (range_positive _ HN) as (rest & ->).
  cbn [MPC.assign_constraints].
  destruct (Z.leb_spec 0 switch_step) as [Hge|_]; [lia|]. reflexivity.
Qed.

End SwitchStepFacts.

(** The overshoot is reached by the FSM itself: 25 ticks of 29 ms use up
    the 0.7 s of the first double-support phase of [Scenario.walk] and leave
    [rem_time = -0.025]; the preview targets then are the switch time
    [-0.025] and the horizon [0.475]. *)
Example overshoot_is_reached :
  exists s,
    FSM.init Scenario.walk true
    = Py.Ok (Scenario.fsm_at Scenario.walk true 0 Scenario.dsl (7 # 10) false)
    /\ FSM.run (repeat (29 # 1000, Scenario.com_behind) 25)
         (Scenario.fsm_at Scenario.walk true 0 Scenario.dsl (7 # 10) false)
       = (Py.Ok tt, s)
    /\ (FSM.rem_time s == - (1 # 40))%Q
    /\ exists horizon target_com target_comd,
         FSM.get_preview_targets s
         = Py.Ok (FSM.rem_time s, horizon, target_com, target_comd)
         /\ (horizon == 19 # 40)%Q.
Proof.
  eexists. split; [reflexivity|]. split; [vm_compute; reflexivity|].
  split; [vm_compute; reflexivity|].
  eexists. eexists. eexists. split; [vm_compute; reflexivity|].
  vm_compute. reflexivity.
Qed.

(** C9, at the failing input.  In double support with [rem_time = -0.025]
    (the last decrement of the phase timer overshoots zero and the guard
    holds the FSM there) the preview horizon is [-0.025 + 0.5 * 1.0 = 0.475];
    with 20 steps [dT = 0.02375] and [int(-0.025 / 0.02375) = -1].  The guard
    [0 <= switch_step < N - 1] then leaves the second pair unbound, the loop
    reads it at [k = 0], and the call ends in [UnboundLocalError] with the
    controller untouched, instead of using the first pair for all steps. *)
Theorem negative_switch_step_reads_unbound_pair
    (solve : MPC.LinearPredictiveControl -> Py.result (list Q)) :
  MPC.compute_timestep (19 # 40) 20 = Py.Ok (19 # 800)
  /\ MPC.compute_switch_step (- (1 # 40)) (19 # 800) = Py.Ok (- 1)%Z
  /\ MPC.compute_preview_control solve (- (1 # 40)) (19 # 40) false
       Scenario.controller
     = (Py.Raise Py.UnboundLocalError, Scenario.controller).
Proof.
  split; [reflexivity|]. split; [reflexivity|].
  unfold MPC.compute_preview_control, Py.bind, Py.get, Py.lift.
  rewrite (build_problem_switch_negative Scenario.controller
             (- (1 # 40)) (19 # 40) (19 # 800) (- 1) Scenario.hrep_ds false);
    reflexivity.
Qed.

(** * Further properties of the walking code *)

(** ** The FSM along a run *)

Section FSMRuns.

Import Vec Model.

(** X1. The object invariant of the FSM (the stance index is a valid index
    of the sequence, [cur_stance] is the stance at that index, [nb_stances]
    is the length of the sequence) holds after [__init__] and after any
    number of ticks, whatever the tick durations and the measured centres of
    mass are, and even when a tick raises. *)
Theorem invariant_along_run (ticks : list (Q * vec3)) (s : FSM.t) :
  FSM.wf s -> FSM.wf (snd (FSM.run ticks s)).
Proof.
  revert s. induction ticks as [|[dt com] rest IH]; intros s Hwf.
  - exact Hwf.
  - cbn [FSM.run]. unfold Py.bind.
    pose proof (on_tick_wf dt com s Hwf) as Hstep.
    destruct (FSM.on_tick dt com s) as [[[]|x] s1]; cbn [snd] in *.
    + apply IH. exact Hstep.
    + exact Hstep.
Qed.

Lemma invariant_along_run_witness :
  FSM.wf
    (snd (FSM.run (repeat (3 # 100, Scenario.com_inside) 40)
            (Scenario.fsm_at Scenario.walk true 0 Scenario.dsl (7 # 10) false))).
Proof.
  apply invariant_along_run. repeat split; cbn; lia.
Defined.









Lemma ss_is_no_ds_label (l : string) :
  Py.startswith l "SS" = true ->
  String.eqb l "DS-R" = false /\ String.eqb l "DS-L" = false.
Proof.
  intros H. split.
  - destruct (String.eqb_spec l "DS-R") as [->|]; [discriminate H|reflexivity].
  - destruct (String.eqb_spec l "DS-L") as [->|]; [discriminate H|reflexivity].
Qed.

(** The state reached by the last four statements of [on_tick]'s final
    branch, from a state whose log already holds the swing reset. *)
Lemma advance_after_handover (s : FSM.t) (l : list FSM.event) :
  FSM.wf s ->
  exists st,
    Py.index (FSM.stances s)
      ((FSM.cur_stance_id s + 1) mod FSM.nb_stances s) = Py.Ok st
    /\ forall handover : Py.M FSM.t unit,
         handover s = (Py.Ok tt, FSM.with_log (FSM.log s ++ l) s) ->
         Py.bind handover (fun _ =>
           Py.bind Py.get (fun s0 =>
           Py.bind (Py.lift (FSM.imod (FSM.cur_stance_id s0 + 1)
                               (FSM.nb_stances s0))) (fun i =>
           Py.bind (Py.modify (FSM.set_cur_stance_id i)) (fun _ =>
           Py.bind Py.get (fun s1 =>
           Py.bind (Py.lift (Py.index (FSM.stances s1)
                               (FSM.cur_stance_id s1))) (fun st =>
           Py.bind (Py.modify (FSM.set_cur_stance st)) (fun _ =>
           Py.bind Py.get (fun s2 =>
           Py.bind (Py.modify
                      (FSM.set_rem_time (duration (FSM.cur_stance s2))))
             (fun _ =>
           Py.bind Py.get (fun s3 =>
             FSM.emit
               (FSM.UpdateRobotIK
                  (match left_foot (FSM.cur_stance s3) with
                   | Some _ => true
                   | None => false
                   end)
                  (match right_foot (FSM.cur_stance s3) with
                   | Some _ => true
                   | None => false
                   end)))))))))))) s
         = (Py.Ok tt,
            FSM.mk (FSM.cur_phase s) st
              ((FSM.cur_stance_id s + 1) mod FSM.nb_stances s)
              (FSM.cycle s) (FSM.is_over s) (FSM.nb_stances s) (duration st)
              (FSM.stances s)
              (FSM.log s ++ l
               ++ [FSM.UpdateRobotIK
                     (match left_foot st with Some _ => true | None => false end)
                     (match right_foot st with Some _ => true | None => false end)])).
Proof.
  intros (Hn & Hid & Hcur).
  destruct (@index_in_range Stance (FSM.stances s)
              ((FSM.cur_stance_id s + 1) mod FSM.nb_stances s))
    as (st & Hst & _).
  { rewrite <- Hn. apply Z.mod_pos_bound. lia. }
  exists st. split; [exact Hst|].
  intros handover Hh.
  unfold Py.bind at 1. rewrite Hh.
  unfold Py.bind, Py.get, Py.lift, Py.modify, FSM.imod, FSM.emit. cbn.
  destruct (Z.eqb_spec (FSM.nb_stances s) 0) as [Hz|_]; [lia|].
  rewrite Hst. cbn. rewrite app_assoc. reflexivity.
Qed.

(** X3. When the time of a single-support phase has run out and the FSM is
    neither over nor at the last stance of a non-cyclic sequence, the tick
    moves to the next stance: the index becomes [(index + 1) mod N], the
    current stance is the stance at that index, the timer is reset to the
    duration of the new stance, and the IK foot tasks are updated; the swing
    foot is not reset on this kind of switch. *)
Theorem single_support_switch (s : FSM.t) (dt : Q) (com : vec3) :
  FSM.wf s ->
  FSM.is_over s = false ->
  (FSM.rem_time s <= 0)%Q ->
  Py.startswith (label (FSM.cur_stance s)) "SS" = true ->
  (FSM.cycle s = true \/ FSM.cur_stance_id s <> (FSM.nb_stances s - 1)%Z) ->
  exists st,
    Py.index (FSM.stances s)
      ((FSM.cur_stance_id s + 1) mod FSM.nb_stances s) = Py.Ok st
    /\ FSM.on_tick dt com s
       = (Py.Ok tt,
          FSM.mk (FSM.cur_phase s) st
            ((FSM.cur_stance_id s + 1) mod FSM.nb_stances s)
            (FSM.cycle s) false (FSM.nb_stances s) (duration st)
            (FSM.stances s)
            (FSM.log s
             ++ [FSM.UpdateRobotIK
                   (match left_foot st with Some _ => true | None => false end)
                   (match right_foot st with Some _ => true | None => false end)])).
Proof.
  intros Hwf Hover Hrem Hss Hnot. apply Qltb_false in Hrem.
  destruct (advance_after_handover s [] Hwf) as (st & Hst & Hadv).
  exists st. split; [exact Hst|].
  destruct (ss_is_no_ds_label _ Hss) as (HnR & HnL).
  unfold FSM.on_tick. unfold Py.bind at 1. unfold Py.get at 1.
  rewrite Hover, Hrem.
  destruct (Py.startswith (label (FSM.cur_stance s)) "DS") eqn:Hds;
    [rewrite (ds_is_not_ss _ Hds) in Hss; discriminate Hss|].
  unfold Py.bind at 1. unfold Py.ret at 1.
  assert (Hterm : ((FSM.cur_stance_id s =? FSM.nb_stances s - 1)%Z
                   && negb (FSM.cycle s))%bool = false).
  { destruct Hnot as [->|Hne]; [apply andb_false_r|].
    apply andb_false_intro1. apply Z.eqb_neq. exact Hne. }
  rewrite Hterm. unfold FSM.switch_stance.
  rewrite Hadv.
  - rewrite Hover. reflexivity.
  - unfold FSM.labels_are, Py.bind, Py.get, Py.ret.
    rewrite HnR, HnL, app_nil_r, with_log_self. reflexivity.
Qed.

Lemma single_support_switch_witness :
  exists st,
    Py.index Scenario.walk ((3 + 1) mod 4) = Py.Ok st
    /\ FSM.on_tick (3 # 100) Scenario.com_inside
         (Scenario.fsm_at Scenario.walk true 3 Scenario.ssr 0 false)
       = (Py.Ok tt,
          FSM.mk "SS-R" st ((3 + 1) mod 4) true false 4 (duration st)
            Scenario.walk
            ([]
             ++ [FSM.UpdateRobotIK
                   (match left_foot st with Some _ => true | None => false end)
                   (match right_foot st with Some _ => true | None => false end)])).
Proof.
  apply (single_support_switch
           (Scenario.fsm_at Scenario.walk true 3 Scenario.ssr 0 false)
           (3 # 100) Scenario.com_inside).
  - repeat split; cbn; lia.
  - reflexivity.
  - cbn. lra.
  - reflexivity.
  - left. reflexivity.
Defined.

Lemma ds_label_starts_with_ds (l : string) :
  l = "DS-R"%string \/ l = "DS-L"%string -> Py.startswith l "DS" = true.
Proof. intros [->| ->]; reflexivity. Qed.

Lemma double_support_switch_with (s : FSM.t) (dt : Q) (com : vec3)
    (ns : Stance) (l : list FSM.event) :
  FSM.wf s ->
  FSM.is_over s = false ->
  (FSM.rem_time s <= 0)%Q ->
  Py.startswith (label (FSM.cur_stance s)) "DS" = true ->
  FSM.next_stance s = Py.Ok ns ->
  (- (15 # 100) < dist_to_sep_edge ns com)%Q ->
  (FSM.cycle s = true \/ FSM.cur_stance_id s <> (FSM.nb_stances s - 1)%Z) ->
  Py.bind (FSM.labels_are "DS-R" "DS-L") (fun r_to_l : bool =>
    if r_to_l then FSM.swing_reset left_foot
    else Py.bind (FSM.labels_are "DS-L" "DS-R") (fun l_to_r : bool =>
           if l_to_r then FSM.swing_reset right_foot else Py.ret tt)) s
  = (Py.Ok tt, FSM.with_log (FSM.log s ++ l) s) ->
  exists st,
    Py.index (FSM.stances s)
      ((FSM.cur_stance_id s + 1) mod FSM.nb_stances s) = Py.Ok st
    /\ FSM.on_tick dt com s
       = (Py.Ok tt,
          FSM.mk (FSM.cur_phase s) st
            ((FSM.cur_stance_id s + 1) mod FSM.nb_stances s)
            (FSM.cycle s) false (FSM.nb_stances s) (duration st)
            (FSM.stances s)
            (FSM.log s ++ l
             ++ [FSM.UpdateRobotIK
                   (match left_foot st with Some _ => true | None => false end)
                   (match right_foot st with Some _ => true | None => false end)])).
Proof.
  intros Hwf Hover Hrem Hds Hns Hguard Hnot Hh.
  apply Qltb_false in Hrem. apply Qltb_true in Hguard.
  destruct (advance_after_handover s l Hwf) as (st & Hst & Hadv).
  exists st. split; [exact Hst|].
  unfold FSM.on_tick. unfold Py.bind at 1. unfold Py.get at 1.
  rewrite Hover, Hrem, Hds.
  unfold Py.bind at 1. unfold Py.bind at 1. unfold Py.lift at 1.
  unfold FSM.can_switch_to_ss. rewrite Hns. cbn [Py.rbind].
  rewrite Hguard. unfold Py.ret at 1. cbn [negb].
  assert (Hterm : ((FSM.cur_stance_id s =? FSM.nb_stances s - 1)%Z
                   && negb (FSM.cycle s))%bool = false).
  { destruct Hnot as [->|Hne]; [apply andb_false_r|].
    apply andb_false_intro1. apply Z.eqb_neq. exact Hne. }
  rewrite Hterm. unfold FSM.switch_stance.
  rewrite (Hadv _ Hh). rewrite Hover. reflexivity.
Qed.

(** X4. When the time of a double-support phase has run out, the guard
    passes and the FSM is neither over nor at the last stance of a
    non-cyclic sequence, the tick resets the swing foot before it moves on:
    from [DS-R] with [DS-L] two stances ahead, the swing goes from the
    current left-foot pose to the left-foot pose two stances ahead; from
    [DS-L] with [DS-R] two stances ahead, it is the right foot.  The reset
    reads the poses before [cur_stance] is updated. *)
Theorem double_support_handover (s : FSM.t) (dt : Q) (com : vec3)
    (ns nns : Stance) (a b : Contact) :
  FSM.wf s ->
  FSM.is_over s = false ->
  (FSM.rem_time s <= 0)%Q ->
  FSM.next_stance s = Py.Ok ns ->
  (- (15 # 100) < dist_to_sep_edge ns com)%Q ->
  (FSM.cycle s = true \/ FSM.cur_stance_id s <> (FSM.nb_stances s - 1)%Z) ->
  FSM.next_next_stance s = Py.Ok nns ->
  (label (FSM.cur_stance s) = "DS-R"%string ->
   label nns = "DS-L"%string ->
   left_foot (FSM.cur_stance s) = Some a ->
   left_foot nns = Some b ->
   exists st,
     Py.index (FSM.stances s)
       ((FSM.cur_stance_id s + 1) mod FSM.nb_stances s) = Py.Ok st
     /\ FSM.on_tick dt com s
        = (Py.Ok tt,
           FSM.mk (FSM.cur_phase s) st
             ((FSM.cur_stance_id s + 1) mod FSM.nb_stances s)
             (FSM.cycle s) false (FSM.nb_stances s) (duration st)
             (FSM.stances s)
             (FSM.log s ++ [FSM.SwingReset (pose a) (pose b)]
              ++ [FSM.UpdateRobotIK
                    (match left_foot st with Some _ => true | None => false end)
                    (match right_foot st with Some _ => true | None => false end)])))
  /\ (label (FSM.cur_stance s) = "DS-L"%string ->
      label nns = "DS-R"%string ->
      right_foot (FSM.cur_stance s) = Some a ->
      right_foot nns = Some b ->
      exists st,
        Py.index (FSM.stances s)
          ((FSM.cur_stance_id s + 1) mod FSM.nb_stances s) = Py.Ok st
        /\ FSM.on_tick dt com s
           = (Py.Ok tt,
              FSM.mk (FSM.cur_phase s) st
                ((FSM.cur_stance_id s + 1) mod FSM.nb_stances s)
                (FSM.cycle s) false (FSM.nb_stances s) (duration st)
                (FSM.stances s)
                (FSM.log s ++ [FSM.SwingReset (pose a) (pose b)]
                 ++ [FSM.UpdateRobotIK
                       (match left_foot st with Some _ => true | None => false end)
                       (match right_foot st with Some _ => true | None => false end)]))).
Proof.
  intros Hwf Hover Hrem Hns Hguard Hnot Hnns. split.
  - intros Hcur Hlab Ha Hb.
    apply (double_support_switch_with s dt com ns
             [FSM.SwingReset (pose a) (pose b)] Hwf Hover Hrem
             (ds_label_starts_with_ds _ (or_introl Hcur)) Hns Hguard Hnot).
    unfold FSM.labels_are, FSM.swing_reset, Py.bind, Py.get, Py.lift, Py.ret.
    do 4 (cbn; rewrite ?Hcur, ?Hnns, ?Hlab, ?Ha, ?Hb).
    reflexivity.
  - intros Hcur Hlab Ha Hb.
    apply (double_support_switch_with s dt com ns
             [FSM.SwingReset (pose a) (pose b)] Hwf Hover Hrem
             (ds_label_starts_with_ds _ (or_intror Hcur)) Hns Hguard Hnot).
    unfold FSM.labels_are, FSM.swing_reset, Py.bind, Py.get, Py.lift, Py.ret.
    do 4 (cbn; rewrite ?Hcur, ?Hnns, ?Hlab, ?Ha, ?Hb).
    reflexivity.
Qed.

Lemma double_support_handover_witness :
  exists st,
    Py.index Scenario.walk ((2 + 1) mod 4) = Py.Ok st
    /\ FSM.on_tick (3 # 100) (com_p Scenario.dsr)
         (Scenario.fsm_at Scenario.walk true 2 Scenario.dsr 0 false)
       = (Py.Ok tt,
          FSM.mk "DS-R" st ((2 + 1) mod 4) true false 4 (duration st)
            Scenario.walk
            ([]
             ++ [FSM.SwingReset (pose Scenario.left_contact)
                   (pose Scenario.left_contact)]
             ++ [FSM.UpdateRobotIK
                   (match left_foot st with Some _ => true | None => false end)
                   (match right_foot st with Some _ => true | None => false end)])).
Proof.
  assert (Hwf : FSM.wf
                  (Scenario.fsm_at Scenario.walk true 2 Scenario.dsr 0 false))
    by (repeat split; cbn; lia).
  assert (Hrem : (FSM.rem_time
                    (Scenario.fsm_at Scenario.walk true 2 Scenario.dsr 0 false)
                  <= 0)%Q)
    by (cbn; lra).
  assert (Hguard : (- (15 # 100)
                    < dist_to_sep_edge Scenario.ssr (com_p Scenario.dsr))%Q)
    by (vm_compute; reflexivity).
  apply (proj1 (double_support_handover
                  (Scenario.fsm_at Scenario.walk true 2 Scenario.dsr 0 false)
                  (3 # 100) (com_p Scenario.dsr) Scenario.ssr Scenario.dsl
                  Scenario.left_contact Scenario.left_contact
                  Hwf eq_refl Hrem eq_refl Hguard
                  (or_introl eq_refl) eq_refl));
    reflexivity.
Defined.

End FSMRuns.

(** ** The stages of the tube *)

Section TubeStages.

Import Vec Model.

Variable sqrt : Q -> Q.
Variable gravity : vec3.
Variable pendular_accel_cone : Stance -> list vec3 -> list vec3.
Variable reduced_pendular_accel_cone : Stance -> list vec3 -> list vec2.
Variable intersect_polygons : list vec2 -> list vec2 -> list vec2.
Variable compute_polytope_halfspaces : list vec3 -> Py.result Tube.hrep.

Local Abbreviation dual_vrep_stage :=
  (Tube.compute_dual_vrep gravity pendular_accel_cone
     reduced_pendular_accel_cone intersect_polygons).
Local Abbreviation dual_hrep_stage :=
  (Pipeline.compute_dual_hrep compute_polytope_halfspaces).

Lemma primal_vrep_shapes (tb : Tube.t) :
  Tube.full_vrep (Tube.compute_primal_vrep sqrt tb)
  = Some (Tube.tube_vertices sqrt tb)
  /\ (Tube.primal_vrep (Tube.compute_primal_vrep sqrt tb)
      = [Tube.tube_vertices sqrt tb]
      \/ Tube.primal_vrep (Tube.compute_primal_vrep sqrt tb)
         = [[Tube.start_com tb]; Tube.tube_vertices sqrt tb]
      \/ Tube.primal_vrep (Tube.compute_primal_vrep sqrt tb)
         = [Tube.tube_vertices sqrt tb; [Tube.target_com tb]]).
Proof.
  unfold Tube.compute_primal_vrep.
  destruct (Py.startswith (label (Tube.start_stance tb)) "SS");
    [destruct (all_close _ _ _)|]; cbn; auto.
Qed.

Lemma compute_dual_vrep_one_phase (tb : Tube.t) (pv0 : list vec3) :
  Tube.primal_vrep tb = [pv0] ->
  dual_vrep_stage tb
  = (Py.Ok tt,
     Tube.set_dual_vrep [pendular_accel_cone (Tube.start_stance tb) pv0] tb).
Proof.
  intros Hpv. destruct tb; cbn in Hpv; subst. reflexivity.
Qed.

(** X5. Run after [compute_primal_vrep], [compute_dual_vrep] never raises
    and stores exactly one dual cone per primal sub-phase (one or two),
    whatever the tube's end points, stances, radius and margin are; it leaves
    the primal vertices as they were. *)
Theorem dual_cones_match_sub_phases (tb : Tube.t) :
  exists tb',
    dual_vrep_stage (Tube.compute_primal_vrep sqrt tb) = (Py.Ok tt, tb')
    /\ List.length (Tube.dual_vrep tb')
       = List.length (Tube.primal_vrep (Tube.compute_primal_vrep sqrt tb))
    /\ (1 <= List.length (Tube.dual_vrep tb') <= 2)%nat
    /\ Tube.primal_vrep tb'
       = Tube.primal_vrep (Tube.compute_primal_vrep sqrt tb)
    /\ Tube.full_vrep tb' = Some (Tube.tube_vertices sqrt tb).
Proof.
  destruct (primal_vrep_shapes tb) as (Hfull & [Hpv|[Hpv|Hpv]]).
  - rewrite (compute_dual_vrep_one_phase _ _ Hpv).
    eexists. split; [reflexivity|]. rewrite Hpv. cbn.
    repeat split; try lia; assumption.
  - rewrite (compute_dual_vrep_two_phases gravity pendular_accel_cone
               reduced_pendular_accel_cone intersect_polygons _ _ _ _
               Hpv Hfull).
    eexists. split; [reflexivity|]. rewrite Hpv. cbn.
    repeat split; try lia; assumption.
  - rewrite (compute_dual_vrep_two_phases gravity pendular_accel_cone
               reduced_pendular_accel_cone intersect_polygons _ _ _ _
               Hpv Hfull).
    eexists. split; [reflexivity|]. rewrite Hpv.
    destruct (1 <? List.length (Tube.tube_vertices sqrt tb))%nat; cbn;
      repeat split; try lia; assumption.
Qed.

(** X6. For a tube with a single primal sub-phase (single support heading
    for the current stance's own reference), the one dual cone is the full
    three-dimensional pendular cone of the start stance over the full swept
    volume: no reduction to two dimensions, no intersection with the next
    stance and no expansion take place. *)
Theorem single_phase_uses_full_cone (tb : Tube.t) :
  Py.startswith (label (Tube.start_stance tb)) "SS" = true ->
  all_close (com_p (Tube.start_stance tb)) (Tube.target_com tb) (1 # 1000)
  = true ->
  Tube.dual_vrep (snd (dual_vrep_stage (Tube.compute_primal_vrep sqrt tb)))
  = [pendular_accel_cone (Tube.start_stance tb) (Tube.tube_vertices sqrt tb)].
Proof.
  intros Hss Hclose.
  assert (Hpv : Tube.primal_vrep (Tube.compute_primal_vrep sqrt tb)
                = [Tube.tube_vertices sqrt tb]).
  { unfold Tube.compute_primal_vrep. rewrite Hss, Hclose. reflexivity. }
  rewrite (compute_dual_vrep_one_phase _ _ Hpv). cbn.
  unfold Tube.compute_primal_vrep. rewrite Hss, Hclose. reflexivity.
Qed.

Lemma dual_hrep_loop_all (cones : list (list vec3)) :
  forall (hs : list Tube.hrep) (tb : Tube.t),
    Forall2 (fun c h => compute_polytope_halfspaces c = Py.Ok h) cones hs ->
    Pipeline.dual_hrep_loop compute_polytope_halfspaces cones tb
    = (Pipeline.Done,
       Tube.mk (Tube.dual_hrep tb ++ hs) (Tube.dual_vrep tb) (Tube.margin tb)
         (Tube.next_stance tb) (Tube.primal_hrep tb) (Tube.primal_vrep tb)
         (Tube.radius tb) (Tube.start_com tb) (Tube.start_stance tb)
         (Tube.target_com tb) (Tube.full_vrep tb) (Tube.full_hrep tb)).
Proof.
  induction cones as [|c cones IH]; intros hs tb Hall;
    inversion Hall as [|c' h cones' hs' Hc Hrest]; subst;
    cbn [Pipeline.dual_hrep_loop].
  - rewrite app_nil_r. destruct tb. reflexivity.
  - rewrite Hc, (IH hs' _ Hrest). cbn. rewrite <- app_assoc. reflexivity.
Qed.

Lemma dual_hrep_loop_fails (done : list (list vec3)) :
  forall (hs : list Tube.hrep) (c : list vec3) (rest : list (list vec3))
         (x : Py.exn) (tb : Tube.t),
    Forall2 (fun c h => compute_polytope_halfspaces c = Py.Ok h) done hs ->
    compute_polytope_halfspaces c = Py.Raise x ->
    Pipeline.dual_hrep_loop compute_polytope_halfspaces (done ++ c :: rest) tb
    = (Pipeline.Failed (Pipeline.Builtin x),
       Tube.mk (Tube.dual_hrep tb ++ hs) (Tube.dual_vrep tb) (Tube.margin tb)
         (Tube.next_stance tb) (Tube.primal_hrep tb) (Tube.primal_vrep tb)
         (Tube.radius tb) (Tube.start_com tb) (Tube.start_stance tb)
         (Tube.target_com tb) (Tube.full_vrep tb) (Tube.full_hrep tb)).
Proof.
  induction done as [|d done IH]; intros hs c rest x tb Hall Hc;
    inversion Hall as [|d' h done' hs' Hd Hrest]; subst;
    cbn [Pipeline.dual_hrep_loop app].
  - rewrite Hc, app_nil_r. destruct tb. reflexivity.
  - rewrite Hd, (IH hs' c rest x _ Hrest Hc). cbn.
    rewrite <- app_assoc. reflexivity.
Qed.

(** X7. [compute_dual_hrep] appends to [dual_hrep], in order, one halfspace
    pair per dual cone and never removes a pair already there; when the
    halfspace computation fails on a cone, the pairs of the cones before it
    have been appended and stay, and the exception is the one raised. *)
Theorem dual_hrep_is_appended (tb : Tube.t) (hs : list Tube.hrep) :
  (Forall2 (fun c h => compute_polytope_halfspaces c = Py.Ok h)
     (Tube.dual_vrep tb) hs ->
   exists tb',
     dual_hrep_stage tb = (Pipeline.Done, tb')
     /\ Tube.dual_hrep tb' = Tube.dual_hrep tb ++ hs
     /\ Tube.dual_vrep tb' = Tube.dual_vrep tb)
  /\ (forall (done : list (list vec3)) (c : list vec3)
             (rest : list (list vec3)) (x : Py.exn),
         Tube.dual_vrep tb = done ++ c :: rest ->
         Forall2 (fun c h => compute_polytope_halfspaces c = Py.Ok h) done hs ->
         compute_polytope_halfspaces c = Py.Raise x ->
         exists tb',
           dual_hrep_stage tb = (Pipeline.Failed (Pipeline.Builtin x), tb')
           /\ Tube.dual_hrep tb' = Tube.dual_hrep tb ++ hs).
Proof.
  unfold Pipeline.compute_dual_hrep. split.
  - intros Hall. rewrite (dual_hrep_loop_all _ hs tb Hall).
    eexists. split; [reflexivity|]. split; reflexivity.
  - intros done c rest x Hsplit Hall Hc.
    rewrite Hsplit, (dual_hrep_loop_fails done hs c rest x tb Hall Hc).
    eexists. split; reflexivity.
Qed.

End TubeStages.

(** ** The controller and its buffer *)

Section ControllerRuns.

Variable solve : MPC.LinearPredictiveControl -> Py.result (list Q).





Lemma nth_repeat_default (x : Q) (n i : nat) :
  (i < n)%nat -> nth i (repeat x n) 0%Q = x.
Proof.
  revert i. induction n as [|n IH]; intros i Hi; [lia|].
  destruct i as [|i]; cbn; [reflexivity|]. apply IH. lia.
Qed.

(** X9. When the solver returns the stacked controls [U] of [N] steps for a
    buffer of dimension [u_dim >= 1], [compute_preview_control] stores them
    with [N] copies of the time step, rewinds the cursor, and records [N]
    and the switch step in the buffer; the buffer then hands out the [N]
    controls in order, each for the duration [horizon / N], and the default
    pair afterwards. *)
Theorem solved_preview_is_replayed (s : MPC.t) (switch_time horizon : Q)
    (pc : MPC.LinearPredictiveControl) (U : list Q) (n : nat) :
  MPC.build_problem s switch_time horizon false = Py.Ok pc ->
  solve pc = Py.Ok U ->
  (0 < PreviewBuffer.u_dim (MPC.preview_buffer s))%Z ->
  List.length U
  = (Z.to_nat (MPC.nb_mpc_steps s)
     * Z.to_nat (PreviewBuffer.u_dim (MPC.preview_buffer s)))%nat ->
  exists s',
    MPC.compute_preview_control solve switch_time horizon false s
    = (Py.Ok tt, s')
    /\ PreviewBuffer.nb_steps (MPC.preview_buffer s') = MPC.nb_mpc_steps s
    /\ PreviewBuffer.switch_step (MPC.preview_buffer s')
       = Some (MPC.switch_step pc)
    /\ PreviewBuffer.cur_index (MPC.preview_buffer s') = 0%Z
    /\ MPC.log s' = MPC.log s
    /\ fst (PreviewBuffer.next_controls n (MPC.preview_buffer s'))
       = map (fun i =>
                Py.Ok
                  (if (i <? Z.to_nat (MPC.nb_mpc_steps s))%nat
                   then
                     (firstn (Z.to_nat (PreviewBuffer.u_dim
                                          (MPC.preview_buffer s)))
                        (skipn (i * Z.to_nat (PreviewBuffer.u_dim
                                                (MPC.preview_buffer s))) U),
                      MPC.timestep pc)
                   else PreviewBuffer._default_control (MPC.preview_buffer s)))
           (seq 0 n).
Proof.
  intros Hpc Hsolve Hd Hlen.
  unfold MPC.compute_preview_control, Py.bind, Py.get, Py.lift, Py.modify,
    Py.try_except, MPC.on_buffer.
  rewrite Hpc, Hsolve. cbn -[Nat.ltb].
  eexists. split; [reflexivity|]. cbn -[Nat.ltb].
  repeat split.
  rewrite (next_controls_from U
             (repeat (MPC.timestep pc) (Z.to_nat (MPC.nb_mpc_steps s))) n _ 0);
    try reflexivity; [|exact Hd|cbn; rewrite repeat_length; exact Hlen].
  cbn -[Nat.ltb]. rewrite repeat_length.
  apply map_ext_in. intros i _.
  destruct (Nat.ltb_spec i (Z.to_nat (MPC.nb_mpc_steps s))) as [Hi|Hi];
    [|reflexivity].
  unfold PreviewBuffer.stored. rewrite (nth_repeat_default _ _ _ Hi).
  reflexivity.
Qed.

End ControllerRuns.

Lemma solved_preview_is_replayed_witness :
  exists pc s',
    MPC.build_problem Scenario.controller (1 # 5) (7 # 10) false = Py.Ok pc
    /\ MPC.compute_preview_control Cases.steady (1 # 5) (7 # 10) false
         Scenario.controller
       = (Py.Ok tt, s')
    /\ PreviewBuffer.nb_steps (MPC.preview_buffer s') = 20%Z
    /\ PreviewBuffer.switch_step (MPC.preview_buffer s')
       = Some (MPC.switch_step pc)
    /\ PreviewBuffer.cur_index (MPC.preview_buffer s') = 0%Z
    /\ fst (PreviewBuffer.next_controls 2 (MPC.preview_buffer s'))
       = [Py.Ok ([1 # 10; 0; 0], MPC.timestep pc);
          Py.Ok ([1 # 10; 0; 0], MPC.timestep pc)].
Proof.
  destruct (MPC.build_problem Scenario.controller (1 # 5) (7 # 10) false)
    as [pc|x] eqn:Hpc; [|vm_compute in Hpc; discriminate Hpc].
  assert (Hnb : MPC.nb_steps pc = 20%Z).
  { vm_compute in Hpc. injection Hpc as <-. reflexivity. }
  assert (Hsolve : Cases.steady pc
                   = Py.Ok (List.concat (repeat [1 # 10; 0; 0] 20))).
  { unfold Cases.steady. rewrite Hnb. reflexivity. }
  destruct (solved_preview_is_replayed Cases.steady Scenario.controller
              (1 # 5) (7 # 10) pc _ 2 Hpc Hsolve)
    as (s' & Hrun & Hnbs & Hsw & Hidx & _ & Hnext).
  - reflexivity.
  - reflexivity.
  - exists pc, s'. repeat split; assumption.
Defined.

Section TubeStageCases.

Import Vec Model.

Lemma single_phase_uses_full_cone_witness :
  Tube.dual_vrep
    (snd (Tube.compute_dual_vrep Scenario.gravity Scenario.full_cone
            Scenario.reduced_cone Scenario.intersect_rects
            (Tube.compute_primal_vrep Scenario.sqrt Scenario.tube_ss_early)))
  = [Scenario.full_cone Scenario.ssl
       (Tube.tube_vertices Scenario.sqrt Scenario.tube_ss_early)].
Proof.
  apply (single_phase_uses_full_cone Scenario.sqrt Scenario.gravity
           Scenario.full_cone Scenario.reduced_cone Scenario.intersect_rects
           Scenario.tube_ss_early).
  - reflexivity.
  - reflexivity.
Defined.

Lemma dual_hrep_is_appended_witness :
  (exists tb',
      Pipeline.compute_dual_hrep (fun vs => Py.Ok (Cases.bounding_plane vs))
        Cases.tube_with_cones
      = (Pipeline.Done, tb')
      /\ Tube.dual_hrep tb'
         = [] ++ [Cases.bounding_plane Cases.cone_a;
                  Cases.bounding_plane Cases.cone_b]
      /\ Tube.dual_vrep tb' = [Cases.cone_a; Cases.cone_b])
  /\ (exists tb',
         Pipeline.compute_dual_hrep Cases.halfspaces Cases.tube_with_cones
         = (Pipeline.Failed (Pipeline.Builtin Py.RuntimeError), tb')
         /\ Tube.dual_hrep tb' = [] ++ [([[0; 0; 1]], [- (981 # 100)])]).
Proof.
  split.
  - apply (proj1 (dual_hrep_is_appended
                    (fun vs => Py.Ok (Cases.bounding_plane vs))
                    Cases.tube_with_cones
                    [Cases.bounding_plane Cases.cone_a;
                     Cases.bounding_plane Cases.cone_b])).
    repeat constructor.
  - apply (proj2 (dual_hrep_is_appended Cases.halfspaces
                    Cases.tube_with_cones [([[0; 0; 1]], [- (981 # 100)])])
             [Cases.cone_a] Cases.cone_b [] Py.RuntimeError).
    + reflexivity.
    + repeat constructor.
    + reflexivity.
Defined.

End TubeStageCases.

(** ** The controller's tick *)

Section ControllerTick.

Import Vec Model.

Variable sqrt : Q -> Q.
Variable gravity : vec3.
Variable pendular_accel_cone : Stance -> list vec3 -> list vec3.
Variable reduced_pendular_accel_cone : Stance -> list vec3 -> list vec2.
Variable intersect_polygons : list vec2 -> list vec2 -> list vec2.
Variable compute_polytope_halfspaces : list vec3 -> Py.result Tube.hrep.
Variable solve : MPC.LinearPredictiveControl -> Py.result (list Q).
Variable describe : Pipeline.failure -> string.

Local Abbreviation stages :=
  (Pipeline.compute_stages sqrt gravity pendular_accel_cone
     reduced_pendular_accel_cone intersect_polygons
     compute_polytope_halfspaces).
Local Abbreviation preview_tube :=
  (Pipeline.compute_preview_tube sqrt gravity pendular_accel_cone
     reduced_pendular_accel_cone intersect_polygons
     compute_polytope_halfspaces).
Local Abbreviation controller_tick :=
  (Pipeline.on_tick sqrt gravity pendular_accel_cone
     reduced_pendular_accel_cone intersect_polygons
     compute_polytope_halfspaces solve describe).

Lemma halfspaces_of_all (hs : list vec3 -> Tube.hrep)
    (cones : list (list vec3)) :
  (forall v, compute_polytope_halfspaces v = Py.Ok (hs v)) ->
  Forall2 (fun c h => compute_polytope_halfspaces c = Py.Ok h)
    cones (map hs cones).
Proof.
  intros Hall. induction cones as [|c cones IH]; cbn; constructor; auto.
Qed.

Lemma stages_succeed (hs : list vec3 -> Tube.hrep) (tb : Tube.t) :
  (forall v, compute_polytope_halfspaces v = Py.Ok (hs v)) ->
  exists tb',
    stages tb = (Pipeline.Done, tb')
    /\ List.length (Tube.dual_hrep tb')
       = (List.length (Tube.dual_hrep tb)
          + List.length (Tube.primal_vrep tb'))%nat
    /\ (1 <= List.length (Tube.primal_vrep tb') <= 2)%nat
    /\ Tube.full_hrep tb' = Some (hs (Tube.tube_vertices sqrt tb)).
Proof.
  intros Hall. unfold Pipeline.compute_stages, Pipeline.compute_primal_hrep.
  destruct (primal_vrep_shapes sqrt tb) as (Hfull & Hshape).
  rewrite Hfull, Hall.
  set (tb2 := Pipeline.set_full_hrep _ _).
  assert (Hfull2 : Tube.full_vrep tb2 = Some (Tube.tube_vertices sqrt tb))
    by exact Hfull.
  assert (Hdone : forall cones,
             Tube.compute_dual_vrep gravity pendular_accel_cone
               reduced_pendular_accel_cone intersect_polygons tb2
             = (Py.Ok tt, Tube.set_dual_vrep cones tb2) ->
             List.length cones = List.length (Tube.primal_vrep tb2) ->
             (1 <= List.length (Tube.primal_vrep tb2) <= 2)%nat ->
             exists tb',
               match Tube.compute_dual_vrep gravity pendular_accel_cone
                       reduced_pendular_accel_cone intersect_polygons tb2 with
               | (Py.Ok _, tb3) =>
                   Pipeline.compute_dual_hrep compute_polytope_halfspaces tb3
               | (Py.Raise x, tb3) =>
                   (Pipeline.Failed (Pipeline.Builtin x), tb3)
               end = (Pipeline.Done, tb')
               /\ List.length (Tube.dual_hrep tb')
                  = (List.length (Tube.dual_hrep tb)
                     + List.length (Tube.primal_vrep tb'))%nat
               /\ (1 <= List.length (Tube.primal_vrep tb') <= 2)%nat
               /\ Tube.full_hrep tb'
                  = Some (hs (Tube.tube_vertices sqrt tb))).
  { intros cones Hrun Hlen Hbound. rewrite Hrun.
    unfold Pipeline.compute_dual_hrep.
    rewrite (dual_hrep_loop_all compute_polytope_halfspaces _ (map hs cones) _
               (halfspaces_of_all hs cones Hall)).
    eexists. split; [reflexivity|]. cbn.
    rewrite length_app, length_map, Hlen. cbn.
    unfold Tube.compute_primal_vrep.
    destruct (Py.startswith (label (Tube.start_stance tb)) "SS");
      [destruct (all_close _ _ _)|]; cbn; repeat split; lia. }
  destruct Hshape as [Hpv|[Hpv|Hpv]].
  - apply (Hdone _ (compute_dual_vrep_one_phase gravity pendular_accel_cone
                      reduced_pendular_accel_cone intersect_polygons
                      tb2 _ Hpv));
      change (Tube.primal_vrep tb2)
        with (Tube.primal_vrep (Tube.compute_primal_vrep sqrt tb));
      rewrite Hpv; cbn; lia.
  - pose proof (compute_dual_vrep_two_phases gravity pendular_accel_cone
                  reduced_pendular_accel_cone intersect_polygons
                  tb2 _ _ _ Hpv Hfull2) as Hrun.
    apply (Hdone _ Hrun);
      change (Tube.primal_vrep tb2)
        with (Tube.primal_vrep (Tube.compute_primal_vrep sqrt tb));
      rewrite Hpv; cbn; lia.
  - pose proof (compute_dual_vrep_two_phases gravity pendular_accel_cone
                  reduced_pendular_accel_cone intersect_polygons
                  tb2 _ _ _ Hpv Hfull2) as Hrun.
    apply (Hdone _ Hrun);
      change (Tube.primal_vrep tb2)
        with (Tube.primal_vrep (Tube.compute_primal_vrep sqrt tb));
      rewrite Hpv;
      destruct (1 <? List.length (Tube.tube_vertices sqrt tb))%nat;
      cbn; lia.
Qed.

Lemma preview_tube_succeeds (hs : list vec3 -> Tube.hrep) (p : Pipeline.t) :
  FSM.wf (Pipeline.fsm p) ->
  (forall v, compute_polytope_halfspaces v = Py.Ok (hs v)) ->
  exists tb De1,
    preview_tube p
    = (Pipeline.Done,
       Pipeline.log_comp_time "tube_dual_hrep"
         (Pipeline.log_comp_time "tube_dual_vrep"
            (Pipeline.log_comp_time "tube_primal_hrep"
               (Pipeline.log_comp_time "tube_primal_vrep"
                  (Pipeline.set_mpc
                     (Pipeline.set_tube tb (Pipeline.mpc p)) p)))))
    /\ List.length (Tube.dual_hrep tb) = List.length (Tube.primal_vrep tb)
    /\ (1 <= List.length (Tube.primal_vrep tb) <= 2)%nat
    /\ Py.index (Tube.dual_hrep tb) 0 = Py.Ok De1.
Proof.
  intros Hwf Hall. unfold Pipeline.compute_preview_tube.
  destruct (next_stance_in_range _ Hwf) as (ns & ->).
  destruct (stages_succeed hs
              (Tube.init (MPC.com_p (Pipeline.mpc p))
                 (MPC.target_com_p (Pipeline.mpc p))
                 (FSM.cur_stance (Pipeline.fsm p)) ns
                 (Pipeline.tube_radius p) (1 # 100)) Hall)
    as (tb & -> & Hlen & Hbound & _).
  cbn [Tube.init Tube.dual_hrep List.length Nat.add] in Hlen.
  destruct (Tube.dual_hrep tb) as [|De1 rest] eqn:Hd; [cbn in Hlen; lia|].
  exists tb, De1. rewrite Hd. repeat split; try assumption; lia.
Qed.

(** X10. On a well-formed FSM and with a halfspace routine that succeeds,
    [compute_preview_tube] stores in [self.tube] a tube with exactly one
    dual halfspace pair per primal sub-phase (one or two), so that the pair
    at index 0 read by the controller always exists; it logs its four
    timings and touches neither the FSM nor the preview buffer. *)
Theorem preview_tube_one_pair_per_sub_phase (hs : list vec3 -> Tube.hrep)
    (p : Pipeline.t) :
  FSM.wf (Pipeline.fsm p) ->
  (forall v, compute_polytope_halfspaces v = Py.Ok (hs v)) ->
  exists p' tb De1,
    preview_tube p = (Pipeline.Done, p')
    /\ MPC.tube (Pipeline.mpc p') = Some tb
    /\ List.length (Tube.dual_hrep tb) = List.length (Tube.primal_vrep tb)
    /\ (1 <= List.length (Tube.dual_hrep tb) <= 2)%nat
    /\ MPC.dual_hrep_at (Pipeline.mpc p') 0 = Py.Ok De1
    /\ Pipeline.fsm p' = Pipeline.fsm p
    /\ MPC.preview_buffer (Pipeline.mpc p')
       = MPC.preview_buffer (Pipeline.mpc p)
    /\ Pipeline.metrics p'
       = Pipeline.metrics p
         ++ ["tube_primal_vrep"; "tube_primal_hrep"; "tube_dual_vrep";
             "tube_dual_hrep"]%string.
Proof.
  intros Hwf Hall.
  destruct (preview_tube_succeeds hs p Hwf Hall)
    as (tb & De1 & Hrun & Hlen & Hbound & H0).
  eexists. exists tb, De1. split; [exact Hrun|]. cbn.
  unfold MPC.dual_hrep_at. cbn.
  repeat split; try assumption; try lia.
  repeat rewrite <- app_assoc. reflexivity.
Qed.

Lemma preview_tube_keeps_buffer (p : Pipeline.t) :
  MPC.preview_buffer (Pipeline.mpc (snd (preview_tube p)))
  = MPC.preview_buffer (Pipeline.mpc p)
  /\ Pipeline.fsm (snd (preview_tube p)) = Pipeline.fsm p.
Proof.
  unfold Pipeline.compute_preview_tube.
  destruct (FSM.next_stance (Pipeline.fsm p)) as [ns|]; [|split; reflexivity].
  destruct (Pipeline.compute_stages _ _ _ _ _ _ _) as [[|f] tb];
    split; reflexivity.
Qed.

Lemma control_writes_on_success_only (m : MPC.t) (switch_time horizon : Q) :
  MPC.preview_buffer
    (snd (MPC.compute_preview_control solve switch_time horizon false m))
  = MPC.preview_buffer m
  \/ exists pc U,
       solve pc = Py.Ok U
       /\ MPC.preview_control
            (snd (MPC.compute_preview_control solve switch_time horizon
                    false m))
          = Some pc
       /\ PreviewBuffer._U
            (MPC.preview_buffer
               (snd (MPC.compute_preview_control solve switch_time horizon
                       false m)))
          = Some U.
Proof.
  unfold MPC.compute_preview_control, Py.bind, Py.get, Py.lift, Py.modify,
    Py.try_except, MPC.on_buffer.
  destruct (MPC.build_problem m switch_time horizon false) as [pc|x];
    [|left; reflexivity].
  destruct (solve pc) as [U|x] eqn:HU.
  - right. exists pc, U. cbn. repeat split. exact HU.
  - left. destruct x; reflexivity.
Qed.

(** X11. Once [get_preview_targets] has returned, the controller's tick
    never raises: a failure of any tube stage or of the control computation
    is caught and printed.  The tick leaves the FSM alone, and the preview
    buffer is the one from before the tick unless the solver returned
    controls, which are then the ones stored. *)
Theorem controller_tick_contains_failures (p : Pipeline.t)
    (targets : Q * Q * vec3 * vec3) :
  FSM.get_preview_targets (Pipeline.fsm p) = Py.Ok targets ->
  exists p',
    controller_tick p = (Py.Ok tt, p')
    /\ Pipeline.fsm p' = Pipeline.fsm p
    /\ (MPC.preview_buffer (Pipeline.mpc p')
        = MPC.preview_buffer (Pipeline.mpc p)
        \/ exists pc U,
             solve pc = Py.Ok U
             /\ MPC.preview_control (Pipeline.mpc p') = Some pc
             /\ PreviewBuffer._U (MPC.preview_buffer (Pipeline.mpc p'))
                = Some U).
Proof.
  intros Htg. unfold Pipeline.on_tick. rewrite Htg.
  destruct targets as [[[switch_time horizon] target_com] target_comd].
  set (p1 := Pipeline.set_mpc _ p).
  destruct (preview_tube_keeps_buffer p1) as (Hbuf & Hfsm).
  destruct (preview_tube p1) as [[|f] p2]; cbn [snd] in Hbuf, Hfsm.
  - pose proof (control_writes_on_success_only (Pipeline.mpc p2)
                  switch_time horizon) as Hctl.
    destruct (MPC.compute_preview_control solve switch_time horizon false
                (Pipeline.mpc p2)) as [[[]|x] m3]; cbn [snd] in Hctl;
      (eexists; split; [reflexivity|]; split; [exact Hfsm|]);
      (destruct Hctl as [Hsame|(pc & U & HU & Hpc & HUb)];
       [left; cbn; rewrite Hsame; exact Hbuf
       |right; exists pc, U; cbn; repeat split; assumption]).
  - eexists. split; [reflexivity|]. split; [exact Hfsm|].
    left. cbn. exact Hbuf.
Qed.

(** X12. The tick on an overshot timer.  In double support, when the
    targets give a negative switch step (the timer has gone below
    [-horizon / N]) and the tube is built, the tick neither raises nor
    solves anything: it prints the controller's error message for the
    [UnboundLocalError] of the second halfspace pair, keeps the previous
    problem and the previous buffer, and logs no solver timing. *)
Theorem overshot_tick_prints_and_holds (hs : list vec3 -> Tube.hrep)
    (p : Pipeline.t) (switch_time horizon dT : Q) (switch_step : Z)
    (target_com target_comd : vec3) :
  FSM.wf (Pipeline.fsm p) ->
  (forall v, compute_polytope_halfspaces v = Py.Ok (hs v)) ->
  FSM.get_preview_targets (Pipeline.fsm p)
  = Py.Ok (switch_time, horizon, target_com, target_comd) ->
  (0 < MPC.nb_mpc_steps (Pipeline.mpc p))%Z ->
  MPC.compute_timestep horizon (MPC.nb_mpc_steps (Pipeline.mpc p))
  = Py.Ok dT ->
  MPC.compute_switch_step switch_time dT = Py.Ok switch_step ->
  (switch_step < 0)%Z ->
  exists p',
    controller_tick p = (Py.Ok tt, p')
    /\ MPC.log (Pipeline.mpc p')
       = MPC.log (Pipeline.mpc p)
         ++ [String.append "COMTubePredictiveControl error: "
               (describe (Pipeline.Builtin Py.UnboundLocalError))]
    /\ MPC.preview_buffer (Pipeline.mpc p')
       = MPC.preview_buffer (Pipeline.mpc p)
    /\ MPC.preview_control (Pipeline.mpc p')
       = MPC.preview_control (Pipeline.mpc p)
    /\ Pipeline.metrics p'
       = Pipeline.metrics p
         ++ ["tube_primal_vrep"; "tube_primal_hrep"; "tube_dual_vrep";
             "tube_dual_hrep"]%string.
Proof.
  intros Hwf Hall Htg HN HdT Hss Hneg.
  unfold Pipeline.on_tick. rewrite Htg.
  set (p1 := Pipeline.set_mpc _ p).
  destruct (preview_tube_succeeds hs p1 Hwf Hall)
    as (tb & De1 & -> & _ & _ & H0).
  unfold MPC.compute_preview_control, Py.bind, Py.get, Py.lift.
  rewrite (build_problem_switch_negative _ switch_time horizon dT
             switch_step De1 false); try assumption.
  eexists. split; [reflexivity|]. cbn.
  repeat split. repeat rewrite <- app_assoc. reflexivity.
Qed.

End ControllerTick.

Lemma overshot_tick_prints_and_holds_witness :
  exists p',
    Pipeline.on_tick Scenario.sqrt Scenario.gravity Scenario.full_cone
      Scenario.reduced_cone Scenario.intersect_rects
      (fun vs => Py.Ok (Cases.bounding_plane vs)) Cases.steady Cases.describe
      Cases.process_overshot
    = (Py.Ok tt, p')
    /\ MPC.log (Pipeline.mpc p')
       = [] ++ ["COMTubePredictiveControl error: error"%string]
    /\ MPC.preview_buffer (Pipeline.mpc p') = Scenario.used_buffer
    /\ MPC.preview_control (Pipeline.mpc p') = None
    /\ Pipeline.metrics p'
       = [] ++ ["tube_primal_vrep"; "tube_primal_hrep"; "tube_dual_vrep";
                "tube_dual_hrep"]%string.
Proof.
  assert (Hwf : FSM.wf (Pipeline.fsm Cases.process_overshot))
    by (repeat split; cbn; lia).
  apply (overshot_tick_prints_and_holds Scenario.sqrt Scenario.gravity
           Scenario.full_cone Scenario.reduced_cone Scenario.intersect_rects
           (fun vs => Py.Ok (Cases.bounding_plane vs)) Cases.steady
           Cases.describe Cases.bounding_plane Cases.process_overshot
           (- (1 # 40)) ((- (1 # 40)) + (1 # 2) * 1)
           (((- (1 # 40)) + (1 # 2) * 1) / inject_Z 20) (- 1)
           (Model.com_p Scenario.dsl)
           (Vec.scale (2 # 5) (Model.t Scenario.left_contact)) Hwf).
  - reflexivity.
  - reflexivity.
  - reflexivity.
  - vm_compute. reflexivity.
  - reflexivity.
  - reflexivity.
Defined.

Lemma preview_tube_one_pair_per_sub_phase_witness :
  exists p' tb De1,
    Pipeline.compute_preview_tube Scenario.sqrt Scenario.gravity
      Scenario.full_cone Scenario.reduced_cone Scenario.intersect_rects
      (fun vs => Py.Ok (Cases.bounding_plane vs)) Cases.process
    = (Pipeline.Done, p')
    /\ MPC.tube (Pipeline.mpc p') = Some tb
    /\ List.length (Tube.dual_hrep tb) = List.length (Tube.primal_vrep tb)
    /\ (1 <= List.length (Tube.dual_hrep tb) <= 2)%nat
    /\ MPC.dual_hrep_at (Pipeline.mpc p') 0 = Py.Ok De1
    /\ Pipeline.fsm p' = Pipeline.fsm Cases.process
    /\ MPC.preview_buffer (Pipeline.mpc p') = Scenario.used_buffer
    /\ Pipeline.metrics p'
       = [] ++ ["tube_primal_vrep"; "tube_primal_hrep"; "tube_dual_vrep";
                "tube_dual_hrep"]%string.
Proof.
  assert (Hwf : FSM.wf (Pipeline.fsm Cases.process))
    by (repeat split; cbn; lia).
  apply (preview_tube_one_pair_per_sub_phase Scenario.sqrt Scenario.gravity
           Scenario.full_cone Scenario.reduced_cone Scenario.intersect_rects
           (fun vs => Py.Ok (Cases.bounding_plane vs))
           Cases.bounding_plane Cases.process Hwf).
  reflexivity.
Defined.

Lemma controller_tick_contains_failures_witness :
  exists p',
    Pipeline.on_tick Scenario.sqrt Scenario.gravity Scenario.full_cone
      Scenario.reduced_cone Scenario.intersect_rects Cases.halfspaces
      Cases.steady Cases.describe Cases.process
    = (Py.Ok tt, p')
    /\ Pipeline.fsm p' = Pipeline.fsm Cases.process
    /\ (MPC.preview_buffer (Pipeline.mpc p') = Scenario.used_buffer
        \/ exists pc U,
             Cases.steady pc = Py.Ok U
             /\ MPC.preview_control (Pipeline.mpc p') = Some pc
             /\ PreviewBuffer._U (MPC.preview_buffer (Pipeline.mpc p'))
                = Some U).
Proof.
  apply (controller_tick_contains_failures Scenario.sqrt Scenario.gravity
           Scenario.full_cone Scenario.reduced_cone Scenario.intersect_rects
           Cases.halfspaces Cases.steady Cases.describe Cases.process
           (1 # 5, ((1 # 5) + (1 # 2) * 1)%Q, Model.com_p Scenario.dsl,
            Vec.scale (2 # 5) (Model.t Scenario.left_contact))).
  reflexivity.
Defined.

(** ** The terminal flag *)

Section TerminalFlag.

Import Vec Model.

Lemma switch_stance_flags_ind (s : FSM.t) (P : FSM.t -> Prop) :
  (forall s',
      FSM.cycle s' = FSM.cycle s ->
      FSM.is_over s' = FSM.is_over s ->
      FSM.nb_stances s' = FSM.nb_stances s -> P s') ->
  P (snd (FSM.switch_stance s)).
Proof.
  intros HP. unfold FSM.switch_stance.
  unfold Py.bind at 1.
  set (handover := Py.bind (FSM.labels_are "DS-R" "DS-L") _).
  assert (Hh : exists l, snd (handover s) = FSM.with_log l s).
  { unfold handover, Py.bind.
    pose proof (labels_are_state "DS-R" "DS-L" s) as H1.
    destruct (FSM.labels_are "DS-R" "DS-L" s) as [[[]|] s1];
      cbn in H1; subst s1;
      [apply swing_reset_state|
      |exists (FSM.log s); symmetry; apply with_log_self].
    pose proof (labels_are_state "DS-L" "DS-R" s) as H2.
    destruct (FSM.labels_are "DS-L" "DS-R" s) as [[[]|] s2];
      cbn in H2; subst s2;
      [apply swing_reset_state
      |exists (FSM.log s); symmetry; apply with_log_self
      |exists (FSM.log s); symmetry; apply with_log_self]. }
  destruct Hh as (l & Hl).
  destruct (handover s) as [[[]|] s1]; cbn in Hl; subst s1;
    [|apply HP; reflexivity].
  unfold Py.bind, Py.get, Py.lift, Py.modify, FSM.imod. cbn.
  destruct (FSM.nb_stances s =? 0)%Z; [apply HP; reflexivity|]. cbn.
  destruct (Py.index (FSM.stances s)
              ((FSM.cur_stance_id s + 1) mod FSM.nb_stances s));
    apply HP; reflexivity.
Qed.

Lemma switch_stance_flags (s : FSM.t) :
  FSM.cycle (snd (FSM.switch_stance s)) = FSM.cycle s
  /\ FSM.is_over (snd (FSM.switch_stance s)) = FSM.is_over s
  /\ FSM.nb_stances (snd (FSM.switch_stance s)) = FSM.nb_stances s.
Proof.
  apply (switch_stance_flags_ind s
           (fun s' => FSM.cycle s' = FSM.cycle s
                      /\ FSM.is_over s' = FSM.is_over s
                      /\ FSM.nb_stances s' = FSM.nb_stances s)).
  auto.
Qed.

Lemma on_tick_flags (dt : Q) (com : vec3) (s : FSM.t) :
  FSM.is_over s = false ->
  FSM.cycle (snd (FSM.on_tick dt com s)) = FSM.cycle s
  /\ FSM.nb_stances (snd (FSM.on_tick dt com s)) = FSM.nb_stances s
  /\ (FSM.is_over (snd (FSM.on_tick dt com s)) = true ->
      FSM.cycle s = false
      /\ FSM.cur_stance_id (snd (FSM.on_tick dt com s))
         = (FSM.nb_stances s - 1)%Z).
Proof.
  intros Hover.
  unfold FSM.on_tick, Py.bind, Py.get, Py.lift, Py.ret. rewrite Hover.
  destruct (Py.Qltb 0 (FSM.rem_time s)).
  - destruct (Py.startswith (label (FSM.cur_stance s)) "SS");
      [destruct (Py.fdiv _ _)|]; cbn; rewrite ?Hover;
      repeat split; discriminate.
  - assert (Hrest :
      forall r,
        r = (if ((FSM.cur_stance_id s =? FSM.nb_stances s - 1)%Z
                 && negb (FSM.cycle s))%bool
             then Py.modify (FSM.set_is_over true)
             else FSM.switch_stance) s ->
        FSM.cycle (snd r) = FSM.cycle s
        /\ FSM.nb_stances (snd r) = FSM.nb_stances s
        /\ (FSM.is_over (snd r) = true ->
            FSM.cycle s = false
            /\ FSM.cur_stance_id (snd r) = (FSM.nb_stances s - 1)%Z)).
    { intros r ->.
      destruct (Z.eqb_spec (FSM.cur_stance_id s) (FSM.nb_stances s - 1))
        as [Hlast|Hne]; cbn [andb].
      - destruct (FSM.cycle s) eqn:Hcyc; cbn [negb].
        + destruct (switch_stance_flags s) as (Hc & Ho & Hn).
          rewrite Hc, Ho, Hn, Hover, Hcyc. repeat split; discriminate.
        + cbn. rewrite Hcyc. repeat split. exact Hlast.
      - destruct (switch_stance_flags s) as (Hc & Ho & Hn).
        rewrite Hc, Ho, Hn, Hover. repeat split; discriminate. }
    destruct (Py.startswith (label (FSM.cur_stance s)) "DS").
    + destruct (FSM.can_switch_to_ss com s) as [[]|]; cbn [negb];
        [apply Hrest; reflexivity
        |cbn; rewrite Hover; repeat split; discriminate
        |cbn; rewrite Hover; repeat split; discriminate].
    + apply Hrest. reflexivity.
Qed.

(** X13. The terminal flag is raised only at the end of a non-cyclic
    sequence: along any run, [cycle] and [nb_stances] never change, and if
    [is_over] is true afterwards although it was false before, then the FSM
    is not cyclic and stands at the last index.  In particular a cyclic FSM
    is never over. *)
Theorem over_only_at_the_end (ticks : list (Q * vec3)) (s : FSM.t) :
  FSM.is_over s = false ->
  FSM.cycle (snd (FSM.run ticks s)) = FSM.cycle s
  /\ FSM.nb_stances (snd (FSM.run ticks s)) = FSM.nb_stances s
  /\ (FSM.is_over (snd (FSM.run ticks s)) = true ->
      FSM.cycle s = false
      /\ FSM.cur_stance_id (snd (FSM.run ticks s))
         = (FSM.nb_stances s - 1)%Z).
Proof.
  revert s. induction ticks as [|[dt com] rest IH]; intros s Hover.
  - cbn. rewrite Hover. repeat split; discriminate.
  - cbn [FSM.run]. unfold Py.bind.
    destruct (on_tick_flags dt com s Hover) as (Hc & Hn & Hend).
    destruct (FSM.on_tick dt com s) as [[[]|x] s1]; cbn [snd] in *.
    + destruct (FSM.is_over s1) eqn:Hover1.
      * rewrite (run_over rest s1 Hover1). cbn [snd].
        rewrite Hover1. repeat split; try assumption; apply Hend; reflexivity.
      * destruct (IH s1 Hover1) as (Hc' & Hn' & Hend').
        rewrite Hc', Hn', Hc, Hn. repeat split.
        -- rewrite <- Hc. apply Hend'. assumption.
        -- rewrite <- Hn. apply Hend'. assumption.
    + repeat split; try assumption; apply Hend; assumption.
Qed.

Lemma over_only_at_the_end_witness :
  FSM.cycle
    (snd (FSM.run (repeat (3 # 100, Scenario.com_inside) 40)
            (Scenario.fsm_at Scenario.walk true 0 Scenario.dsl (7 # 10) false)))
  = true
  /\ FSM.nb_stances
       (snd (FSM.run (repeat (3 # 100, Scenario.com_inside) 40)
               (Scenario.fsm_at Scenario.walk true 0 Scenario.dsl (7 # 10)
                  false)))
     = 4%Z
  /\ (FSM.is_over
        (snd (FSM.run (repeat (3 # 100, Scenario.com_inside) 40)
                (Scenario.fsm_at Scenario.walk true 0 Scenario.dsl (7 # 10)
                   false)))
      = true ->
      true = false
      /\ FSM.cur_stance_id
           (snd (FSM.run (repeat (3 # 100, Scenario.com_inside) 40)
                   (Scenario.fsm_at Scenario.walk true 0 Scenario.dsl
                      (7 # 10) false)))
         = (4 - 1)%Z).
Proof.
  apply (over_only_at_the_end (repeat (3 # 100, Scenario.com_inside) 40)
           (Scenario.fsm_at Scenario.walk true 0 Scenario.dsl (7 # 10) false)).
  reflexivity.
Defined.

End TerminalFlag.

(** ** The buffer as a process *)

Section BufferTicks.

(** X14. While the current control still has at least one tick to live
    ([dt <= rem_time]), a tick of the buffer fetches nothing: the current
    control, the cursor and the stored preview are untouched, the remaining
    time decreases by [dt], and the callback, when there is one, is called
    once with the current control and [dt]. *)
Theorem buffer_tick_holds_control (s : BufferProcess.t) (dt : Q) :
  (dt <= PreviewBuffer.rem_time (BufferProcess.buffer s))%Q ->
  BufferProcess.on_tick dt s
  = (Py.Ok tt,
     BufferProcess.mk
       (BufferProcess.set_rem_time
          (PreviewBuffer.rem_time (BufferProcess.buffer s) - dt)
          (BufferProcess.buffer s))
       (BufferProcess.has_callback s)
       (BufferProcess.calls s
        ++ (if BufferProcess.has_callback s
            then [(PreviewBuffer.cur_control (BufferProcess.buffer s), dt)]
            else []))).
Proof.
  intros Hle. apply Qltb_false in Hle.
  unfold BufferProcess.on_tick, Py.bind, Py.get, Py.ret.
  rewrite Hle.
  destruct s as [b cb calls]. cbn [BufferProcess.buffer
    BufferProcess.has_callback BufferProcess.calls] in *.
  destruct cb; cbn; rewrite ?app_nil_r; reflexivity.
Qed.

Lemma buffer_tick_holds_control_witness :
  BufferProcess.on_tick (3 # 100) Cases.holding_process
  = (Py.Ok tt,
     BufferProcess.mk
       (BufferProcess.set_rem_time ((1 # 20) - (3 # 100))
          (BufferProcess.buffer Cases.holding_process))
       true
       ([] ++ [(Some [1; 2; 3], 3 # 100)])).
Proof.
  apply (buffer_tick_holds_control Cases.holding_process (3 # 100)).
  vm_compute. discriminate.
Defined.

(** X15. When the current control has less than one tick left
    ([rem_time < dt]), a tick fetches the next pair before calling back.
    With a stored pair left at the cursor, the current control becomes that
    pair's control, the cursor advances by one and the remaining time is the
    pair's duration minus [dt]; on an empty buffer the current control
    becomes the default control and the remaining time the default duration
    minus [dt].  The callback then sees the new control. *)
Theorem buffer_tick_fetches_control (s : BufferProcess.t) (dt : Q) :
  (PreviewBuffer.rem_time (BufferProcess.buffer s) < dt)%Q ->
  (forall (U dT : list Q) (i : nat),
      PreviewBuffer._U (BufferProcess.buffer s) = Some U ->
      PreviewBuffer._dT (BufferProcess.buffer s) = Some dT ->
      PreviewBuffer.cur_index (BufferProcess.buffer s) = Z.of_nat i ->
      (0 < PreviewBuffer.u_dim (BufferProcess.buffer s))%Z ->
      List.length U
      = (List.length dT
         * Z.to_nat (PreviewBuffer.u_dim (BufferProcess.buffer s)))%nat ->
      (i < List.length dT)%nat ->
      exists s',
        BufferProcess.on_tick dt s = (Py.Ok tt, s')
        /\ PreviewBuffer.cur_control (BufferProcess.buffer s')
           = Some (fst (PreviewBuffer.stored
                          (Z.to_nat (PreviewBuffer.u_dim
                                       (BufferProcess.buffer s))) U dT i))
        /\ PreviewBuffer.cur_index (BufferProcess.buffer s')
           = (Z.of_nat i + 1)%Z
        /\ PreviewBuffer.rem_time (BufferProcess.buffer s')
           = (nth i dT 0 - dt)%Q
        /\ BufferProcess.calls s'
           = BufferProcess.calls s
             ++ (if BufferProcess.has_callback s
                 then [(Some (fst (PreviewBuffer.stored
                                     (Z.to_nat (PreviewBuffer.u_dim
                                                  (BufferProcess.buffer s)))
                                     U dT i)), dt)]
                 else []))
  /\ (PreviewBuffer._U (BufferProcess.buffer s) = None ->
      exists s',
        BufferProcess.on_tick dt s = (Py.Ok tt, s')
        /\ PreviewBuffer.cur_control (BufferProcess.buffer s')
           = Some (fst (PreviewBuffer._default_control
                          (BufferProcess.buffer s)))
        /\ PreviewBuffer.cur_index (BufferProcess.buffer s')
           = PreviewBuffer.cur_index (BufferProcess.buffer s)
        /\ PreviewBuffer.rem_time (BufferProcess.buffer s')
           = (snd (PreviewBuffer._default_control (BufferProcess.buffer s))
              - dt)%Q
        /\ BufferProcess.calls s'
           = BufferProcess.calls s
             ++ (if BufferProcess.has_callback s
                 then [(Some (fst (PreviewBuffer._default_control
                                     (BufferProcess.buffer s))), dt)]
                 else [])).
Proof.
  intros Hlt. apply Qltb_true in Hlt. split.
  - intros U dT i HU HdT Hidx Hd Hlen Hi.
    unfold BufferProcess.on_tick, BufferProcess.on_buffer, Py.bind, Py.get,
      Py.ret, Py.modify.
    rewrite Hlt.
    rewrite (get_next_control_stored _ U dT i HU HdT Hidx Hd Hlen Hi).
    destruct s as [b cb calls]. cbn [BufferProcess.buffer
      BufferProcess.has_callback BufferProcess.calls] in *.
    destruct cb; cbn; eexists; (split; [reflexivity|]); cbn;
      rewrite ?app_nil_r; repeat split.
  - intros HU.
    unfold BufferProcess.on_tick, BufferProcess.on_buffer, Py.bind, Py.get,
      Py.ret, Py.modify.
    rewrite Hlt. rewrite (get_next_control_empty _ HU).
    destruct s as [b cb calls]. cbn [BufferProcess.buffer
      BufferProcess.has_callback BufferProcess.calls] in *.
    destruct cb; cbn; eexists; (split; [reflexivity|]); cbn;
      rewrite ?app_nil_r; repeat split.
Qed.

Lemma buffer_tick_fetches_control_witness :
  exists s',
    BufferProcess.on_tick (3 # 100) Cases.fresh_process = (Py.Ok tt, s')
    /\ PreviewBuffer.cur_control (BufferProcess.buffer s') = Some [1; 2; 3]
    /\ PreviewBuffer.cur_index (BufferProcess.buffer s') = (0 + 1)%Z
    /\ PreviewBuffer.rem_time (BufferProcess.buffer s')
       = ((1 # 20) - (3 # 100))%Q
    /\ BufferProcess.calls s' = [] ++ [(Some [1; 2; 3], 3 # 100)].
Proof.
  apply (proj1 (buffer_tick_fetches_control Cases.fresh_process (3 # 100)
                  eq_refl)
           Scenario.preview_U Scenario.preview_dT 0%nat).
  - reflexivity.
  - reflexivity.
  - reflexivity.
  - reflexivity.
  - reflexivity.
  - cbn. lia.
Defined.

End BufferTicks.

(** ** The swing foot *)

Section SwingFacts.

Import Vec.

Variable quat_slerp : list Q -> list Q -> Q -> list Q.
Variable interpolate_pose_linear : Swing.Pose -> Swing.Pose -> Q -> Swing.Pose.
Variable normal_of_quat : list Q -> vec3.

Local Abbreviation reset :=
  (Swing.reset interpolate_pose_linear normal_of_quat).
Local Abbreviation update_pose := (Swing.update_pose quat_slerp).

(** X16. After [reset(start_pose, end_pose)], [update_pose(0)] puts the
    foot at the position of [start_pose] and [update_pose(0.5)] at the apex,
    the linear mid-pose raised by [swing_height] along its normal; for
    [0 <= s < 1] the interpolation weight lies in [[0, 1]]; and
    [update_pose(s)] with [s >= 1] changes nothing, so that the foot is
    never moved onto [end_pose] by [update_pose]. *)
Theorem swing_pose_landmarks (start_pose end_pose : Swing.Pose)
    (st0 : Swing.t) (s : Q) :
  let st := reset start_pose end_pose st0 in
  let apex :=
    add (Swing.pos (interpolate_pose_linear start_pose end_pose (1 # 2)))
      (scale (Swing.swing_height st0)
         (normal_of_quat
            (Swing.quat
               (interpolate_pose_linear start_pose end_pose (1 # 2))))) in
  (exists p,
      Swing.body_pose (snd (update_pose 0 st)) = Some p
      /\ (vx (Swing.pos p) == vx (Swing.pos start_pose))%Q
      /\ (vy (Swing.pos p) == vy (Swing.pos start_pose))%Q
      /\ (vz (Swing.pos p) == vz (Swing.pos start_pose))%Q)
  /\ (exists p,
         Swing.body_pose (snd (update_pose (1 # 2) st)) = Some p
         /\ (vx (Swing.pos p) == vx apex)%Q
         /\ (vy (Swing.pos p) == vy apex)%Q
         /\ (vz (Swing.pos p) == vz apex)%Q)
  /\ ((0 <= s)%Q -> (s < 1)%Q ->
      (0 <= snd (Swing.segment s st))%Q /\ (snd (Swing.segment s st) <= 1)%Q)
  /\ ((1 <= s)%Q -> update_pose s st = (Py.Ok tt, st)).
Proof.
  cbv zeta. split; [|split; [|split]].
  - eexists. split; [reflexivity|]. cbn. repeat split; ring.
  - eexists. split; [reflexivity|]. cbn. repeat split; ring.
  - intros H0 H1. unfold Swing.segment.
    destruct (Qle_bool s (1 # 2)) eqn:E; cbn [snd].
    + apply Qle_bool_iff in E. split; lra.
    + assert (Hgt : ~ (s <= 1 # 2)%Q).
      { intro Hle. apply Qle_bool_iff in Hle. congruence. }
      split; lra.
  - intros H1. unfold Swing.update_pose, Py.bind, Py.get, Py.ret.
    rewrite (proj2 (Qle_bool_iff 1 s) H1). reflexivity.
Qed.

End SwingFacts.

Lemma swing_pose_landmarks_witness :
  (0 <= snd (Swing.segment (3 # 4) Cases.swinging))%Q
  /\ (snd (Swing.segment (3 # 4) Cases.swinging) <= 1)%Q.
Proof.
  apply (swing_pose_landmarks Cases.slerp Cases.interpolate Cases.vertical
           Cases.foothold_a Cases.foothold_b (Swing.init (15 # 100)) (3 # 4)).
  - cbn. lra.
  - cbn. lra.
Defined.

(** ** The staircase *)

Section StaircaseFacts.

Import Vec Model.

Variable contact_p : Contact -> vec3.
Variable leg_length : Q.
Variable sep_dist : vec3 -> option Contact -> option Contact -> vec3 -> Q.
Variables ds_duration ss_duration : Q.

Local Abbreviation iteration :=
  (Staircase.iteration contact_p leg_length sep_dist ds_duration ss_duration).
Local Abbreviation iterations :=
  (Staircase.iterations contact_p leg_length sep_dist ds_duration ss_duration).
Local Abbreviation sound := (Staircase.sound ds_duration ss_duration).

Local Abbreviation after := (Staircase.after_iterations ds_duration ss_duration).

Lemma label_prefix_succ (n : nat) :
  Staircase.label_prefix (S n)
  = Staircase.label_prefix n ++ ["DS-L"; "SS-L"; "DS-R"; "SS-R"]%string.
Proof.
  unfold Staircase.label_prefix.
  rewrite <- app_assoc. f_equal.
  change (repeat ["DS-L"; "SS-L"; "DS-R"; "SS-R"]%string (S n))
    with (["DS-L"; "SS-L"; "DS-R"; "SS-R"]%string
          :: repeat ["DS-L"; "SS-L"; "DS-R"; "SS-R"]%string n).
  rewrite repeat_cons, concat_app. cbn [List.concat]. rewrite app_nil_r.
  reflexivity.
Qed.

Lemma sound_ds (lbl : string) (com : vec3) (l r : Contact) :
  lbl = "DS-L"%string \/ lbl = "DS-R"%string ->
  sound (Staircase.stance sep_dist lbl ds_duration com (Some l) (Some r)).
Proof.
  intros [->| ->]; (split; [discriminate|split]);
    [intros _; repeat split; discriminate|discriminate
    |intros _; repeat split; discriminate|discriminate].
Qed.

Lemma sound_ssl (com : vec3) (l : Contact) :
  sound (Staircase.stance sep_dist "SS-L" ss_duration com (Some l) None).
Proof.
  split; [discriminate|split]; [discriminate|reflexivity].
Qed.

Lemma sound_ssr (com : vec3) (r : Contact) :
  sound (Staircase.stance sep_dist "SS-R" ss_duration com None (Some r)).
Proof.
  split; [discriminate|split]; [discriminate|reflexivity].
Qed.

Lemma iteration_step (k : nat) (feet : Contact * Contact)
    (v : Staircase.vars) :
  after k v -> after (S k) (iteration feet v).
Proof.
  destruct feet as [l r]. destruct k as [|n].
  - intros (Hst & Hfirst & Hprev).
    unfold Staircase.iteration. rewrite Hst, Hfirst, Hprev.
    cbn. split; [eexists; reflexivity|]. split; [eexists; reflexivity|].
    split; [reflexivity|].
    constructor; [apply sound_ds; right; reflexivity|].
    constructor; [apply sound_ssr|constructor].
  - intros ((r0 & Hprev) & (f & Hfirst) & Hlabels & Hsound).
    unfold Staircase.iteration. rewrite Hfirst, Hprev.
    cbn [Staircase.prev_right_foot Staircase.first_left_foot
         Staircase.stances Staircase.after_iterations fst snd].
    split; [eexists; reflexivity|]. split; [eexists; reflexivity|].
    split.
    + rewrite !map_app, Hlabels, label_prefix_succ, <- app_assoc.
      reflexivity.
    + apply Forall_app. split; [apply Forall_app; split; [exact Hsound|]|].
      * constructor; [apply sound_ds; left; reflexivity|].
        constructor; [apply sound_ssl|constructor].
      * constructor; [apply sound_ds; right; reflexivity|].
        constructor; [apply sound_ssr|constructor].
Qed.

Lemma iterations_steps (feet : list (Contact * Contact)) :
  forall (k : nat) (v : Staircase.vars),
    after k v -> after (k + List.length feet) (iterations feet v).
Proof.
  induction feet as [|f feet IH]; intros k v Hk; cbn [Staircase.iterations].
  - rewrite Nat.add_0_r. exact Hk.
  - cbn [List.length]. rewrite Nat.add_succ_r.
    apply (IH (S k)). apply iteration_step. exact Hk.
Qed.

(** X17. [generate_staircase] raises [AttributeError] when the range of
    angles is empty.  Over [n + 1] angles it returns [4 (n + 1)] stances
    labelled [DS-R, SS-R], then [n] times [DS-L, SS-L, DS-R, SS-R], then
    [DS-L, SS-L]; every stance has the foot its label names, every
    double-support stance has both feet and the double-support duration,
    every single-support stance the single-support duration; and the FSM
    can be built on the result. *)
Theorem staircase_structure (f0 : Contact * Contact)
    (rest : list (Contact * Contact)) (init_com_offset : option vec3)
    (cyc : bool) :
  Staircase.generate_staircase contact_p leg_length sep_dist []
    ds_duration ss_duration init_com_offset
  = Py.Raise Py.AttributeError
  /\ exists sts fsm,
       Staircase.generate_staircase contact_p leg_length sep_dist
         (f0 :: rest) ds_duration ss_duration init_com_offset
       = Py.Ok sts
       /\ map label sts = Staircase.label_pattern (List.length rest)
       /\ List.length sts = (4 * (List.length rest + 1))%nat
       /\ Forall sound sts
       /\ FSM.init sts cyc = Py.Ok fsm.
Proof.
  split; [reflexivity|].
  unfold Staircase.generate_staircase.
  pose proof (iterations_steps (f0 :: rest) 0
                (Staircase.mkVars [] None None init_com_offset)
                (conj eq_refl (conj eq_refl eq_refl))) as Hafter.
  cbn [List.length Nat.add] in Hafter.
  destruct Hafter as ((r & Hprev) & (f & Hfirst) & Hlabels & Hsound).
  rewrite Hfirst, Hprev.
  assert (Hmap :
    map label
      (Staircase.stances
         (iterations (f0 :: rest)
            (Staircase.mkVars [] None None init_com_offset))
       ++ [Staircase.stance sep_dist "DS-L" ds_duration
             (add (contact_p f) (mk3 0 0 leg_length)) (Some f) (Some r);
           Staircase.stance sep_dist "SS-L" ss_duration
             (add (contact_p f) (mk3 0 0 leg_length)) (Some f) None])
    = Staircase.label_pattern (List.length rest)).
  { rewrite map_app, Hlabels. reflexivity. }
  eexists. 
  assert (Hlen : forall n, List.length (Staircase.label_pattern n)
                           = (4 * (n + 1))%nat).
  { intros n. unfold Staircase.label_pattern, Staircase.label_prefix.
    rewrite !length_app. cbn [List.length].
    induction n as [|n IHn]; [reflexivity|].
    cbn [repeat List.concat]. rewrite length_app. cbn [List.length]. lia. }
  assert (Hne : exists s0 tl,
             Staircase.stances
               (iterations (f0 :: rest)
                  (Staircase.mkVars [] None None init_com_offset))
             ++ [Staircase.stance sep_dist "DS-L" ds_duration
                   (add (contact_p f) (mk3 0 0 leg_length)) (Some f) (Some r);
                 Staircase.stance sep_dist "SS-L" ss_duration
                   (add (contact_p f) (mk3 0 0 leg_length)) (Some f) None]
             = s0 :: tl).
  { destruct (Staircase.stances _) as [|s0 tl]; eexists; eexists;
      reflexivity. }
  destruct Hne as (s0 & tl & Hcons).
  exists (FSM.mk (label s0) s0 0 cyc false
            (Z.of_nat (List.length (s0 :: tl))) (duration s0) (s0 :: tl) []).
  split; [reflexivity|]. split; [exact Hmap|].
  split; [rewrite <- (length_map label), Hmap; apply Hlen|].
  split.
  - apply Forall_app. split; [exact Hsound|].
    constructor; [apply sound_ds; left; reflexivity|].
    constructor; [apply sound_ssl|constructor].
  - rewrite Hcons. reflexivity.
Qed.

End StaircaseFacts.

(** ** [pymanoid.misc] *)

Section MiscFacts.

Import Vec.









(** X20. [matplotlib_to_rgb] never fails: it returns three components for
    every string, and a string that is none of the seven colour codes
    [r, g, b, c, m, y, w] gives black, as [k] does. *)
Theorem unknown_colour_is_black (color : string) :
  List.length (Color.matplotlib_to_rgb color) = 3%nat
  /\ (~ In color ["r"; "g"; "b"; "c"; "m"; "y"; "w"]%string ->
      Color.matplotlib_to_rgb color = [0; 0; 0]).
Proof.
  split.
  - unfold Color.matplotlib_to_rgb.
    destruct (String.eqb color "k"); [reflexivity|].
    destruct (String.eqb color "w"); reflexivity.
  - intros Hnot. unfold Color.matplotlib_to_rgb, Color.is_in.
    destruct (String.eqb color "k"); [reflexivity|].
    cbn [existsb].
    repeat match goal with
           | |- context [String.eqb color ?c] =>
               destruct (String.eqb_spec color c) as [->|_];
               [exfalso; apply Hnot; cbn; tauto|]
           end.
    reflexivity.
Qed.

Lemma unknown_colour_is_black_witness :
  Color.matplotlib_to_rgb "orange" = [0; 0; 0].
Proof.
  apply (unknown_colour_is_black "orange").
  cbn. intros [H|[H|[H|[H|[H|[H|[H|[]]]]]]]]; discriminate H.
Defined.

End MiscFacts.

(** ** Polynomials *)

Section PolynomialFacts.





End PolynomialFacts.

(** ** The preview targets on a sound sequence *)

Section TargetFacts.

Import Vec Model.

Lemma index_is_member {X} (l : list X) (i : Z) (a : X) :
  Py.index l i = Py.Ok a -> In a l.
Proof.
  unfold Py.index.
  destruct ((0 <=? _)%Z && _)%bool; [|discriminate].
  destruct (nth_error l _) as [b|] eqn:E; [|discriminate].
  intros H. injection H as <-. exact (nth_error_In _ _ E).
Qed.

(** X22. On a well-formed FSM whose current stance has its stance foot,
    [get_preview_targets] never raises; the switch time it returns is
    [rem_time], and, when no stance has a negative duration, the horizon is
    never shorter than the switch time. *)
Theorem preview_targets_are_produced (s : FSM.t) :
  FSM.wf s ->
  FSM.stance_foot (FSM.cur_stance s) <> None ->
  exists horizon target_com target_comd,
    FSM.get_preview_targets s
    = Py.Ok (FSM.rem_time s, horizon, target_com, target_comd)
    /\ (Forall (fun st => (0 <= duration st)%Q) (FSM.stances s) ->
        (FSM.rem_time s <= horizon)%Q).
Proof.
  intros Hwf Hfoot.
  destruct (next_stance_in_range s Hwf) as (ns & Hns).
  destruct (next_next_stance_in_range s Hwf) as (nns & Hnns).
  assert (Hin : In ns (FSM.stances s)).
  { unfold FSM.next_stance in Hns. exact (index_is_member _ _ _ Hns). }
  assert (Hinn : In nns (FSM.stances s)).
  { unfold FSM.next_next_stance, FSM.imod in Hnns.
    destruct (_ >=? _)%Z; [destruct (FSM.cycle s);
      [destruct (_ =? 0)%Z; [discriminate|]|]|];
      exact (index_is_member _ _ _ Hnns). }
  destruct (FSM.stance_foot (FSM.cur_stance s)) as [foot|] eqn:Ef;
    [|contradiction].
  unfold FSM.get_preview_targets. rewrite Hns, Hnns, Ef. cbn [Py.rbind FSM.foot_t].
  destruct (Py.startswith (label (FSM.cur_stance s)) "SS"
            && Py.Qltb (FSM.rem_time s)
                 ((1 # 2) * duration (FSM.cur_stance s)))%bool;
    [|destruct (Py.startswith (label (FSM.cur_stance s)) "DS")];
    eexists; eexists; eexists; (split; [reflexivity|]);
    intros Hdur; rewrite Forall_forall in Hdur;
    pose proof (Hdur ns Hin) as H1; pose proof (Hdur nns Hinn) as H2; lra.
Qed.

Lemma preview_targets_are_produced_witness :
  exists horizon target_com target_comd,
    FSM.get_preview_targets
      (Scenario.fsm_at Scenario.walk true 1 Scenario.ssl (2 # 5) false)
    = Py.Ok (2 # 5, horizon, target_com, target_comd)
    /\ (Forall (fun st => (0 <= duration st)%Q) Scenario.walk ->
        (2 # 5 <= horizon)%Q).
Proof.
  apply (preview_targets_are_produced
           (Scenario.fsm_at Scenario.walk true 1 Scenario.ssl (2 # 5) false)).
  - repeat split; cbn; lia.
  - discriminate.
Defined.

End TargetFacts.
